(** * yt documentation excerpt: packaging manifest, pre-commit configuration
    and tutorial notebooks

    The repository content under verification is
    - the packaging manifest (MANIFEST.in), a list of include / exclude /
      prune / recursive-include directives applied in file order;
    - the pre-commit configuration (.pre-commit-config.yaml);
    - four notebooks: Loading_Generic_Array_Data, Loading_Generic_Particle_Data,
      Particle_Trajectories and the FITS X-ray images notebook.

    The manifest is embedded as its text lines together with the template
    reader that turns a line into a directive and a directive into an update of
    the list of shipped files.  The notebooks are embedded cell by cell as
    programs of a small state-and-exception monad: Python values built by the
    notebook itself (dictionaries, tuples, lists, numbers, array shapes) are
    computed; every call the notebook does not decide itself (into yt, h5py,
    astropy, matplotlib, os, and builtins such as print, open, min and max) is
    recorded in a history together with the answer it got.  Import statements
    and the IPython magic of the first cells have no counterpart. *)

From Stdlib Require Import String Ascii List ZArith QArith Bool Lia Sorted Permutation Floats.
#[local] Set Warnings "-inexact-float".
Import ListNotations.
Local Open Scope string_scope.
Local Open Scope list_scope.

(* ===================================================================== *)
(** * Packaging manifest *)
(* ===================================================================== *)

Module Manifest.

(** The 31 lines of MANIFEST.in, verbatim (line 27 is blank, line 1 has a
    double blank between CITATION and setupext.py). *)
Definition manifest_lines : list string :=
  [ "include README* CREDITS COPYING.txt CITATION  setupext.py CONTRIBUTING.rst"
  ; "include yt/visualization/mapserver/html/map.js"
  ; "include yt/visualization/mapserver/html/map_index.html"
  ; "include yt/visualization/mapserver/html/Leaflet.Coordinates-0.1.5.css"
  ; "include yt/visualization/mapserver/html/Leaflet.Coordinates-0.1.5.src.js"
  ; "include yt/utilities/tests/cosmology_answers.yml"
  ; "include yt/utilities/mesh_types.yaml"
  ; "exclude scripts/pr_backport.py"
  ; "exclude yt/utilities/lib/cykdtree/c_kdtree.cpp"
  ; "prune docker"
  ; "prune tests"
  ; "prune answer-store"
  ; "recursive-include yt *.py *.pyx *.pxi *.pxd *.h *.hpp README* *.txt LICENSE* *.cu"
  ; "recursive-include doc *.rst *.txt *.py *.ipynb *.png *.jpg *.css *.html"
  ; "recursive-include doc *.h *.c *.sh *.svgz *.pdf *.svg *.pyx"
  ; "include doc/README doc/activate doc/activate.csh doc/cheatsheet.tex"
  ; "exclude doc/cheatsheet.pdf"
  ; "include doc/extensions/README doc/Makefile"
  ; "prune doc/source/reference/api/generated"
  ; "prune doc/build"
  ; "prune .tours"
  ; "recursive-include yt/visualization/volume_rendering/shaders *.fragmentshader *.vertexshader"
  ; "include yt/sample_data_registry.json"
  ; "include conftest.py"
  ; "include yt/py.typed"
  ; "include yt/default.mplstyle"
  ; EmptyString
  ; "prune yt/frontends/_skeleton"
  ; "recursive-include yt/frontends/amrvac *.par"
  ; "exclude .codecov.yml .coveragerc .git-blame-ignore-revs .gitmodules .hgchurn .mailmap"
  ; "exclude .pre-commit-config.yaml clean.sh nose_answer.cfg nose_unit.cfg nose_ignores.txt"
  ].

(** ** Reading a template line

    The manifest is a template for the packaging tool (setuptools, with the
    file-list reader it inherits from distutils).  The reader drops what
    follows a [#], splits the line on white space, and dispatches on the first
    word; the eight actions and their arities are the tool's. *)

Definition is_space (c : ascii) : bool :=
  let n := nat_of_ascii c in
  (n =? 32)%nat || ((9 <=? n)%nat && (n <=? 13)%nat).

Fixpoint strip_comment (s : string) : string :=
  match s with
  | EmptyString => EmptyString
  | String c s' => if Ascii.eqb c "#" then EmptyString else String c (strip_comment s')
  end.

(** [split_on sep s acc]: the pieces of [s] between separator characters;
    [acc] is the piece read so far.  Empty pieces are kept. *)
Fixpoint split_on (sep : ascii -> bool) (s : string) (acc : string) : list string :=
  match s with
  | EmptyString => [acc]
  | String c s' =>
      if sep c then acc :: split_on sep s' EmptyString
      else split_on sep s' (acc ++ String c EmptyString)
  end.

Definition nonempty (s : string) : bool :=
  match s with EmptyString => false | _ => true end.

(** Python's [line.split()]: maximal runs of non-blank characters. *)
Definition words (s : string) : list string :=
  filter nonempty (split_on is_space s EmptyString).

Definition is_blank (line : string) : bool :=
  match words (strip_comment line) with [] => true | _ => false end.

Inductive directive : Type :=
| Include (patterns : list string)
| Exclude (patterns : list string)
| GlobalInclude (patterns : list string)
| GlobalExclude (patterns : list string)
| RecursiveInclude (dir : string) (patterns : list string)
| RecursiveExclude (dir : string) (patterns : list string)
| Graft (dir : string)
| Prune (dir : string).

Inductive template_error : Type :=
| MissingArguments (action : string)
| UnknownAction (action : string).

(** One template line: [None] for a blank line, otherwise the directive or
    the error the reader raises. *)
Definition parse_template_line (line : string) : option (directive + template_error) :=
  match words (strip_comment line) with
  | [] => None
  | action :: rest =>
      Some
        (if String.eqb action "include" then
           match rest with [] => inr (MissingArguments action) | _ => inl (Include rest) end
         else if String.eqb action "exclude" then
           match rest with [] => inr (MissingArguments action) | _ => inl (Exclude rest) end
         else if String.eqb action "global-include" then
           match rest with [] => inr (MissingArguments action) | _ => inl (GlobalInclude rest) end
         else if String.eqb action "global-exclude" then
           match rest with [] => inr (MissingArguments action) | _ => inl (GlobalExclude rest) end
         else if String.eqb action "recursive-include" then
           match rest with
           | d :: ((_ :: _) as pats) => inl (RecursiveInclude d pats)
           | _ => inr (MissingArguments action)
           end
         else if String.eqb action "recursive-exclude" then
           match rest with
           | d :: ((_ :: _) as pats) => inl (RecursiveExclude d pats)
           | _ => inr (MissingArguments action)
           end
         else if String.eqb action "graft" then
           match rest with [d] => inl (Graft d) | _ => inr (MissingArguments action) end
         else if String.eqb action "prune" then
           match rest with [d] => inl (Prune d) | _ => inr (MissingArguments action) end
         else inr (UnknownAction action))
  end.

(** The directives of a template, in file order; the first faulty line
    aborts the reading. *)
Fixpoint read_template (lines : list string) : list directive + template_error :=
  match lines with
  | [] => inl []
  | l :: ls =>
      match parse_template_line l with
      | None => read_template ls
      | Some (inr e) => inr e
      | Some (inl d) =>
          match read_template ls with
          | inl ds => inl (d :: ds)
          | inr e => inr e
          end
      end
  end.

(** ** Matching

    Patterns are globs over a path: [*] stands for any run of characters
    other than the separator [/], [?] for one such character; any other
    character stands for itself. *)

Definition is_sep (c : ascii) : bool := Ascii.eqb c "/".

Fixpoint glob (pat : string) : string -> bool :=
  match pat with
  | EmptyString => fun s => match s with EmptyString => true | _ => false end
  | String c pat' =>
      if Ascii.eqb c "*" then
        fix star (s : string) : bool :=
          glob pat' s
          || match s with
             | EmptyString => false
             | String d s' => negb (is_sep d) && star s'
             end
      else if Ascii.eqb c "?" then
        fun s => match s with
                 | EmptyString => false
                 | String d s' => negb (is_sep d) && glob pat' s'
                 end
      else
        fun s => match s with
                 | EmptyString => false
                 | String d s' => Ascii.eqb c d && glob pat' s'
                 end
  end.

(** The components of a path. *)
Definition comps (path : string) : list string := split_on is_sep path EmptyString.

Fixpoint all2 {A B} (f : A -> B -> bool) (xs : list A) (ys : list B) : bool :=
  match xs, ys with
  | [], [] => true
  | x :: xs', y :: ys' => f x y && all2 f xs' ys'
  | _, _ => false
  end.

(** [prefix_match ds cs]: the components left of [cs] once its leading
    components have matched the directory pattern [ds], one by one. *)
Fixpoint prefix_match (ds cs : list string) : option (list string) :=
  match ds, cs with
  | [], _ => Some cs
  | d :: ds', c :: cs' => if glob d c then prefix_match ds' cs' else None
  | _ :: _, [] => None
  end.

(** The last components of [cs] match the pattern components [ps]. *)
Definition suffix_match (ps cs : list string) : bool :=
  (length ps <=? length cs)%nat
  && all2 glob ps (skipn (length cs - length ps) cs).

(** A file anywhere below a directory matching [dir]. *)
Definition match_tree (dir f : string) : bool :=
  match prefix_match (comps dir) (comps f) with
  | Some (_ :: _) => true
  | _ => false
  end.

(** A file below a directory matching [dir] whose last components match [pat]. *)
Definition match_under (dir pat f : string) : bool :=
  match prefix_match (comps dir) (comps f) with
  | Some rest => suffix_match (comps pat) rest
  | None => false
  end.

(** A file anywhere in the tree whose last components match [pat]. *)
Definition match_anywhere (pat f : string) : bool := suffix_match (comps pat) (comps f).

(** ** Applying directives *)

(** Does the directive add files ([true]) or remove files ([false])? *)
Definition adds (d : directive) : bool :=
  match d with
  | Include _ | GlobalInclude _ | RecursiveInclude _ _ | Graft _ => true
  | Exclude _ | GlobalExclude _ | RecursiveExclude _ _ | Prune _ => false
  end.

(** Is the file [f] among those the directive speaks about? *)
Definition hits (d : directive) (f : string) : bool :=
  match d with
  | Include ps | Exclude ps => existsb (fun p => glob p f) ps
  | GlobalInclude ps | GlobalExclude ps => existsb (fun p => match_anywhere p f) ps
  | RecursiveInclude dir ps | RecursiveExclude dir ps =>
      existsb (fun p => match_under dir p f) ps
  | Graft dir | Prune dir => match_tree dir f
  end.

(** One directive on the list of shipped files: an adding directive appends
    the files of the tree it hits, a removing one drops the files it hits. *)
Definition apply_directive (tree : list string) (files : list string) (d : directive)
  : list string :=
  if adds d then files ++ filter (hits d) tree
  else filter (fun f => negb (hits d f)) files.

(** The whole template, in file order, from the files [init] already listed. *)
Definition ship (tree : list string) (ds : list directive) (init : list string)
  : list string :=
  fold_left (apply_directive tree) ds init.

(** The same reading for one candidate path: [in_tree] says whether the path
    exists in the tree, [cur] whether it is listed so far. *)
Definition verdict_step (f : string) (in_tree : bool) (cur : bool) (d : directive) : bool :=
  if hits d f then (if adds d then cur || in_tree else false) else cur.

Definition verdict (ds : list directive) (f : string) (in_tree cur : bool) : bool :=
  fold_left (verdict_step f in_tree) ds cur.

Definition inb (f : string) (l : list string) : bool := existsb (String.eqb f) l.

(** The directives of MANIFEST.in. *)
Definition manifest : list directive :=
  Eval vm_compute in
    match read_template manifest_lines with
    | inl ds => ds
    | inr _ => []
    end.

(** The four forms MANIFEST.in uses, each with at least one argument. *)
Definition four_forms (d : directive) : bool :=
  match d with
  | Include (_ :: _) | Exclude (_ :: _) | RecursiveInclude _ (_ :: _) | Prune _ => true
  | _ => false
  end.

(** A line is blank or one of the four forms. *)
Definition line_ok (l : string) : bool :=
  is_blank l
  || match parse_template_line l with
     | Some (inl d) => four_forms d
     | _ => false
     end.

Definition form_name (d : directive) : string :=
  match d with
  | Include _ => "include"
  | Exclude _ => "exclude"
  | GlobalInclude _ => "global-include"
  | GlobalExclude _ => "global-exclude"
  | RecursiveInclude _ _ => "recursive-include"
  | RecursiveExclude _ _ => "recursive-exclude"
  | Graft _ => "graft"
  | Prune _ => "prune"
  end.

End Manifest.

(* ===================================================================== *)
(** * Python values and library calls *)
(* ===================================================================== *)

Module Py.

(** Dictionary keys of the notebooks: a field name, or a field tuple
    [(field type, field name)]. *)
Inductive key : Type :=
| K (name : string)
| KT (ftype fname : string).

Definition key_eqb (a b : key) : bool :=
  match a, b with
  | K x, K y => String.eqb x y
  | KT t x, KT u y => String.eqb t u && String.eqb x y
  | _, _ => false
  end.

(** Values.  A Python float is an IEEE 754 binary64 number, a primitive
    float of Rocq: a decimal literal is the nearest such number.  A NumPy
    array is an array of floats kept as its shape: its elements are random
    draws or file data.  [VFun] is a function defined in a notebook,
    [VGlobal] an object imported from a library, [VObj] an object a library
    call returned. *)
#[warnings="-register-all"]
Inductive value : Type :=
| VNone
| VBool (b : bool)
| VInt (n : Z)
| VFloat (x : float)
| VStr (s : string)
| VArray (shape : list Z)
| VList (items : list value)
| VTuple (items : list value)
| VDict (entries : list (key * value))
| VFun (name : string)
| VGlobal (name : string)
| VObj (id : Z).

Arguments VInt n%_Z.
Arguments VObj id%_Z.

Definition dict : Type := list (key * value).

(** Exceptions.  [Unsupported] is no exception of Python: it ends a run that
    reaches an operation outside the fragment embedded here (a complex
    number, the comparison of two containers, NumPy's conversion of a
    sequence, a sequence too long for a machine); nothing is said about
    what Python does from there. *)
Inductive exn : Type :=
| KeyError (k : key)
| IndexError
| TypeError (what : string)
| ValueError (what : string)
| ZeroDivisionError
| OverflowError
| LibraryError (what : string)
| Unsupported (what : string).

Inductive outcome (A : Type) : Type :=
| Ok (a : A)
| Raise (e : exn).
Arguments Ok {A} a.
Arguments Raise {A} e.

(** ** Dictionaries: insertion ordered, one entry per key *)

Fixpoint dict_get (d : dict) (k : key) : option value :=
  match d with
  | [] => None
  | (k', v) :: d' => if key_eqb k k' then Some v else dict_get d' k
  end.

Fixpoint dict_set (d : dict) (k : key) (v : value) : dict :=
  match d with
  | [] => [(k, v)]
  | (k', v') :: d' => if key_eqb k k' then (k', v) :: d' else (k', v') :: dict_set d' k v
  end.

Fixpoint dict_remove (d : dict) (k : key) : dict :=
  match d with
  | [] => []
  | (k', v') :: d' => if key_eqb k k' then d' else (k', v') :: dict_remove d' k
  end.

Definition dict_of (entries : list (key * value)) : dict :=
  fold_left (fun d kv => dict_set d (fst kv) (snd kv)) entries [].

(** ** Calls into libraries *)

Inductive operator : Type := Add | Sub | Mul | Div | Pow | Eq.

Inductive callee : Type :=
| Func (name : string)          (* f(args), name as written: yt.SlicePlot *)
| Method (name : string)        (* self.name(args), self is the first argument *)
| GetAttr (name : string)       (* obj.name *)
| SetAttr (name : string)       (* obj.name = v *)
| GetItem                       (* obj[idx] *)
| Iter                          (* for x in obj *)
| BinOp (op : operator).        (* a op b *)

Record call : Type := mkcall
  { target : callee
  ; args : list value
  ; kwargs : list (string * value) }.

(** What a library answered to a call. *)
Definition event : Type := (call * outcome value)%type.
Definition history : Type := list event.

(** What a run depends on and the notebook does not decide.  The libraries:
    an answer for every call, which may depend on everything that happened
    before.  The platform: the value of the C library's [pow] on two finite
    floats, which Python's [**] on floats hands on after its own case
    analysis; it is a function, not a call of a library, and leaves no
    event. *)
Record library : Type := mklibrary
  { answer :> history -> call -> outcome value
  ; platform_pow : float -> float -> float }.

(** ** The notebook monad

    A computation reads the library and the history so far; it yields its
    outcome and the events it added. *)
Definition M (A : Type) : Type := library -> history -> outcome A * history.

Definition ret {A} (a : A) : M A := fun _ _ => (Ok a, []).

Definition raise {A} (e : exn) : M A := fun _ _ => (Raise e, []).

Definition bind {A B} (m : M A) (k : A -> M B) : M B :=
  fun lib h =>
    match m lib h with
    | (Ok a, es) =>
        match k a lib (h ++ es) with
        | (r, es') => (r, es ++ es')
        end
    | (Raise e, es) => (Raise e, es)
    end.

Definition ask (c : call) : M value :=
  fun lib h => let r := lib h c in (r, [(c, r)]).

(** The platform's [pow] at [x] and [y]. *)
Definition pow_of_platform (x y : float) : M float :=
  fun lib _ => (Ok (platform_pow lib x y), []).

Definition events {A} (m : M A) (lib : library) : history := snd (m lib []).

Definition completes {A} (m : M A) (lib : library) : Prop :=
  exists a, fst (m lib []) = Ok a.

Definition completesb {A} (m : M A) (lib : library) : bool :=
  match fst (m lib []) with Ok _ => true | Raise _ => false end.

End Py.

Declare Scope py_scope.
Delimit Scope py_scope with py.
Notation "x <- m ;; k" := (Py.bind m (fun x => k))
  (at level 61, m at next level, right associativity) : py_scope.
Notation "' pat <- m ;; k" := (Py.bind m (fun x => match x with pat => k end))
  (at level 61, pat pattern, m at next level, right associativity) : py_scope.
Notation "m ;; k" := (Py.bind m (fun _ => k))
  (at level 61, right associativity) : py_scope.

(* ===================================================================== *)
(** * Python operations used by the notebooks *)
(* ===================================================================== *)

Module Builtins.
Import Py.
Local Open Scope py_scope.

(** ** Calls answered by a library *)

Definition func (name : string) (a : list value) (kw : list (string * value)) : M value :=
  ask (mkcall (Func name) a kw).

Definition method (self : value) (name : string) (a : list value)
  (kw : list (string * value)) : M value :=
  ask (mkcall (Method name) (self :: a) kw).

Definition setattr (obj : value) (name : string) (v : value) : M value :=
  ask (mkcall (SetAttr name) [obj; v] []).

(** [obj.name]: the shape of an array is known, anything else is asked. *)
Definition getattr (obj : value) (name : string) : M value :=
  match obj with
  | VArray sh =>
      if String.eqb name "shape" then ret (VTuple (map VInt sh))
      else ask (mkcall (GetAttr name) [obj] [])
  | _ => ask (mkcall (GetAttr name) [obj] [])
  end.

(** ** Subscripts, keys, iteration *)

Definition to_key (v : value) : option key :=
  match v with
  | VStr s => Some (K s)
  | VTuple [VStr t; VStr n] => Some (KT t n)
  | _ => None
  end.

Definition of_key (k : key) : value :=
  match k with
  | K s => VStr s
  | KT t n => VTuple [VStr t; VStr n]
  end.

Definition seq_index {A} (l : list A) (i : Z) : option A :=
  let len := Z.of_nat (length l) in
  let j := if (i <? 0)%Z then (i + len)%Z else i in
  if ((0 <=? j) && (j <? len))%Z then nth_error l (Z.to_nat j) else None.

Definition chars (s : string) : list value :=
  map (fun c => VStr (String c EmptyString)) (list_ascii_of_string s).

(** [v[idx]]: dictionaries, lists, tuples and strings of the notebook are
    looked up; the items of arrays and of library objects are asked. *)
Definition subscript (v idx : value) : M value :=
  match v with
  | VDict d =>
      match to_key idx with
      | Some k =>
          match dict_get d k with
          | Some x => ret x
          | None => raise (KeyError k)
          end
      | None => raise (TypeError "unhashable key")
      end
  | VList l | VTuple l =>
      match idx with
      | VInt i =>
          match seq_index l i with
          | Some x => ret x
          | None => raise IndexError
          end
      | _ => raise (TypeError "indices must be integers")
      end
  | VStr s =>
      match idx with
      | VInt i =>
          match seq_index (chars s) i with
          | Some x => ret x
          | None => raise IndexError
          end
      | _ => raise (TypeError "indices must be integers")
      end
  | VArray _ | VObj _ | VGlobal _ => ask (mkcall GetItem [v; idx] [])
  | VNone | VBool _ | VInt _ | VFloat _ | VFun _ => raise (TypeError "not subscriptable")
  end.

(** The items a [for] loop or an unpacking assignment goes through. *)
Definition iterate (v : value) : M (list value) :=
  match v with
  | VList l | VTuple l => ret l
  | VDict d => ret (map (fun kv => of_key (fst kv)) d)
  | VStr s => ret (chars s)
  | VArray (n :: sh) => ret (repeat (VArray sh) (Z.to_nat n))
  | VArray [] => raise (TypeError "iteration over a 0-d array")
  | VObj _ | VGlobal _ =>
      r <- ask (mkcall Iter [v] []) ;;
      match r with
      | VList l => ret l
      | _ => raise (TypeError "not iterable")
      end
  | VNone | VBool _ | VInt _ | VFloat _ | VFun _ => raise (TypeError "not iterable")
  end.

(** [a, b = v] and [a, b, c = v] *)
Definition unpack2 (v : value) : M (value * value) :=
  l <- iterate v ;;
  match l with
  | [a; b] => ret (a, b)
  | _ => raise (ValueError "unpack: expected 2 values")
  end.

Definition unpack3 (v : value) : M (value * value * value) :=
  l <- iterate v ;;
  match l with
  | [a; b; c] => ret (a, b, c)
  | _ => raise (ValueError "unpack: expected 3 values")
  end.

(** [for x in xs: s = body x s] *)
Fixpoint for_each {S} (xs : list value) (body : value -> S -> M S) (s : S) : M S :=
  match xs with
  | [] => ret s
  | x :: xs' => s' <- body x s ;; for_each xs' body s'
  end.

(** [d[k] = v] on a dictionary of the notebook. *)
Definition setitem (d : dict) (k v : value) : M dict :=
  match to_key k with
  | Some k' => ret (dict_set d k' v)
  | None => raise (TypeError "unhashable key")
  end.

(** [d.pop(k)]: the value and the dictionary without the entry. *)
Definition dict_pop (d : dict) (k : key) : M (value * dict) :=
  match dict_get d k with
  | Some v => ret (v, dict_remove d k)
  | None => raise (KeyError k)
  end.

Definition dict_keys (d : dict) : value := VList (map (fun kv => of_key (fst kv)) d).

(** ** Strings and lists *)

Definition lower_ascii (c : ascii) : ascii :=
  let n := nat_of_ascii c in
  if ((65 <=? n) && (n <=? 90))%nat then ascii_of_nat (n + 32) else c.

Fixpoint lower (s : string) : string :=
  match s with
  | EmptyString => EmptyString
  | String c s' => String (lower_ascii c) (lower s')
  end.

(** [v.lower()] *)
Definition str_lower (v : value) : M value :=
  match v with
  | VStr s => ret (VStr (lower s))
  | _ => method v "lower" [] []
  end.

Fixpoint strings_of (l : list value) : option (list string) :=
  match l with
  | [] => Some []
  | VStr s :: l' => option_map (cons s) (strings_of l')
  | _ :: _ => None
  end.

Fixpoint insert_sorted (x : string) (l : list string) : list string :=
  match l with
  | [] => [x]
  | y :: l' => if String.leb x y then x :: l else y :: insert_sorted x l'
  end.

Definition sort_strings (l : list string) : list string := fold_right insert_sorted [] l.

(** [l.sort()], returning the sorted list: file names are strings. *)
Definition list_sort (v : value) : M value :=
  match v with
  | VList l =>
      match strings_of l with
      | Some ss => ret (VList (map VStr (sort_strings ss)))
      | None => raise (TypeError "sort: list of str expected")
      end
  | _ => _ <- method v "sort" [] [] ;; ret v
  end.

(** ** Arithmetic

    Python's own numbers are computed as Python computes them: integers
    exactly, floats in binary64, [bool] as the integers 0 and 1.  An operator
    with a library object on either side is a call of that library.  An array
    keeps or broadcasts its shape. *)

Definition delegate (op : operator) (a b : value) : M value :=
  ask (mkcall (BinOp op) [a; b] []).

(** *** Floats and integers *)

(** The float nearest to [n], ties to even; infinite beyond the range. *)
Definition float_of_Z (n : Z) : float := SF2Prim (binary_normalize prec emax n 0 false).

(** [float(n)] *)
Definition to_float (n : Z) : M float :=
  let f := float_of_Z n in
  if is_infinity f then raise OverflowError else ret f.

(** The integer a finite float is, if it is one. *)
Definition float_integer (f : float) : option Z :=
  match Prim2SF f with
  | S754_zero _ => Some 0%Z
  | S754_finite s m e =>
      let n := if s then Z.neg m else Z.pos m in
      if (0 <=? e)%Z then Some (n * 2 ^ e)%Z
      else if (Z.pos m mod 2 ^ (- e) =? 0)%Z then Some (n / 2 ^ (- e))%Z
      else None
  | S754_infinity _ | S754_nan => None
  end.

Definition is_integer (f : float) : bool :=
  match float_integer f with Some _ => true | None => false end.

Definition odd_integer (f : float) : bool :=
  match float_integer f with Some n => Z.odd n | None => false end.

(** [n == f], exactly. *)
Definition int_float_eqb (n : Z) (f : float) : bool :=
  match float_integer f with Some m => (n =? m)%Z | None => false end.

(** [x / y] on integers, [y] not 0: the float nearest to the quotient.  The
    quotient is cut to 65 bits or more and a last bit tells whether anything
    was cut off, which rounds as the quotient itself. *)
Definition true_quotient (x y : Z) : float :=
  let s := xorb (x <? 0)%Z (y <? 0)%Z in
  let a := Z.abs x in
  let b := Z.abs y in
  if (a =? 0)%Z then (if s then neg_zero else zero)
  else
    let k := Z.max 0 (66 + Z.log2 b - Z.log2 a) in
    let q := (a * 2 ^ k / b)%Z in
    let sticky := if (a * 2 ^ k mod b =? 0)%Z then 0%Z else 1%Z in
    SF2Prim (binary_round prec emax s (Z.to_pos (2 * q + sticky)) (- (k + 1))).

(** [x ** y] on floats: the cases Python decides before it calls [pow] of
    the platform, and what it makes of the result. *)
Definition float_pow (x y : float) : M value :=
  if (y =? 0)%float then ret (VFloat 1)
  else if is_nan x then ret (VFloat x)
  else if is_nan y then ret (VFloat (if (x =? 1)%float then 1%float else y))
  else if is_infinity y then
    if (abs x =? 1)%float then ret (VFloat 1)
    else if Bool.eqb (0 <? y)%float (1 <? abs x)%float then ret (VFloat (abs y))
    else ret (VFloat 0)
  else if is_infinity x then
    if (0 <? y)%float then ret (VFloat (if odd_integer y then x else abs x))
    else ret (VFloat (if odd_integer y && (x <? 0)%float then neg_zero else zero))
  else if (x =? 0)%float then
    if (y <? 0)%float then raise ZeroDivisionError
    else ret (VFloat (if odd_integer y then x else zero))
  else if (x <? 0)%float && negb (is_integer y) then
    raise (Unsupported "a negative float to a fractional power is a complex number")
  else
    let negate := (x <? 0)%float && odd_integer y in
    if (abs x =? 1)%float then ret (VFloat (if negate then (- 1)%float else 1%float))
    else
      r <- pow_of_platform (abs x) y ;;
      if is_infinity r then raise OverflowError
      else ret (VFloat (if negate then (- r)%float else r)).

Definition int_binop (op : operator) (x y : Z) : M value :=
  match op with
  | Add => ret (VInt (x + y))
  | Sub => ret (VInt (x - y))
  | Mul => ret (VInt (x * y))
  | Div =>
      if (y =? 0)%Z then raise ZeroDivisionError
      else
        let f := true_quotient x y in
        if is_infinity f then raise OverflowError else ret (VFloat f)
  | Pow =>
      if (0 <=? y)%Z then ret (VInt (x ^ y))
      else fx <- to_float x ;; fy <- to_float y ;; float_pow fx fy
  | Eq => ret (VBool (x =? y)%Z)
  end.

Definition float_binop (op : operator) (x y : float) : M value :=
  match op with
  | Add => ret (VFloat (x + y))
  | Sub => ret (VFloat (x - y))
  | Mul => ret (VFloat (x * y))
  | Div => if (y =? 0)%float then raise ZeroDivisionError else ret (VFloat (x / y))
  | Pow => float_pow x y
  | Eq => ret (VBool (x =? y)%float)
  end.

(** Python's numbers: [bool] is a kind of [int]. *)
Inductive number : Type :=
| NInt (n : Z)
| NFloat (x : float).

Definition as_number (v : value) : option number :=
  match v with
  | VBool b => Some (NInt (if b then 1 else 0))
  | VInt n => Some (NInt n)
  | VFloat x => Some (NFloat x)
  | _ => None
  end.

(** An integer meets a float as the float nearest to it, except in [==],
    which compares the two exactly. *)
Definition number_binop (op : operator) (a b : number) : M value :=
  match a, b with
  | NInt x, NInt y => int_binop op x y
  | NFloat x, NFloat y => float_binop op x y
  | NInt x, NFloat y =>
      match op with
      | Eq => ret (VBool (int_float_eqb x y))
      | _ => fx <- to_float x ;; float_binop op fx y
      end
  | NFloat x, NInt y =>
      match op with
      | Eq => ret (VBool (int_float_eqb y x))
      | _ => fy <- to_float y ;; float_binop op x fy
      end
  end.

(** *** Arrays *)

(** An integer NumPy can turn into a float. *)
Definition fits_float (n : number) : bool :=
  match n with
  | NInt z => (Z.abs z <? 2 ^ 1024)%Z
  | NFloat _ => true
  end.

(** An array of floats with a number, on either side: each element with
    the number.  Division by zero and overflow of an element give infinities
    and no exception; an integer beyond the range of a float is refused. *)
Definition array_binop (op : operator) (sh : list Z) (n : number) : M value :=
  match op with
  | Eq => ret (VArray sh)
  | Add | Sub | Mul | Div | Pow =>
      if fits_float n then ret (VArray sh) else raise OverflowError
  end.

(** NumPy's broadcasting, on shapes read from their last dimension. *)
Fixpoint broadcast_from_last (a b : list Z) : option (list Z) :=
  match a, b with
  | [], _ => Some b
  | _, [] => Some a
  | x :: a', y :: b' =>
      if ((x =? y) || (y =? 1))%Z then option_map (cons x) (broadcast_from_last a' b')
      else if (x =? 1)%Z then option_map (cons y) (broadcast_from_last a' b')
      else None
  end.

Definition broadcast (a b : list Z) : option (list Z) :=
  option_map (@rev Z) (broadcast_from_last (rev a) (rev b)).

Definition arrays_binop (op : operator) (a b : list Z) : M value :=
  match broadcast a b, op with
  | Some sh, _ => ret (VArray sh)
  | None, Eq => raise (Unsupported "comparison of arrays of different shapes")
  | None, _ => raise (ValueError "operands could not be broadcast together")
  end.

(** An array with a Python value that is no number and no array. *)
Definition array_with (op : operator) (v : value) : M value :=
  match op, v with
  | Eq, _ => raise (Unsupported "comparison of an array with a Python object")
  | _, (VList _ | VTuple _) => raise (Unsupported "an array with a Python sequence")
  | _, _ => raise (TypeError "unsupported operand types for an array")
  end.

(** *** Strings, lists and the rest *)

Fixpoint repeat_string (s : string) (n : nat) : string :=
  match n with
  | O => EmptyString
  | S n' => (s ++ repeat_string s n')%string
  end.

Definition sequence_length (v : value) : Z :=
  match v with
  | VStr s => Z.of_nat (String.length s)
  | VList l | VTuple l => Z.of_nat (length l)
  | _ => 0
  end.

(** [seq * n]: [n] copies, none for [n] below 1.  The count is a machine
    integer of 64 bits; whether a result of more than 2^32 items fits the
    memory of the machine is not embedded. *)
Definition repetition (v : value) (n : Z) : M value :=
  if ((n <? - 2 ^ 63) || (2 ^ 63 <=? n))%Z then raise OverflowError
  else if (2 ^ 32 <? sequence_length v * n)%Z then
    raise (Unsupported "a sequence of more than 2^32 items")
  else if (sequence_length v =? 0)%Z then ret v
  else
    match v with
    | VStr s => ret (VStr (repeat_string s (Z.to_nat n)))
    | VList l => ret (VList (concat (repeat l (Z.to_nat n))))
    | VTuple l => ret (VTuple (concat (repeat l (Z.to_nat n))))
    | _ => raise (TypeError "unsupported operand types")
    end.

Definition is_sequence (v : value) : bool :=
  match v with
  | VStr _ | VList _ | VTuple _ => true
  | _ => false
  end.

(** The builtin type of a value of Python's own. *)
Inductive kind : Type := KNone | KNumber | KStr | KList | KTuple | KDict | KFun | KOther.

Definition kind_of (v : value) : kind :=
  match v with
  | VNone => KNone
  | VBool _ | VInt _ | VFloat _ => KNumber
  | VStr _ => KStr
  | VList _ => KList
  | VTuple _ => KTuple
  | VDict _ => KDict
  | VFun _ => KFun
  | VArray _ | VGlobal _ | VObj _ => KOther
  end.

Definition kind_eqb (a b : kind) : bool :=
  match a, b with
  | KNone, KNone | KNumber, KNumber | KStr, KStr | KList, KList
  | KTuple, KTuple | KDict, KDict | KFun, KFun | KOther, KOther => true
  | _, _ => false
  end.

(** Two values of Python's own, not both numbers.  Values of different
    builtin types are unequal; the comparison of two containers or of two
    functions is not embedded. *)
Definition python_binop (op : operator) (a b : value) : M value :=
  match op, a, b with
  | Eq, VNone, VNone => ret (VBool true)
  | Eq, VStr x, VStr y => ret (VBool (String.eqb x y))
  | Eq, _, _ =>
      if kind_eqb (kind_of a) (kind_of b)
      then raise (Unsupported "comparison of containers or functions")
      else ret (VBool false)
  | Add, VStr x, VStr y => ret (VStr (x ++ y))
  | Add, VList x, VList y => ret (VList (x ++ y))
  | Add, VTuple x, VTuple y => ret (VTuple (x ++ y))
  | Mul, _, _ =>
      match as_number a, as_number b with
      | Some (NInt n), None => if is_sequence b then repetition b n
                               else raise (TypeError "unsupported operand types")
      | None, Some (NInt n) => if is_sequence a then repetition a n
                               else raise (TypeError "unsupported operand types")
      | _, _ => raise (TypeError "unsupported operand types")
      end
  | _, _, _ => raise (TypeError "unsupported operand types")
  end.

Definition is_library_object (v : value) : bool :=
  match v with
  | VObj _ | VGlobal _ => true
  | _ => false
  end.

(** [a op b] *)
Definition binop (op : operator) (a b : value) : M value :=
  if is_library_object a || is_library_object b then delegate op a b
  else
    match a, b with
    | VArray x, VArray y => arrays_binop op x y
    | VArray sh, _ =>
        match as_number b with
        | Some n => array_binop op sh n
        | None => array_with op b
        end
    | _, VArray sh =>
        match as_number a with
        | Some n => array_binop op sh n
        | None => array_with op a
        end
    | _, _ =>
        match as_number a, as_number b with
        | Some x, Some y => number_binop op x y
        | _, _ => python_binop op a b
        end
    end.

(** ** NumPy, as far as shapes go *)

Fixpoint ints_of (l : list value) : option (list Z) :=
  match l with
  | [] => Some []
  | VInt n :: l' => option_map (cons n) (ints_of l')
  | _ :: _ => None
  end.

(** A [size] or shape argument: an int, or a list or tuple of ints. *)
Definition shape_arg (v : value) : option (list Z) :=
  match v with
  | VInt n => Some [n]
  | VList l | VTuple l => ints_of l
  | _ => None
  end.

Definition with_shape (size : value) : M value :=
  match shape_arg size with
  | Some sh =>
      if forallb (fun n => (0 <=? n)%Z) sh then ret (VArray sh)
      else raise (ValueError "negative dimensions are not allowed")
  | None => raise (TypeError "size: int or sequence of ints expected")
  end.

(** [prng.random(size)], [prng.uniform(low, high, size)],
    [np.random.normal(size=size)], [np.ones(size)] *)
Definition prng_random (size : value) : M value := with_shape size.
Definition prng_uniform (low high : float) (size : value) : M value := with_shape size.
Definition np_random_normal (size : value) : M value := with_shape size.
Definition np_ones (size : value) : M value := with_shape size.

(** [np.ones_like(a)] *)
Definition np_ones_like (a : value) : M value :=
  match a with
  | VArray sh => ret (VArray sh)
  | _ => func "np.ones_like" [a] []
  end.

(** [np.array(v)] of a nested list: the lengths along the first items. *)
Fixpoint nested_shape (v : value) : list Z :=
  match v with
  | VList l =>
      Z.of_nat (length l) ::
      match l with
      | x :: _ => nested_shape x
      | [] => []
      end
  | _ => []
  end.

Definition np_array (v : value) : value := VArray (nested_shape v).

(** The length of a one-dimensional array. *)
Definition array_len (v : value) : option Z :=
  match v with
  | VArray [n] => Some n
  | _ => None
  end.

End Builtins.

(* ===================================================================== *)
(** * Notebook: Loading Generic Array Data *)
(* ===================================================================== *)

Module GenericArray.
Import Py Builtins.
Local Open Scope py_scope.

(** The generator [prng = default_rng(seed=42)] of the first cell is used
    through [prng_random] and [prng_uniform]. *)

(** [arr = prng.random(size=(64, 64, 64))] *)
Definition cell_arr : M value :=
  prng_random (VTuple [VInt 64; VInt 64; VInt 64]).

Definition bbox_15 : value :=
  np_array (VList [ VList [VFloat (-1.5); VFloat 1.5]
                  ; VList [VFloat (-1.5); VFloat 1.5]
                  ; VList [VFloat (-1.5); VFloat 1.5] ]).

(** data = {"density": (arr, "g/cm**3")} *)
Definition data_density (arr : value) : dict :=
  dict_of [(K "density", VTuple [arr; VStr "g/cm**3"])].

(** data = {"density": (arr, "g/cm**3")}
    bbox = np.array([[-1.5, 1.5], [-1.5, 1.5], [-1.5, 1.5]])
    ds = yt.load_uniform_grid(data, arr.shape, length_unit="Mpc", bbox=bbox, nprocs=64) *)
Definition cell_unigrid (arr : value) : M value :=
  let data := data_density arr in
  let bbox := bbox_15 in
  shape <- getattr arr "shape" ;;
  func "yt.load_uniform_grid" [VDict data; shape]
    [("length_unit", VStr "Mpc"); ("bbox", bbox); ("nprocs", VInt 64)].

Definition gas_density : value := VTuple [VStr "gas"; VStr "density"].

(** slc = yt.SlicePlot(ds, "z", ("gas", "density"))
    slc.set_cmap(("gas", "density"), "Blues")
    slc.annotate_grids(cmap=None)
    slc.show() *)
Definition cell_slice_grids (ds : value) : M unit :=
  slc <- func "yt.SlicePlot" [ds; VStr "z"; gas_density] [] ;;
  _ <- method slc "set_cmap" [gas_density; VStr "Blues"] [] ;;
  _ <- method slc "annotate_grids" [] [("cmap", VNone)] ;;
  _ <- method slc "show" [] [] ;;
  ret tt.

(** posx_arr = prng.uniform(low=-1.5, high=1.5, size=10000)   (also y, z)
    data = { "density": (prng.random(size=(64, 64, 64)), "Msun/kpc**3"),
             "particle_position_x": (posx_arr, "code_length"),
             "particle_position_y": (posy_arr, "code_length"),
             "particle_position_z": (posz_arr, "code_length") } *)
Definition data_particles : M dict :=
  posx_arr <- prng_uniform (-1.5) 1.5 (VInt 10000) ;;
  posy_arr <- prng_uniform (-1.5) 1.5 (VInt 10000) ;;
  posz_arr <- prng_uniform (-1.5) 1.5 (VInt 10000) ;;
  density <- prng_random (VTuple [VInt 64; VInt 64; VInt 64]) ;;
  ret (dict_of
    [ (K "density", VTuple [density; VStr "Msun/kpc**3"])
    ; (K "particle_position_x", VTuple [posx_arr; VStr "code_length"])
    ; (K "particle_position_y", VTuple [posy_arr; VStr "code_length"])
    ; (K "particle_position_z", VTuple [posz_arr; VStr "code_length"]) ]).

(** bbox = np.array([[-1.5, 1.5], [-1.5, 1.5], [-1.5, 1.5]])
    ds = yt.load_uniform_grid(data, data["density"][0].shape,
             length_unit=(1.0, "Mpc"), mass_unit=(1.0, "Msun"), bbox=bbox, nprocs=4) *)
Definition cell_unigrid_particles : M value :=
  data <- data_particles ;;
  let bbox := bbox_15 in
  d <- subscript (VDict data) (VStr "density") ;;
  d0 <- subscript d (VInt 0) ;;
  shape <- getattr d0 "shape" ;;
  func "yt.load_uniform_grid" [VDict data; shape]
    [ ("length_unit", VTuple [VFloat 1.0; VStr "Mpc"])
    ; ("mass_unit", VTuple [VFloat 1.0; VStr "Msun"])
    ; ("bbox", bbox); ("nprocs", VInt 4) ].

(** slc = yt.SlicePlot(ds, "z", ("gas", "density"))
    slc.set_cmap(("gas", "density"), "Blues")
    slc.annotate_particles(0.25, p_size=12.0, col="Red")
    slc.show() *)
Definition cell_slice_particles (ds : value) : M unit :=
  slc <- func "yt.SlicePlot" [ds; VStr "z"; gas_density] [] ;;
  _ <- method slc "set_cmap" [gas_density; VStr "Blues"] [] ;;
  _ <- method slc "annotate_particles" [VFloat 0.25]
         [("p_size", VFloat 12.0); ("col", VStr "Red")] ;;
  _ <- method slc "show" [] [] ;;
  ret tt.

(** data_dir = ytcfg.get("yt", "test_data_dir")
    f = h5py.File(join(data_dir, "UnigridData", "turb_vels.h5"), "r")
    The result is [(data_dir, f)]. *)
Definition cell_open_hdf5 : M (value * value) :=
  data_dir <- func "ytcfg.get" [VStr "yt"; VStr "test_data_dir"] [] ;;
  path <- func "join" [data_dir; VStr "UnigridData"; VStr "turb_vels.h5"] [] ;;
  f <- func "h5py.File" [path; VStr "r"] [] ;;
  ret (data_dir, f).

(** print(f.keys()) *)
Definition cell_print_keys (f : value) : M unit :=
  ks <- method f "keys" [] [] ;;
  _ <- func "print" [ks] [] ;;
  ret tt.

Definition units : list value :=
  [ VStr "gauss"; VStr "gauss"; VStr "gauss"; VStr "g/cm**3"; VStr "erg/cm**3"; VStr "K"
  ; VStr "cm/s"; VStr "cm/s"; VStr "cm/s"; VStr "cm/s"; VStr "cm/s"; VStr "cm/s" ].

(** One round of the comprehension [{k: (v[()], u) for (k, v), u in ...}]. *)
Definition hdf5_entry (item_u : value * value) (data : dict) : M dict :=
  let (item, u) := item_u in
  '(k, v) <- unpack2 item ;;
  arr <- subscript v (VTuple []) ;;
  setitem data k (VTuple [arr; u]).

Fixpoint for_pairs {S} (xs : list (value * value)) (body : value * value -> S -> M S)
  (s : S) : M S :=
  match xs with
  | [] => ret s
  | x :: xs' => s' <- body x s ;; for_pairs xs' body s'
  end.

(** data = {k: (v[()], u) for (k, v), u in zip(f.items(), units)}
    bbox = np.array([[-0.5, 0.5], [-0.5, 0.5], [-0.5, 0.5]]) *)
Definition cell_hdf5_data (f : value) : M (dict * value) :=
  its <- method f "items" [] [] ;;
  items <- iterate its ;;
  data <- for_pairs (combine items units) hdf5_entry [] ;;
  let bbox := np_array (VList [ VList [VFloat (-0.5); VFloat 0.5]
                              ; VList [VFloat (-0.5); VFloat 0.5]
                              ; VList [VFloat (-0.5); VFloat 0.5] ]) in
  ret (data, bbox).

(** ds = yt.load_uniform_grid(data, data["Density"][0].shape,
             length_unit=250.0 * cm_per_kpc, bbox=bbox, nprocs=8,
             periodicity=(False, False, False)) *)
Definition cell_load_hdf5 (data : dict) (bbox : value) : M value :=
  d <- subscript (VDict data) (VStr "Density") ;;
  d0 <- subscript d (VInt 0) ;;
  shape <- getattr d0 "shape" ;;
  length_unit <- binop Mul (VFloat 250.0) (VGlobal "cm_per_kpc") ;;
  func "yt.load_uniform_grid" [VDict data; shape]
    [ ("length_unit", length_unit); ("bbox", bbox); ("nprocs", VInt 8)
    ; ("periodicity", VTuple [VBool false; VBool false; VBool false]) ].

(** prj = yt.ProjectionPlot(ds, "z", ["z-velocity", "Temperature", "Bx"],
                            weight_field="Density")
    prj.set_log("z-velocity", False)
    prj.set_log("Bx", False)
    prj.show() *)
Definition cell_projection (ds : value) : M unit :=
  prj <- func "yt.ProjectionPlot"
           [ds; VStr "z"; VList [VStr "z-velocity"; VStr "Temperature"; VStr "Bx"]]
           [("weight_field", VStr "Density")] ;;
  _ <- method prj "set_log" [VStr "z-velocity"; VBool false] [] ;;
  _ <- method prj "set_log" [VStr "Bx"; VBool false] [] ;;
  _ <- method prj "show" [] [] ;;
  ret tt.

(** mi, ma = ds.all_data().quantities.extrema("Temperature")
    mi = mi.value + 1.5e7
    ma = ma.value - 0.81e7 *)
Definition cell_extrema (ds : value) : M (value * value) :=
  ad <- method ds "all_data" [] [] ;;
  qs <- getattr ad "quantities" ;;
  ex <- method qs "extrema" [VStr "Temperature"] [] ;;
  '(mi, ma) <- unpack2 ex ;;
  miv <- getattr mi "value" ;;
  mi <- binop Add miv (VFloat 1.5e7) ;;
  mav <- getattr ma "value" ;;
  ma <- binop Sub mav (VFloat 0.81e7) ;;
  ret (mi, ma).

(** L = [0.5, 0.5, 0.5]
    c = ds.domain_center[0]
    W = 1.5 * ds.domain_width[0]
    Npixels = 512
    The result is [(L, c, W)]. *)
Definition cell_camera_setup (ds : value) : M (value * value * value) :=
  let L := VList [VFloat 0.5; VFloat 0.5; VFloat 0.5] in
  dc <- getattr ds "domain_center" ;;
  c <- subscript dc (VInt 0) ;;
  dw <- getattr ds "domain_width" ;;
  dw0 <- subscript dw (VInt 0) ;;
  W <- binop Mul (VFloat 1.5) dw0 ;;
  ret (L, c, W).

(** sc = yt.create_scene(ds, "Temperature") ... cam.north_vector = [0, 0, 1] *)
Definition cell_scene (ds mi ma L c W : value) : M value :=
  sc <- func "yt.create_scene" [ds; VStr "Temperature"] [] ;;
  dd <- method ds "all_data" [] [] ;;
  source <- subscript sc (VInt 0) ;;
  _ <- setattr source "log_field" (VBool false) ;;
  tf <- func "yt.ColorTransferFunction" [VTuple [mi; ma]] [("grey_opacity", VBool false)] ;;
  _ <- method tf "map_to_colormap" [mi; ma]
         [("scale", VFloat 15.0); ("colormap", VStr "cmyt.algae")] ;;
  _ <- method source "set_transfer_function" [tf] [] ;;
  _ <- method sc "add_source" [source] [] ;;
  cam <- method sc "add_camera" [] [] ;;
  _ <- setattr cam "width" W ;;
  _ <- setattr cam "center" c ;;
  _ <- setattr cam "normal_vector" L ;;
  _ <- setattr cam "north_vector" (VList [VInt 0; VInt 0; VInt 1]) ;;
  ret sc.

(** sc.show(sigma_clip=4) *)
Definition cell_scene_show (sc : value) : M unit :=
  _ <- method sc "show" [] [("sigma_clip", VInt 4)] ;;
  ret tt.

(** f = pyfits.open(join(data_dir, "UnigridData", "velocity_field_20.fits"))
    f.info() *)
Definition cell_open_fits (data_dir : value) : M value :=
  path <- func "join" [data_dir; VStr "UnigridData"; VStr "velocity_field_20.fits"] [] ;;
  f <- func "pyfits.open" [path] [] ;;
  _ <- method f "info" [] [] ;;
  ret f.

(** The body of [for hdu in f]:
      name = hdu.name.lower()
      data[name] = (hdu.data, "km/s") *)
Definition fits_entry (hdu : value) (data : dict) : M dict :=
  n <- getattr hdu "name" ;;
  name <- str_lower n ;;
  hdata <- getattr hdu "data" ;;
  setitem data name (VTuple [hdata; VStr "km/s"]).

(** data = {}
    for hdu in f: ...
    print(data.keys()) *)
Definition cell_fits_data (f : value) : M dict :=
  hdus <- iterate f ;;
  data <- for_each hdus fits_entry [] ;;
  _ <- func "print" [dict_keys data] [] ;;
  ret data.

(** [data[new] = data.pop(old)] *)
Definition rename (data : dict) (new old : string) : M dict :=
  '(v, data') <- dict_pop data (K old) ;;
  ret (dict_set data' (K new) v).

(** data["velocity_x"] = data.pop("x-velocity")   (also y, z) *)
Definition cell_fits_rename (data : dict) : M dict :=
  data <- rename data "velocity_x" "x-velocity" ;;
  data <- rename data "velocity_y" "y-velocity" ;;
  rename data "velocity_z" "z-velocity".

(** ds = yt.load_uniform_grid(data, data["velocity_x"][0].shape, length_unit=(1.0, "Mpc"))
    slc = yt.SlicePlot(ds, "x", [("gas", "velocity_x"), ("gas", "velocity_y"),
                                 ("gas", "velocity_z")])
    for ax in "xyz":
        slc.set_log(("gas", f"velocity_{ax}"), False)
    slc.annotate_velocity()
    slc.show() *)
Definition cell_load_fits (data : dict) : M value :=
  d <- subscript (VDict data) (VStr "velocity_x") ;;
  d0 <- subscript d (VInt 0) ;;
  shape <- getattr d0 "shape" ;;
  ds <- func "yt.load_uniform_grid" [VDict data; shape]
          [("length_unit", VTuple [VFloat 1.0; VStr "Mpc"])] ;;
  slc <- func "yt.SlicePlot"
           [ ds; VStr "x"
           ; VList [ VTuple [VStr "gas"; VStr "velocity_x"]
                   ; VTuple [VStr "gas"; VStr "velocity_y"]
                   ; VTuple [VStr "gas"; VStr "velocity_z"] ] ] [] ;;
  axes <- iterate (VStr "xyz") ;;
  _ <- for_each axes
         (fun ax _ =>
            match ax with
            | VStr a =>
                _ <- method slc "set_log"
                       [VTuple [VStr "gas"; VStr ("velocity_" ++ a)]; VBool false] [] ;;
                ret tt
            | _ => raise (TypeError "format")
            end) tt ;;
  _ <- method slc "annotate_velocity" [] [] ;;
  _ <- method slc "show" [] [] ;;
  ret ds.

(** ** Generic AMR data *)

(** grid_data = [ {"left_edge": [0.0, 0.0, 0.0], "right_edge": [1.0, 1.0, 1.0],
                   "level": 0, "dimensions": [32, 32, 32]},
                  {"left_edge": [0.25, 0.25, 0.25], "right_edge": [0.75, 0.75, 0.75],
                   "level": 1, "dimensions": [32, 32, 32]} ] *)
Definition grid_data : list dict :=
  [ dict_of [ (K "left_edge", VList [VFloat 0.0; VFloat 0.0; VFloat 0.0])
            ; (K "right_edge", VList [VFloat 1.0; VFloat 1.0; VFloat 1.0])
            ; (K "level", VInt 0)
            ; (K "dimensions", VList [VInt 32; VInt 32; VInt 32]) ]
  ; dict_of [ (K "left_edge", VList [VFloat 0.25; VFloat 0.25; VFloat 0.25])
            ; (K "right_edge", VList [VFloat 0.75; VFloat 0.75; VFloat 0.75])
            ; (K "level", VInt 1)
            ; (K "dimensions", VList [VInt 32; VInt 32; VInt 32]) ] ].

(** The body of [for g in grid_data]:
      g["density"] = (prng.random(g["dimensions"]) * 2 ** g["level"], "g/cm**3")
    The dictionaries are reached through the list alone, so the update of [g]
    is the update of the list item. *)
Definition grid_density (g : dict) : M dict :=
  dims <- subscript (VDict g) (VStr "dimensions") ;;
  r <- prng_random dims ;;
  level <- subscript (VDict g) (VStr "level") ;;
  p <- binop Pow (VInt 2) level ;;
  a <- binop Mul r p ;;
  setitem g (VStr "density") (VTuple [a; VStr "g/cm**3"]).

Fixpoint for_grids (body : dict -> M dict) (gs : list dict) : M (list dict) :=
  match gs with
  | [] => ret []
  | g :: gs' => g' <- body g ;; gs'' <- for_grids body gs' ;; ret (g' :: gs'')
  end.

Definition cell_grid_density (gd : list dict) : M (list dict) :=
  for_grids grid_density gd.

Fixpoint replace_nth {A} (l : list A) (n : nat) (x : A) : list A :=
  match l, n with
  | [], _ => []
  | _ :: l', O => x :: l'
  | y :: l', S n' => y :: replace_nth l' n' x
  end.

(** [gd[i][k] = v] *)
Definition grid_setitem (gd : list dict) (i : Z) (k : string) (v : value) : M (list dict) :=
  match seq_index gd i with
  | Some g =>
      g' <- setitem g (VStr k) v ;;
      ret (replace_nth gd (Z.to_nat (if (i <? 0)%Z then i + Z.of_nat (length gd) else i)) g')
  | None => raise IndexError
  end.

(** grid_data[0]["particle_position_x"] = (np.array([]), "code_length")   (also y, z)
    grid_data[1]["particle_position_x"] =
        (prng.uniform(low=0.25, high=0.75, size=1000), "code_length")     (also y, z) *)
Definition cell_grid_particles (gd : list dict) : M (list dict) :=
  gd <- grid_setitem gd 0 "particle_position_x"
          (VTuple [np_array (VList []); VStr "code_length"]) ;;
  gd <- grid_setitem gd 0 "particle_position_y"
          (VTuple [np_array (VList []); VStr "code_length"]) ;;
  gd <- grid_setitem gd 0 "particle_position_z"
          (VTuple [np_array (VList []); VStr "code_length"]) ;;
  px <- prng_uniform 0.25 0.75 (VInt 1000) ;;
  gd <- grid_setitem gd 1 "particle_position_x" (VTuple [px; VStr "code_length"]) ;;
  py <- prng_uniform 0.25 0.75 (VInt 1000) ;;
  gd <- grid_setitem gd 1 "particle_position_y" (VTuple [py; VStr "code_length"]) ;;
  pz <- prng_uniform 0.25 0.75 (VInt 1000) ;;
  grid_setitem gd 1 "particle_position_z" (VTuple [pz; VStr "code_length"]).

(** The grid dictionaries as they stand when [load_amr_grids] is called. *)
Definition amr_grids : M (list dict) :=
  gd <- cell_grid_density grid_data ;;
  cell_grid_particles gd.

(** ds = yt.load_amr_grids(grid_data, [32, 32, 32]) *)
Definition cell_load_amr (gd : list dict) : M value :=
  func "yt.load_amr_grids" [VList (map VDict gd); VList [VInt 32; VInt 32; VInt 32]] [].

(** slc = yt.SlicePlot(ds, "z", ("gas", "density"))
    slc.annotate_particles(0.25, p_size=15.0, col="Pink")
    slc.show() *)
Definition cell_slice_amr (ds : value) : M unit :=
  slc <- func "yt.SlicePlot" [ds; VStr "z"; gas_density] [] ;;
  _ <- method slc "annotate_particles" [VFloat 0.25]
         [("p_size", VFloat 15.0); ("col", VStr "Pink")] ;;
  _ <- method slc "show" [] [] ;;
  ret tt.

(** ** Species fields *)

(** One entry [(f * np.ones_like(arr), "dimensionless")]. *)
Definition fraction (f : float) (arr : value) : M value :=
  o <- np_ones_like arr ;;
  a <- binop Mul (VFloat f) o ;;
  ret (VTuple [a; VStr "dimensionless"]).

(** arr = prng.random(size=(64, 64, 64))
    data = { "density": (arr, "g/cm**3"),
             "H_p0_fraction": (0.37 * np.ones_like(arr), "dimensionless"),
             "H_p1_fraction": (0.37 * np.ones_like(arr), "dimensionless"),
             "He_fraction": (0.24 * np.ones_like(arr), "dimensionless"),
             "CO_fraction": (0.02 * np.ones_like(arr), "dimensionless") }
    The result is [(arr, data)]. *)
Definition data_species : M (value * dict) :=
  arr <- prng_random (VTuple [VInt 64; VInt 64; VInt 64]) ;;
  h0 <- fraction 0.37 arr ;;
  h1 <- fraction 0.37 arr ;;
  he <- fraction 0.24 arr ;;
  co <- fraction 0.02 arr ;;
  ret (arr, dict_of
    [ (K "density", VTuple [arr; VStr "g/cm**3"])
    ; (K "H_p0_fraction", h0)
    ; (K "H_p1_fraction", h1)
    ; (K "He_fraction", he)
    ; (K "CO_fraction", co) ]).

(** bbox = np.array([[-1.5, 1.5], [-1.5, 1.5], [-1.5, 1.5]])
    ds = yt.load_uniform_grid(data, arr.shape, length_unit="Mpc", bbox=bbox, nprocs=64)
    dd = ds.all_data()
    print(dd.mean(("gas", "CO_density")))
    print(dd.min(("gas", "H_nuclei_density")))
    print(dd.max(("gas", "He_number_density"))) *)
Definition cell_species : M value :=
  '(arr, data) <- data_species ;;
  let bbox := bbox_15 in
  shape <- getattr arr "shape" ;;
  ds <- func "yt.load_uniform_grid" [VDict data; shape]
          [("length_unit", VStr "Mpc"); ("bbox", bbox); ("nprocs", VInt 64)] ;;
  dd <- method ds "all_data" [] [] ;;
  x <- method dd "mean" [VTuple [VStr "gas"; VStr "CO_density"]] [] ;;
  _ <- func "print" [x] [] ;;
  x <- method dd "min" [VTuple [VStr "gas"; VStr "H_nuclei_density"]] [] ;;
  _ <- func "print" [x] [] ;;
  x <- method dd "max" [VTuple [VStr "gas"; VStr "He_number_density"]] [] ;;
  _ <- func "print" [x] [] ;;
  ret ds.

(** ** Multiple particle types *)

(** posxr_arr = prng.uniform(low=-1.5, high=1.5, size=10000)   (also yr, zr)
    posxb_arr = prng.uniform(low=-1.5, high=1.5, size=20000)   (also yb, zb)
    data = { ("gas", "density"): (prng.random(size=(64, 64, 64)), "Msun/kpc**3"),
             ("red", "particle_position_x"): (posxr_arr, "code_length"), ...
             ("blue", "particle_position_x"): (posxb_arr, "code_length"), ... } *)
Definition data_multi_types : M dict :=
  posxr_arr <- prng_uniform (-1.5) 1.5 (VInt 10000) ;;
  posyr_arr <- prng_uniform (-1.5) 1.5 (VInt 10000) ;;
  poszr_arr <- prng_uniform (-1.5) 1.5 (VInt 10000) ;;
  posxb_arr <- prng_uniform (-1.5) 1.5 (VInt 20000) ;;
  posyb_arr <- prng_uniform (-1.5) 1.5 (VInt 20000) ;;
  poszb_arr <- prng_uniform (-1.5) 1.5 (VInt 20000) ;;
  density <- prng_random (VTuple [VInt 64; VInt 64; VInt 64]) ;;
  ret (dict_of
    [ (KT "gas" "density", VTuple [density; VStr "Msun/kpc**3"])
    ; (KT "red" "particle_position_x", VTuple [posxr_arr; VStr "code_length"])
    ; (KT "red" "particle_position_y", VTuple [posyr_arr; VStr "code_length"])
    ; (KT "red" "particle_position_z", VTuple [poszr_arr; VStr "code_length"])
    ; (KT "blue" "particle_position_x", VTuple [posxb_arr; VStr "code_length"])
    ; (KT "blue" "particle_position_y", VTuple [posyb_arr; VStr "code_length"])
    ; (KT "blue" "particle_position_z", VTuple [poszb_arr; VStr "code_length"]) ]).

(** bbox = np.array([[-1.5, 1.5], [-1.5, 1.5], [-1.5, 1.5]])
    ds = yt.load_uniform_grid(data, data["gas", "density"][0].shape,
             length_unit=(1.0, "Mpc"), mass_unit=(1.0, "Msun"), bbox=bbox, nprocs=4) *)
Definition cell_multi_types : M value :=
  data <- data_multi_types ;;
  let bbox := bbox_15 in
  d <- subscript (VDict data) gas_density ;;
  d0 <- subscript d (VInt 0) ;;
  shape <- getattr d0 "shape" ;;
  func "yt.load_uniform_grid" [VDict data; shape]
    [ ("length_unit", VTuple [VFloat 1.0; VStr "Mpc"])
    ; ("mass_unit", VTuple [VFloat 1.0; VStr "Msun"])
    ; ("bbox", bbox); ("nprocs", VInt 4) ].

(** [print(dd[t, "particle_position_x"].size)] *)
Definition print_size (dd : value) (t : string) : M unit :=
  a <- subscript dd (VTuple [VStr t; VStr "particle_position_x"]) ;;
  n <- getattr a "size" ;;
  _ <- func "print" [n] [] ;;
  ret tt.

(** dd = ds.all_data()
    print(ds.particle_types)
    print(dd["red", "particle_position_x"].size)    (also "blue", "all") *)
Definition cell_particle_types (ds : value) : M unit :=
  dd <- method ds "all_data" [] [] ;;
  pt <- getattr ds "particle_types" ;;
  _ <- func "print" [pt] [] ;;
  _ <- print_size dd "red" ;;
  _ <- print_size dd "blue" ;;
  print_size dd "all".

(** ** The notebook, cell after cell *)
Definition notebook : M unit :=
  arr <- cell_arr ;;
  ds <- cell_unigrid arr ;;
  _ <- cell_slice_grids ds ;;
  ds <- cell_unigrid_particles ;;
  _ <- cell_slice_particles ds ;;
  '(data_dir, f) <- cell_open_hdf5 ;;
  _ <- cell_print_keys f ;;
  '(data, bbox) <- cell_hdf5_data f ;;
  ds <- cell_load_hdf5 data bbox ;;
  _ <- cell_projection ds ;;
  '(mi, ma) <- cell_extrema ds ;;
  '(L, c, W) <- cell_camera_setup ds ;;
  sc <- cell_scene ds mi ma L c W ;;
  _ <- cell_scene_show sc ;;
  f <- cell_open_fits data_dir ;;
  data <- cell_fits_data f ;;
  data <- cell_fits_rename data ;;
  ds <- cell_load_fits data ;;
  gd <- amr_grids ;;
  ds <- cell_load_amr gd ;;
  _ <- cell_slice_amr ds ;;
  ds <- cell_species ;;
  ds <- cell_multi_types ;;
  cell_particle_types ds.

End GenericArray.

(* ===================================================================== *)
(** * Notebook: Loading Generic Particle Data *)
(* ===================================================================== *)

Module GenericParticle.
Import Py Builtins.
Local Open Scope py_scope.

Definition n_particles : Z := 5000000.

(** [xs, ys, zs = scale * np.random.normal(size=[3, n])] *)
Definition positions (scale : float) (n : Z) : M (value * value * value) :=
  a <- np_random_normal (VList [VInt 3; VInt n]) ;;
  a <- binop Mul (VFloat scale) a ;;
  unpack3 a.

(** n_particles = 5000000
    ppx, ppy, ppz = 1e6 * np.random.normal(size=[3, n_particles])
    ppm = np.ones(n_particles)
    The result is [(ppx, ppy, ppz, ppm)]. *)
Definition cell_arrays : M (value * value * value * value) :=
  '(ppx, ppy, ppz) <- positions 1e6 n_particles ;;
  ppm <- np_ones (VInt n_particles) ;;
  ret (ppx, ppy, ppz, ppm).

(** data = { "particle_position_x": ppx, "particle_position_y": ppy,
             "particle_position_z": ppz, "particle_mass": ppm } *)
Definition data (ppx ppy ppz ppm : value) : dict :=
  dict_of
    [ (K "particle_position_x", ppx)
    ; (K "particle_position_y", ppy)
    ; (K "particle_position_z", ppz)
    ; (K "particle_mass", ppm) ].

(** [[min(a), max(a)]] *)
Definition extent (a : value) : M value :=
  lo <- func "min" [a] [] ;;
  hi <- func "max" [a] [] ;;
  ret (VList [lo; hi]).

(** bbox = 1.1 * np.array([[min(ppx), max(ppx)], [min(ppy), max(ppy)],
                           [min(ppz), max(ppz)]])
    ds = yt.load_particles(data, length_unit=1.0 * parsec, mass_unit=1e8 * Msun,
                           bbox=bbox)
    The result is [(bbox, ds)]. *)
Definition cell_load (ppx ppy ppz : value) (data : dict) : M (value * value) :=
  ex <- extent ppx ;;
  ey <- extent ppy ;;
  ez <- extent ppz ;;
  bbox <- binop Mul (VFloat 1.1) (np_array (VList [ex; ey; ez])) ;;
  length_unit <- binop Mul (VFloat 1.0) (VGlobal "parsec") ;;
  mass_unit <- binop Mul (VFloat 1e8) (VGlobal "Msun") ;;
  ds <- func "yt.load_particles" [VDict data]
          [("length_unit", length_unit); ("mass_unit", mass_unit); ("bbox", bbox)] ;;
  ret (bbox, ds).

(** ad = ds.all_data()
    cic_density = ad["deposit", "all_cic"]
    nn_density = ad["deposit", "all_density"]
    nn_deposited_mass = ad["deposit", "all_mass"]
    particle_count_per_cell = ad["deposit", "all_count"] *)
Definition cell_deposit (ds : value) : M unit :=
  ad <- method ds "all_data" [] [] ;;
  cic_density <- subscript ad (VTuple [VStr "deposit"; VStr "all_cic"]) ;;
  nn_density <- subscript ad (VTuple [VStr "deposit"; VStr "all_density"]) ;;
  nn_deposited_mass <- subscript ad (VTuple [VStr "deposit"; VStr "all_mass"]) ;;
  particle_count_per_cell <- subscript ad (VTuple [VStr "deposit"; VStr "all_count"]) ;;
  ret tt.

(** ds.field_list, then ds.derived_field_list *)
Definition cell_field_lists (ds : value) : M unit :=
  _ <- getattr ds "field_list" ;;
  _ <- getattr ds "derived_field_list" ;;
  ret tt.

(** slc = yt.SlicePlot(ds, 2, fields)
    slc.set_width((8, "Mpc")) *)
Definition cell_slice (ds fields : value) : M unit :=
  slc <- func "yt.SlicePlot" [ds; VInt 2; fields] [] ;;
  _ <- method slc "set_width" [VTuple [VInt 8; VStr "Mpc"]] [] ;;
  ret tt.

Definition n_star_particles : Z := 1000000.
Definition n_dm_particles : Z := 2000000.

(** ppxd, ppyd, ppzd = 1e6 * np.random.normal(size=[3, n_dm_particles])
    ppmd = np.ones(n_dm_particles)
    ppxs, ppys, ppzs = 5e5 * np.random.normal(size=[3, n_star_particles])
    ppms = 0.1 * np.ones(n_star_particles)
    data2 = { ("dm", "particle_position_x"): ppxd, ..., ("dm", "particle_mass"): ppmd,
              ("star", "particle_position_x"): ppxs, ..., ("star", "particle_mass"): ppms } *)
Definition data2 : M dict :=
  '(ppxd, ppyd, ppzd) <- positions 1e6 n_dm_particles ;;
  ppmd <- np_ones (VInt n_dm_particles) ;;
  '(ppxs, ppys, ppzs) <- positions 5e5 n_star_particles ;;
  o <- np_ones (VInt n_star_particles) ;;
  ppms <- binop Mul (VFloat 0.1) o ;;
  ret (dict_of
    [ (KT "dm" "particle_position_x", ppxd)
    ; (KT "dm" "particle_position_y", ppyd)
    ; (KT "dm" "particle_position_z", ppzd)
    ; (KT "dm" "particle_mass", ppmd)
    ; (KT "star" "particle_position_x", ppxs)
    ; (KT "star" "particle_position_y", ppys)
    ; (KT "star" "particle_position_z", ppzs)
    ; (KT "star" "particle_mass", ppms) ]).

(** ds2 = yt.load_particles(data2, length_unit=1.0 * parsec, mass_unit=1e8 * Msun,
                            n_ref=256, bbox=bbox) *)
Definition cell_load2 (bbox : value) : M value :=
  data2 <- data2 ;;
  length_unit <- binop Mul (VFloat 1.0) (VGlobal "parsec") ;;
  mass_unit <- binop Mul (VFloat 1e8) (VGlobal "Msun") ;;
  func "yt.load_particles" [VDict data2]
    [ ("length_unit", length_unit); ("mass_unit", mass_unit)
    ; ("n_ref", VInt 256); ("bbox", bbox) ].

(** The notebook, cell after cell. *)
Definition notebook : M unit :=
  '(ppx, ppy, ppz, ppm) <- cell_arrays ;;
  let data := data ppx ppy ppz ppm in
  '(bbox, ds) <- cell_load ppx ppy ppz data ;;
  _ <- cell_deposit ds ;;
  _ <- cell_field_lists ds ;;
  _ <- cell_slice ds (VTuple [VStr "deposit"; VStr "all_cic"]) ;;
  ds2 <- cell_load2 bbox ;;
  cell_slice ds2 (VList [ VTuple [VStr "deposit"; VStr "dm_cic"]
                        ; VTuple [VStr "deposit"; VStr "star_cic"] ]).

End GenericParticle.

(* ===================================================================== *)
(** * Notebook: Particle Trajectories *)
(* ===================================================================== *)

Module Trajectories.
Import Py Builtins.
Local Open Scope py_scope.

(** path = ytcfg.get("yt", "test_data_dir") *)
Definition cell_path : M value :=
  func "ytcfg.get" [VStr "yt"; VStr "test_data_dir"] [].

(** my_fns = glob.glob(join(path, ...))
    my_fns.sort() *)
Definition sorted_glob (path : value) (parts : list value) : M value :=
  pat <- func "join" (path :: parts) [] ;;
  my_fns <- func "glob.glob" [pat] [] ;;
  list_sort my_fns.

Definition fields : value :=
  VList [VStr "particle_velocity_x"; VStr "particle_velocity_y"; VStr "particle_velocity_z"].

(** ds = yt.load(my_fns[0])
    dd = ds.all_data()
    indices = dd["all", "particle_index"].astype("int")
    print(indices) *)
Definition cell_indices (my_fns : value) : M value :=
  fn <- subscript my_fns (VInt 0) ;;
  ds <- func "yt.load" [fn] [] ;;
  dd <- method ds "all_data" [] [] ;;
  pi <- subscript dd (VTuple [VStr "all"; VStr "particle_index"]) ;;
  indices <- method pi "astype" [VStr "int"] [] ;;
  _ <- func "print" [indices] [] ;;
  ret indices.

(** ts = yt.DatasetSeries(my_fns)
    trajs = ts.particle_trajectories(indices, fields=fields, suppress_logging=True) *)
Definition cell_trajectories (my_fns indices : value) : M value :=
  ts <- func "yt.DatasetSeries" [my_fns] [] ;;
  method ts "particle_trajectories" [indices]
    [("fields", fields); ("suppress_logging", VBool true)].

Definition all_ (name : string) : value := VTuple [VStr "all"; VStr name].

(** print(trajs["all", "particle_position_x"])
    print(trajs["all", "particle_position_x"].shape) *)
Definition cell_print (trajs : value) : M unit :=
  x <- subscript trajs (all_ "particle_position_x") ;;
  _ <- func "print" [x] [] ;;
  x <- subscript trajs (all_ "particle_position_x") ;;
  sh <- getattr x "shape" ;;
  _ <- func "print" [sh] [] ;;
  ret tt.

(** [plt.plot(trajs[kx][i], trajs[ky][i])] *)
Definition plot_pair (trajs kx ky : value) (i : Z) : M unit :=
  x <- subscript trajs kx ;;
  xi <- subscript x (VInt i) ;;
  y <- subscript trajs ky ;;
  yi <- subscript y (VInt i) ;;
  _ <- func "plt.plot" [xi; yi] [] ;;
  ret tt.

Definition figure (w h : value) : M value :=
  func "plt.figure" [] [("figsize", VTuple [w; h])].

(** plt.figure(figsize=(6, 6))
    plt.plot(trajs["all", a][0], trajs["all", b][0])
    plt.plot(trajs["all", a][1], trajs["all", b][1]) *)
Definition cell_plot_orbit (trajs : value) (a b : string) : M unit :=
  _ <- figure (VInt 6) (VInt 6) ;;
  _ <- plot_pair trajs (all_ a) (all_ b) 0 ;;
  plot_pair trajs (all_ a) (all_ b) 1.

(** [plt.plot(trajs[kt], trajs[kx][i])] *)
Definition plot_time (trajs kt kx : value) (i : Z) : M unit :=
  t <- subscript trajs kt ;;
  x <- subscript trajs kx ;;
  xi <- subscript x (VInt i) ;;
  _ <- func "plt.plot" [t; xi] [] ;;
  ret tt.

(** plt.figure(figsize=(6, 6))
    plt.plot(trajs["particle_time"], trajs["particle_velocity_x"][1])
    plt.plot(trajs["particle_time"], trajs["particle_velocity_y"][1]) *)
Definition cell_plot_time (trajs : value) : M unit :=
  _ <- figure (VInt 6) (VInt 6) ;;
  _ <- plot_time trajs (VStr "particle_time") (VStr "particle_velocity_x") 1 ;;
  plot_time trajs (VStr "particle_time") (VStr "particle_velocity_y") 1.

(** [plt.plot(p["all", "particle_time"], p["all", name])] *)
Definition plot_single (p : value) (name : string) : M unit :=
  t <- subscript p (all_ "particle_time") ;;
  x <- subscript p (all_ name) ;;
  _ <- func "plt.plot" [t; x] [] ;;
  ret tt.

(** particle1 = trajs.trajectory_from_index(1)
    plt.figure(figsize=(6, 6))
    plt.plot(particle1["all", "particle_time"], particle1["all", "particle_position_x"])
    plt.plot(particle1["all", "particle_time"], particle1["all", "particle_position_y"]) *)
Definition cell_single (trajs : value) : M unit :=
  particle1 <- method trajs "trajectory_from_index" [VInt 1] [] ;;
  _ <- figure (VInt 6) (VInt 6) ;;
  _ <- plot_single particle1 "particle_position_x" ;;
  plot_single particle1 "particle_position_y".

(** ds = yt.load("enzo_tiny_cosmology/DD0046/DD0046")
    slc = yt.SlicePlot(ds, "x", [("gas", "density"), ("gas", "dark_matter_density")],
                       center="max", width=(3.0, "Mpc"))
    slc.show() *)
Definition cell_cosmology : M value :=
  ds <- func "yt.load" [VStr "enzo_tiny_cosmology/DD0046/DD0046"] [] ;;
  slc <- func "yt.SlicePlot"
           [ ds; VStr "x"
           ; VList [ VTuple [VStr "gas"; VStr "density"]
                   ; VTuple [VStr "gas"; VStr "dark_matter_density"] ] ]
           [("center", VStr "max"); ("width", VTuple [VFloat 3.0; VStr "Mpc"])] ;;
  _ <- method slc "show" [] [] ;;
  ret ds.

(** sp = ds.sphere("max", (0.5, "Mpc"))
    indices = sp["all", "particle_index"][sp["all", "particle_type"] == 1] *)
Definition cell_sphere (ds : value) : M value :=
  sp <- method ds "sphere" [VStr "max"; VTuple [VFloat 0.5; VStr "Mpc"]] [] ;;
  pi <- subscript sp (all_ "particle_index") ;;
  pt <- subscript sp (all_ "particle_type") ;;
  mask <- binop Eq pt (VInt 1) ;;
  subscript pi mask.

(** [ax.plot(trajs[x][i], trajs[y][i], trajs[z][i])] *)
Definition plot_3d (ax trajs : value) (i : Z) : M unit :=
  x <- subscript trajs (all_ "particle_position_x") ;;
  xi <- subscript x (VInt i) ;;
  y <- subscript trajs (all_ "particle_position_y") ;;
  yi <- subscript y (VInt i) ;;
  z <- subscript trajs (all_ "particle_position_z") ;;
  zi <- subscript z (VInt i) ;;
  _ <- method ax "plot" [xi; yi; zi] [] ;;
  ret tt.

(** fig = plt.figure(figsize=(8.0, 8.0))
    ax = fig.add_subplot(111, projection="3d")
    ax.plot(...)  for the trajectories 100, 8 and 25 *)
Definition cell_plot_3d (trajs : value) : M unit :=
  fig <- figure (VFloat 8.0) (VFloat 8.0) ;;
  ax <- method fig "add_subplot" [VInt 111] [("projection", VStr "3d")] ;;
  _ <- plot_3d ax trajs 100 ;;
  _ <- plot_3d ax trajs 8 ;;
  plot_3d ax trajs 25.

(** plt.figure(figsize=(6, 6))
    plt.plot(trajs["all", "particle_time"], trajs[k][100])   (also 8, 25) *)
Definition cell_plot_three (trajs k : value) : M unit :=
  _ <- figure (VInt 6) (VInt 6) ;;
  _ <- plot_time trajs (all_ "particle_time") k 100 ;;
  _ <- plot_time trajs (all_ "particle_time") k 8 ;;
  plot_time trajs (all_ "particle_time") k 25.

(** trajs.add_fields([("gas", "density")]) *)
Definition cell_add_fields (trajs : value) : M unit :=
  _ <- method trajs "add_fields" [VList [VTuple [VStr "gas"; VStr "density"]]] [] ;;
  ret tt.

(** trajs.write_out("halo_trajectories")
    trajs.write_out_h5("halo_trajectories.h5") *)
Definition cell_write (trajs : value) : M unit :=
  _ <- method trajs "write_out" [VStr "halo_trajectories"] [] ;;
  _ <- method trajs "write_out_h5" [VStr "halo_trajectories.h5"] [] ;;
  ret tt.

(** The notebook, cell after cell. *)
Definition notebook : M unit :=
  path <- cell_path ;;
  my_fns <- sorted_glob path [VStr "Orbit"; VStr "orbit_hdf5_chk_00[0-9][0-9]"] ;;
  indices <- cell_indices my_fns ;;
  trajs <- cell_trajectories my_fns indices ;;
  _ <- cell_print trajs ;;
  _ <- cell_plot_orbit trajs "particle_position_x" "particle_position_y" ;;
  _ <- cell_plot_orbit trajs "particle_velocity_x" "particle_velocity_y" ;;
  _ <- cell_plot_time trajs ;;
  _ <- cell_single trajs ;;
  ds <- cell_cosmology ;;
  indices <- cell_sphere ds ;;
  my_fns <- sorted_glob path [VStr "enzo_tiny_cosmology/DD*/*.hierarchy"] ;;
  trajs <- cell_trajectories my_fns indices ;;
  _ <- cell_plot_3d trajs ;;
  _ <- cell_plot_three trajs (all_ "particle_position_x") ;;
  _ <- cell_add_fields trajs ;;
  _ <- cell_plot_three trajs (VTuple [VStr "gas"; VStr "density"]) ;;
  _ <- func "plt.yscale" [VStr "log"] [] ;;
  cell_write trajs.

End Trajectories.

(* ===================================================================== *)
(** * Notebook: X-ray FITS images *)
(* ===================================================================== *)

Module FitsXray.
Import Py Builtins.
Local Open Scope py_scope.

Definition fits (name : string) : value := VTuple [VStr "fits"; VStr name].
Definition gas (name : string) : value := VTuple [VStr "gas"; VStr name].

(** ds = yt.load("xray_fits/A2052_merged_0.3-2_match-core_tmap_bgecorr.fits",
                 auxiliary_files=["xray_fits/A2052_core_tmap_b1_m2000_.fits"]) *)
Definition cell_load : M value :=
  func "yt.load" [VStr "xray_fits/A2052_merged_0.3-2_match-core_tmap_bgecorr.fits"]
    [("auxiliary_files", VList [VStr "xray_fits/A2052_core_tmap_b1_m2000_.fits"])].

(** ** The derived fields *)

(** def _counts(field, data):
        exposure_time = data.get_field_parameter("exposure_time")
        return data["fits", "flux"] * data["fits", "pixel"] * exposure_time *)
Definition _counts (field data : value) : M value :=
  exposure_time <- method data "get_field_parameter" [VStr "exposure_time"] [] ;;
  flux <- subscript data (fits "flux") ;;
  pixel <- subscript data (fits "pixel") ;;
  fp <- binop Mul flux pixel ;;
  binop Mul fp exposure_time.


(** def _pe(field, data):
        return data["fits", "projected_temperature"] * data["gas", "counts"] ** (-1.0 / 3.0) *)
Definition _pe (field data : value) : M value :=
  temperature <- subscript data (fits "projected_temperature") ;;
  counts <- subscript data (gas "counts") ;;
  e <- binop Div (VFloat (-1.0)) (VFloat 3.0) ;;
  p <- binop Pow counts e ;;
  binop Mul temperature p.


(** ds.add_field(name, function=f, sampling_type="cell", units=units, take_log=False) *)
Definition add_field (ds name : value) (f units : string) : M value :=
  method ds "add_field" [name]
    [ ("function", VFun f); ("sampling_type", VStr "cell")
    ; ("units", VStr units); ("take_log", VBool false) ].

Definition cell_derived_fields (ds : value) : M unit :=
  _ <- add_field ds (gas "counts") "_counts" "counts" ;;
  _ <- add_field ds (gas "pseudo_pressure") "_pp" "sqrt(counts)*keV" ;;
  _ <- add_field ds (gas "pseudo_entropy") "_pe" "keV*(counts)**(-1/3)" ;;
  ret tt.

(** exposure_time = ds.quan(ds.primary_header["exposure"], "s") *)
Definition cell_exposure (ds : value) : M value :=
  hdr <- getattr ds "primary_header" ;;
  e <- subscript hdr (VStr "exposure") ;;
  method ds "quan" [e; VStr "s"] [].

Definition four_fields : value :=
  VList [fits "flux"; fits "projected_temperature"; gas "pseudo_pressure"; gas "pseudo_entropy"].

Definition exposure_parameter (exposure_time : value) : value :=
  VDict (dict_of [(K "exposure_time", exposure_time)]).

(** slc = yt.SlicePlot(ds, "z", [...], origin="native",
                       field_parameters={"exposure_time": exposure_time})
    slc.set_log(("fits", "flux"), True)
    slc.set_zlim(("fits", "flux"), 1e-5)
    slc.set_log(("gas", "pseudo_pressure"), False)
    slc.set_log(("gas", "pseudo_entropy"), False)
    slc.set_width(250.0)
    slc.show() *)
Definition cell_slice (ds exposure_time : value) : M value :=
  slc <- func "yt.SlicePlot" [ds; VStr "z"; four_fields]
           [("origin", VStr "native"); ("field_parameters", exposure_parameter exposure_time)] ;;
  _ <- method slc "set_log" [fits "flux"; VBool true] [] ;;
  _ <- method slc "set_zlim" [fits "flux"; VFloat 1e-5] [] ;;
  _ <- method slc "set_log" [gas "pseudo_pressure"; VBool false] [] ;;
  _ <- method slc "set_log" [gas "pseudo_entropy"; VBool false] [] ;;
  _ <- method slc "set_width" [VFloat 250.0] [] ;;
  _ <- method slc "show" [] [] ;;
  ret slc.

(** wcs_slc = PlotWindowWCS(slc)
    wcs_slc.show() *)
Definition cell_wcs (slc : value) : M unit :=
  wcs_slc <- func "PlotWindowWCS" [slc] [] ;;
  _ <- method wcs_slc "show" [] [] ;;
  ret tt.

(** v, c = ds.find_max(("fits", "flux"))
    my_sphere = ds.sphere(c, (100.0, "code_length"))
    my_sphere.set_field_parameter("exposure_time", exposure_time) *)
Definition cell_sphere (ds exposure_time : value) : M value :=
  vc <- method ds "find_max" [fits "flux"] [] ;;
  '(v, c) <- unpack2 vc ;;
  my_sphere <- method ds "sphere" [c; VTuple [VFloat 100.0; VStr "code_length"]] [] ;;
  _ <- method my_sphere "set_field_parameter" [VStr "exposure_time"; exposure_time] [] ;;
  ret my_sphere.

(** radial_profile = yt.ProfilePlot(my_sphere, "radius",
        ["counts", "pseudo_pressure", "pseudo_entropy"], n_bins=30, weight_field="ones")
    radial_profile.set_log(...)  for the three fields
    radial_profile.set_xlim(3, 100.0)
    radial_profile.show() *)
Definition cell_profile (my_sphere : value) : M unit :=
  radial_profile <- func "yt.ProfilePlot"
      [my_sphere; VStr "radius"; VList [VStr "counts"; VStr "pseudo_pressure"; VStr "pseudo_entropy"]]
      [("n_bins", VInt 30); ("weight_field", VStr "ones")] ;;
  _ <- method radial_profile "set_log" [VStr "counts"; VBool true] [] ;;
  _ <- method radial_profile "set_log" [VStr "pseudo_pressure"; VBool true] [] ;;
  _ <- method radial_profile "set_log" [VStr "pseudo_entropy"; VBool true] [] ;;
  _ <- method radial_profile "set_xlim" [VInt 3; VFloat 100.0] [] ;;
  _ <- method radial_profile "show" [] [] ;;
  ret tt.

(** phase_plot = yt.PhasePlot(my_sphere, "pseudo_pressure", "pseudo_entropy",
                              ["counts"], weight_field=None)
    phase_plot.show() *)
Definition cell_phase (my_sphere : value) : M unit :=
  phase_plot <- func "yt.PhasePlot"
      [my_sphere; VStr "pseudo_pressure"; VStr "pseudo_entropy"; VList [VStr "counts"]]
      [("weight_field", VNone)] ;;
  _ <- method phase_plot "show" [] [] ;;
  ret tt.

Definition newline : string := String (ascii_of_nat 10) EmptyString.
Definition dquote : string := String (ascii_of_nat 34) EmptyString.

(** The three lines written to circle.reg. *)
Definition reg_file : value :=
  VList [ VStr ("# Region file format: DS9 version 4.1" ++ newline)
        ; VStr ("global color=green dashlist=8 3 width=3 include=1 source=1 fk5" ++ newline)
        ; VStr ("circle(15:16:44.817,+7:01:19.62,34.6256" ++ dquote ++ ")") ].

(** f = open("circle.reg", "w")
    f.writelines(reg_file)
    f.close()
    circle_reg = ds9_region(ds, "circle.reg",
                            field_parameters={"exposure_time": exposure_time}) *)
Definition cell_region (ds exposure_time : value) : M value :=
  f <- func "open" [VStr "circle.reg"; VStr "w"] [] ;;
  _ <- method f "writelines" [reg_file] [] ;;
  _ <- method f "close" [] [] ;;
  func "ds9_region" [ds; VStr "circle.reg"]
    [("field_parameters", exposure_parameter exposure_time)].

(** print(circle_reg.quantities.weighted_average_quantity("projected_temperature", "counts")) *)
Definition cell_average (circle_reg : value) : M unit :=
  qs <- getattr circle_reg "quantities" ;;
  x <- method qs "weighted_average_quantity" [VStr "projected_temperature"; VStr "counts"] [] ;;
  _ <- func "print" [x] [] ;;
  ret tt.

(** prj = yt.ProjectionPlot(ds, "z", [...], origin="native",
          field_parameters={"exposure_time": exposure_time},
          data_source=circle_reg, method="sum")
    prj.set_log(("fits", "flux"), True)
    prj.set_log(("gas", "pseudo_pressure"), False)
    prj.set_log(("gas", "pseudo_entropy"), False)
    prj.set_width(250.0)
    prj.show() *)
Definition cell_projection (ds exposure_time circle_reg : value) : M unit :=
  prj <- func "yt.ProjectionPlot" [ds; VStr "z"; four_fields]
           [ ("origin", VStr "native"); ("field_parameters", exposure_parameter exposure_time)
           ; ("data_source", circle_reg); ("method", VStr "sum") ] ;;
  _ <- method prj "set_log" [fits "flux"; VBool true] [] ;;
  _ <- method prj "set_log" [gas "pseudo_pressure"; VBool false] [] ;;
  _ <- method prj "set_log" [gas "pseudo_entropy"; VBool false] [] ;;
  _ <- method prj "set_width" [VFloat 250.0] [] ;;
  _ <- method prj "show" [] [] ;;
  ret tt.

(** ** The Bullet Cluster *)

(** ds2 = yt.load("xray_fits/acisf05356N003_evt2.fits.gz", parameters={"reblock": 2}) *)
Definition cell_load2 : M value :=
  func "yt.load" [VStr "xray_fits/acisf05356N003_evt2.fits.gz"]
    [("parameters", VDict (dict_of [(K "reblock", VInt 2)]))].

(** ebounds = [(0.1, 2.0), (2.0, 5.0)]
    setup_counts_fields(ds2, ebounds) *)
Definition cell_counts_fields (ds2 : value) : M unit :=
  let ebounds := VList [VTuple [VFloat 0.1; VFloat 2.0]; VTuple [VFloat 2.0; VFloat 5.0]] in
  _ <- func "setup_counts_fields" [ds2; ebounds] [] ;;
  ret tt.

(** dd = ds2.all_data()
    print(dd["io", "event_x"])
    print(dd["io", "event_y"]) *)
Definition cell_events (ds2 : value) : M unit :=
  dd <- method ds2 "all_data" [] [] ;;
  x <- subscript dd (VTuple [VStr "io"; VStr "event_x"]) ;;
  _ <- func "print" [x] [] ;;
  y <- subscript dd (VTuple [VStr "io"; VStr "event_y"]) ;;
  _ <- func "print" [y] [] ;;
  ret tt.

Definition counts_fields : value :=
  VList [gas "counts_0.1-2.0"; gas "counts_2.0-5.0"].

(** slc = yt.SlicePlot(ds2, "z", [...], origin="native")
    slc.pan((100.0, 100.0))
    slc.set_width(500.0)
    slc.show() *)
Definition cell_slice2 (ds2 : value) : M unit :=
  slc <- func "yt.SlicePlot" [ds2; VStr "z"; counts_fields] [("origin", VStr "native")] ;;
  _ <- method slc "pan" [VTuple [VFloat 100.0; VFloat 100.0]] [] ;;
  _ <- method slc "set_width" [VFloat 500.0] [] ;;
  _ <- method slc "show" [] [] ;;
  ret tt.

(** slc = yt.SlicePlot(ds2, "z", [...], origin="native", field_parameters={"sigma": 2.0})
    slc.pan((100.0, 100.0))
    slc.set_width(500.0)
    slc.set_zlim(("gas", "counts_0.1-2.0"), 0.01, 100.0)
    slc.set_zlim(("gas", "counts_2.0-5.0"), 0.01, 50.0)
    slc.show() *)
Definition cell_slice_smoothed (ds2 : value) : M unit :=
  slc <- func "yt.SlicePlot" [ds2; VStr "z"; counts_fields]
           [ ("origin", VStr "native")
           ; ("field_parameters", VDict (dict_of [(K "sigma", VFloat 2.0)])) ] ;;
  _ <- method slc "pan" [VTuple [VFloat 100.0; VFloat 100.0]] [] ;;
  _ <- method slc "set_width" [VFloat 500.0] [] ;;
  _ <- method slc "set_zlim" [gas "counts_0.1-2.0"; VFloat 0.01; VFloat 100.0] [] ;;
  _ <- method slc "set_zlim" [gas "counts_2.0-5.0"; VFloat 0.01; VFloat 50.0] [] ;;
  _ <- method slc "show" [] [] ;;
  ret tt.

(** The notebook, cell after cell. *)
Definition notebook : M unit :=
  ds <- cell_load ;;
  _ <- cell_derived_fields ds ;;
  exposure_time <- cell_exposure ds ;;
  slc <- cell_slice ds exposure_time ;;
  _ <- cell_wcs slc ;;
  my_sphere <- cell_sphere ds exposure_time ;;
  _ <- cell_profile my_sphere ;;
  _ <- cell_phase my_sphere ;;
  circle_reg <- cell_region ds exposure_time ;;
  _ <- cell_average circle_reg ;;
  _ <- cell_projection ds exposure_time circle_reg ;;
  ds2 <- cell_load2 ;;
  _ <- cell_counts_fields ds2 ;;
  _ <- cell_events ds2 ;;
  _ <- cell_slice2 ds2 ;;
  cell_slice_smoothed ds2.

End FitsXray.

(* ===================================================================== *)
(** * Pre-commit configuration *)
(* ===================================================================== *)

Module PreCommit.

Record hook : Type := mkhook
  { hook_id : string
  ; hook_args : list string
  ; additional_dependencies : list string }.

Record repo : Type := mkrepo
  { repo_url : string
  ; rev : string
  ; hooks : list hook }.

Record config : Type := mkconfig
  { minimum_pre_commit_version : string
  ; exclude : list string          (* the alternatives of the pattern ^(a|b|...) *)
  ; autofix_prs : bool
  ; autoupdate_schedule : string
  ; repos : list repo }.

Definition plain (id : string) : hook := mkhook id [] [].

(** .pre-commit-config.yaml *)
Definition pre_commit_config : config :=
  {| minimum_pre_commit_version := "1.15.0"
   ; exclude :=
       [ "yt/extern"
       ; "yt/frontends/stream/sample_data"
       ; "yt/units"
       ; "scripts"
       ; "benchmark"
       ; "setupext.py"
       ; "yt/visualization/_colormap_data.py" ]
   ; autofix_prs := false
   ; autoupdate_schedule := "monthly"
   ; repos :=
       [ mkrepo "https://github.com/pre-commit/pre-commit-hooks" "v4.4.0"
           [ plain "trailing-whitespace"; plain "end-of-file-fixer"
           ; plain "no-commit-to-branch"; plain "check-shebang-scripts-are-executable"
           ; plain "check-executables-have-shebangs"; plain "check-yaml" ]
       ; mkrepo "https://github.com/psf/black" "23.3.0" [ plain "black-jupyter" ]
       ; mkrepo "https://github.com/adamchainz/blacken-docs" "1.14.0"
           [ mkhook "blacken-docs" [] ["black==23.1.0"] ]
       ; mkrepo "https://github.com/charliermarsh/ruff-pre-commit" "v0.0.275"
           [ mkhook "ruff" ["--fix"] [] ]
       ; mkrepo "https://github.com/nbQA-dev/nbQA" "1.7.0"
           [ mkhook "nbqa-ruff" ["--fix"; "--extend-ignore=E402"] [] ]
       ; mkrepo "https://github.com/pre-commit/pygrep-hooks" "v1.10.0" [ plain "rst-backticks" ]
       ; mkrepo "https://github.com/MarcoGorelli/cython-lint" "v0.15.0" [ mkhook "cython-lint" ["--no-pycodestyle"] [] ] ] |}.

(** One alternative of the exclude pattern against the start of a path: a
    dot stands for any character but a line feed, any other character for
    itself. *)
Fixpoint alt_matches (alt path : string) : bool :=
  match alt with
  | EmptyString => true
  | String c alt' =>
      match path with
      | EmptyString => false
      | String d path' =>
          ((Ascii.eqb c "." && negb (Ascii.eqb d (ascii_of_nat 10))) || Ascii.eqb c d)
          && alt_matches alt' path'
      end
  end.

(** The pattern is anchored at the start of the path: a path is excluded
    when one of the alternatives matches there. *)
Definition excluded (c : config) (path : string) : bool :=
  existsb (fun alt => alt_matches alt path) (exclude c).

Definition hook_ids (c : config) : list string :=
  flat_map (fun r => map hook_id (hooks r)) (repos c).

(** The file name under which pre-commit looks for its configuration. *)
Definition config_file_name : string := ".pre-commit-config.yaml".

End PreCommit.

(* ===================================================================== *)
(** * A sample run *)
(* ===================================================================== *)

Module Sample.
Import Py.

Definition is_name (n : string) (t : callee) : bool :=
  match t with
  | Func m | Method m | GetAttr m | SetAttr m => String.eqb n m
  | _ => false
  end.

(** A stand-in for the platform's [pow] in test runs: right where the
    exponent is 1, 2 or -1, and for the cube root of 1/8. *)
Definition pow (x y : float) : float :=
  if (y =? 1)%float then x
  else if (y =? 2)%float then (x * x)%float
  else if (y =? -1)%float then (1 / x)%float
  else if ((x =? 8) && (y =? -1 / 3))%float then 0.5%float
  else nan.

(** The answers of the libraries in test runs: the HDF5 file holds three
    datasets; the FITS file is as the notebook describes it, a primary HDU
    without data and three image extensions named after the velocity
    components; every other call returns a fresh object. *)
Definition answers : history -> call -> outcome value :=
  fun h c =>
    let t := target c in
    let fresh := VObj (Z.of_nat (length h)) in
    if is_name "items" t then
      Ok (VList [ VTuple [VStr "Bx"; VObj 1]; VTuple [VStr "Density"; VObj 2]
                ; VTuple [VStr "Temperature"; VObj 3] ])
    else if is_name "name" t then
      match args c with
      | [VObj 9] => Ok (VStr "PRIMARY")
      | [VObj 10] => Ok (VStr "X-VELOCITY")
      | [VObj 11] => Ok (VStr "Y-VELOCITY")
      | _ => Ok (VStr "Z-VELOCITY")
      end
    else if is_name "data" t then
      match args c with
      | [VObj 9] => Ok VNone
      | _ => Ok (VArray [20; 20; 20]%Z)
      end
    else if is_name "extrema" t || is_name "find_max" t then Ok (VTuple [fresh; fresh])
    else if is_name "glob.glob" t then Ok (VList [VStr "chk_0001"; VStr "chk_0000"])
    else
      match t with
      | Iter => Ok (VList [VObj 9; VObj 10; VObj 11; VObj 12])
      | GetItem =>
          match args c with
          | [_; VTuple []] => Ok (VArray [16; 16; 16]%Z)
          | _ => Ok fresh
          end
      | _ => Ok fresh
      end.

Definition library : Py.library := mklibrary answers pow.

End Sample.

(* ===================================================================== *)
(** * Properties of runs and of the data handed to yt *)
(* ===================================================================== *)

Module Checks.
Import Py Builtins.

(** ** Judgements on notebook code *)

(** [always ok post m]: whatever the libraries answer and whatever happened
    before, every call [m] makes passes [ok], and a result of [m] satisfies
    [post]. *)
Definition always (ok : call -> bool) {A} (post : A -> Prop) (m : M A) : Prop :=
  forall lib h,
    Forall (fun ev => ok (fst ev) = true) (snd (m lib h))
    /\ (forall a, fst (m lib h) = Ok a -> post a).

(** [emits p m]: a run of [m] that returns has made a call satisfying [p]. *)
Definition emits (p : call -> bool) {A} (m : M A) : Prop :=
  forall lib h a es, m lib h = (Ok a, es) -> existsb (fun ev => p (fst ev)) es = true.


(** A check is quiet when it only speaks about calls of named functions. *)
Definition quiet (ok : call -> bool) : Prop :=
  forall c, (forall n, target c <> Func n) -> ok c = true.

(** [m] does not touch the libraries and returns [v]. *)
Definition pure {A} (m : M A) (v : A) : Prop := forall lib h, m lib h = (Ok v, []).

(** [m] asks nothing of the libraries, whether it returns or raises. *)
Definition silent {A} (m : M A) : Prop := forall lib h, snd (m lib h) = [].

(** ** Calls *)

Definition is_func (name : string) (c : call) : bool :=
  match target c with
  | Func n => String.eqb n name
  | _ => false
  end.

(** A call of the entry point [name]: the function [name] of yt or imported
    from it, or the method [name] of a yt object. *)
Definition entry (name : string) (c : call) : bool :=
  match target c with
  | Func n => String.eqb n name || String.eqb n ("yt." ++ name)
  | Method n => String.eqb n name
  | _ => false
  end.

Definition invoked {A} (name : string) (m : M A) (lib : library) : Prop :=
  existsb (fun ev => entry name (fst ev)) (events m lib) = true.

(** ** Fields *)

(** [(data, "unit")] *)
Definition unit_pair (v : value) : bool :=
  match v with
  | VTuple [_; VStr _] => true
  | _ => false
  end.

(** [(array, "unit")] *)
Definition array_unit_pair (v : value) : bool :=
  match v with
  | VTuple [VArray _; VStr _] => true
  | _ => false
  end.

Definition is_array (v : value) : bool :=
  match v with
  | VArray _ => true
  | _ => false
  end.

Definition all_values (p : value -> bool) (d : dict) : bool :=
  forallb (fun kv => p (snd kv)) d.

Definition grid_keys : list string := ["left_edge"; "right_edge"; "level"; "dimensions"].

Definition is_grid_key (k : key) : bool :=
  match k with
  | K s => existsb (String.eqb s) grid_keys
  | KT _ _ => false
  end.

(** The field entries of a grid dictionary: all but the four grid keys. *)
Definition grid_fields (p : value -> bool) (d : dict) : bool :=
  forallb (fun kv => is_grid_key (fst kv) || p (snd kv)) d.

Definition all_grids (p : dict -> bool) (gs : list value) : bool :=
  forallb (fun g => match g with VDict d => p d | _ => false end) gs.

(** The first argument of a load call, with [p] required of every field. *)
Definition load_uniform_grid_fields (p : value -> bool) (c : call) : bool :=
  match args c with
  | VDict d :: _ => all_values p d
  | _ => false
  end.

Definition load_amr_grids_fields (p : value -> bool) (c : call) : bool :=
  match args c with
  | VList gs :: _ => all_grids (grid_fields p) gs
  | _ => false
  end.

Definition load_particles_fields (p : value -> bool) (c : call) : bool :=
  match args c with
  | VDict d :: _ => all_values p d
  | _ => false
  end.

(** How the notebooks hand fields to the three load functions: pairs with a
    unit string for the grid loaders, bare arrays for [load_particles]. *)
Definition field_representation (c : call) : bool :=
  if is_func "yt.load_uniform_grid" c then load_uniform_grid_fields unit_pair c
  else if is_func "yt.load_amr_grids" c then load_amr_grids_fields unit_pair c
  else if is_func "yt.load_particles" c then load_particles_fields is_array c
  else true.

(** The reading under which every field of every load call is a pair of an
    array and a unit string. *)
Definition every_field_is_a_pair (c : call) : bool :=
  if is_func "yt.load_uniform_grid" c then load_uniform_grid_fields array_unit_pair c
  else if is_func "yt.load_amr_grids" c then load_amr_grids_fields array_unit_pair c
  else if is_func "yt.load_particles" c then load_particles_fields array_unit_pair c
  else true.

(** ** Grid dictionaries *)

(** The rational a finite float is. *)
Definition Q_of_float (x : float) : option Q :=
  match Prim2SF x with
  | S754_zero _ => Some 0
  | S754_finite s m e =>
      let n := if s then Z.neg m else Z.pos m in
      Some (if (0 <=? e)%Z then inject_Z (n * 2 ^ e) else n # Z.to_pos (2 ^ (- e)))
  | S754_infinity _ | S754_nan => None
  end.

Fixpoint floats_of (l : list value) : option (list Q) :=
  match l with
  | [] => Some []
  | VFloat x :: l' =>
      match Q_of_float x with
      | Some q => option_map (cons q) (floats_of l')
      | None => None
      end
  | _ :: _ => None
  end.

(** A 3-vector of coordinates under key [k]. *)
Definition edge (g : dict) (k : string) : option (list Q) :=
  match dict_get g (K k) with
  | Some (VList l) => if (length l =? 3)%nat then floats_of l else None
  | _ => None
  end.

Definition level (g : dict) : option Z :=
  match dict_get g (K "level") with
  | Some (VInt n) => Some n
  | _ => None
  end.

(** A 3-vector of cell counts. *)
Definition dimensions (g : dict) : option (list Z) :=
  match dict_get g (K "dimensions") with
  | Some (VList l) => if (length l =? 3)%nat then ints_of l else None
  | _ => None
  end.

Definition grid_shape (g : dict) : bool :=
  match edge g "left_edge", edge g "right_edge", level g, dimensions g with
  | Some _, Some _, Some n, Some ds => (0 <=? n)%Z && forallb (fun d => (0 <=? d)%Z) ds
  | _, _, _, _ => false
  end.

Fixpoint zip3 (f : Q -> Q -> Z -> Q) (ls rs : list Q) (ds : list Z) : list Q :=
  match ls, rs, ds with
  | l :: ls', r :: rs', d :: ds' => f l r d :: zip3 f ls' rs' ds'
  | _, _, _ => []
  end.

(** The width of a cell along each axis: extent over cell count. *)
Definition cell_widths (g : dict) : option (list Q) :=
  match edge g "left_edge", edge g "right_edge", dimensions g with
  | Some ls, Some rs, Some ds => Some (zip3 (fun l r d => (r - l) / inject_Z d) ls rs ds)
  | _, _, _ => None
  end.

(** The region of [inner] lies in the region of [outer]. *)
Definition contained (inner outer : dict) : Prop :=
  match edge inner "left_edge", edge inner "right_edge",
        edge outer "left_edge", edge outer "right_edge" with
  | Some il, Some ir, Some ol, Some or =>
      Forall2 Qle ol il /\ Forall2 Qle ir or
  | _, _, _, _ => False
  end.

(** The grid dictionaries handed to [load_amr_grids] have the grid shape. *)
Definition amr_grids_shaped (c : call) : bool :=
  if is_func "yt.load_amr_grids" c then
    match args c with
    | VList gs :: _ => all_grids grid_shape gs
    | _ => false
    end
  else true.

(** What is checked of the calls of the array notebook. *)
Definition array_check (c : call) : bool := field_representation c && amr_grids_shaped c.

(** ** Particle positions *)

Definition position_key (t : option string) (axis : string) : key :=
  match t with
  | None => K ("particle_position_" ++ axis)
  | Some ft => KT ft ("particle_position_" ++ axis)
  end.

(** The array of a field entry: the first component of a pair, or the bare
    array. *)
Definition field_array (v : value) : value :=
  match v with
  | VTuple [a; _] => a
  | _ => v
  end.

Definition position_len (d : dict) (t : option string) (axis : string) : option Z :=
  match dict_get d (position_key t axis) with
  | Some v => array_len (field_array v)
  | None => None
  end.

(** The three position arrays of type [t] are there and of one length. *)
Definition equal_lengths (d : dict) (t : option string) : bool :=
  match position_len d t "x", position_len d t "y", position_len d t "z" with
  | Some nx, Some ny, Some nz => ((nx =? ny) && (ny =? nz))%Z
  | _, _, _ => false
  end.

Definition is_position (name : string) : bool := String.prefix "particle_position_" name.

(** The particle type of each position entry of [d] ([None]: the default
    type), in the order of the entries. *)
Definition position_types (d : dict) : list (option string) :=
  flat_map (fun kv =>
              match fst kv with
              | K n => if is_position n then [None] else []
              | KT t n => if is_position n then [Some t] else []
              end) d.

(** ** Functions that only forward *)


(** A data object with scalar fields: the field parameter, the fields of
    the FITS file and the counts are Python floats; NumPy's square root
    answers [root]; the platform's [pow] is [pow]. *)
Definition scalar_fields (flux pixel exposure_time counts temperature root : float)
  (pow : float -> float -> float) : library :=
  mklibrary
    (fun _ c =>
       match target c, args c with
       | Method name, _ =>
           if String.eqb name "get_field_parameter" then Ok (VFloat exposure_time)
           else Ok VNone
       | GetItem, [_; VTuple [VStr t; VStr n]] =>
           if String.eqb n "flux" then Ok (VFloat flux)
           else if String.eqb n "pixel" then Ok (VFloat pixel)
           else if String.eqb n "counts" then Ok (VFloat counts)
           else if String.eqb n "projected_temperature" then Ok (VFloat temperature)
           else Raise (LibraryError "no such field")
       | Func name, _ =>
           if String.eqb name "np.sqrt" then Ok (VFloat root) else Ok VNone
       | _, _ => Ok VNone
       end)
    pow.

(** The float Python computes for [-1.0 / 3.0]. *)
Definition exponent : float := (-1 / 3)%float.

Definition positive_finite (x : float) : bool := ((0 <? x) && (x <? infinity))%float.

Definition negative_finite (x : float) : bool := ((x <? 0) && (neg_infinity <? x))%float.

(** The library answers the two look-ups of [_pe] on [data] with Python
    floats, at every moment. *)
Definition float_fields (lib : library) (data : value) (temperature counts : float) : Prop :=
  forall h,
    lib h (mkcall GetItem [data; FitsXray.fits "projected_temperature"] [])
    = Ok (VFloat temperature)
    /\ lib h (mkcall GetItem [data; FitsXray.gas "counts"] []) = Ok (VFloat counts).

(** What [_pe] has asked when it comes to the power. *)
Definition looked_up (data : value) (temperature counts : float) : history :=
  [ (mkcall GetItem [data; FitsXray.fits "projected_temperature"] [], Ok (VFloat temperature))
  ; (mkcall GetItem [data; FitsXray.gas "counts"] [], Ok (VFloat counts)) ].





End Checks.

(* ===================================================================== *)
(** * The dictionaries the notebooks build *)
(* ===================================================================== *)

Module Built.
Import Py.

(** The result of a computation that needs no library. *)
Definition result_of {A} (m : M A) (default : A) : A :=
  match fst (m (mklibrary (fun _ _ => Raise (LibraryError "no library")) (fun _ _ => nan)) [])
  with
  | Ok a => a
  | Raise _ => default
  end.

(** [data] of the uniform grid with particles. *)
Definition data_particles : dict :=
  Eval vm_compute in result_of GenericArray.data_particles [].

(** [grid_data] when [load_amr_grids] is called. *)
Definition amr_grids : list dict :=
  Eval vm_compute in result_of GenericArray.amr_grids [].

(** [(arr, data)] of the species example. *)
Definition data_species : value * dict :=
  Eval vm_compute in result_of GenericArray.data_species (VNone, []).

(** [data] of the example with red and blue particles. *)
Definition data_multi_types : dict :=
  Eval vm_compute in result_of GenericArray.data_multi_types [].

(** [(ppx, ppy, ppz, ppm)] of the particle notebook. *)
Definition particle_arrays : value * value * value * value :=
  Eval vm_compute in result_of GenericParticle.cell_arrays (VNone, VNone, VNone, VNone).

(** [data] of the particle notebook. *)
Definition particle_data : dict :=
  Eval vm_compute in
    match particle_arrays with
    | (ppx, ppy, ppz, ppm) => GenericParticle.data ppx ppy ppz ppm
    end.

(** [data2] of the particle notebook. *)
Definition data2 : dict :=
  Eval vm_compute in result_of GenericParticle.data2 [].

End Built.

(* ===================================================================== *)
(** * Further notions: paths of the manifest, dictionaries, runs *)
(* ===================================================================== *)

Module Further.
Import Py Builtins.
Local Open Scope py_scope.

(** ** The manifest's own paths *)

(** A pattern without wild cards. *)
Definition literal (p : string) : bool :=
  forallb (fun c => negb (Ascii.eqb c "*" || Ascii.eqb c "?")) (list_ascii_of_string p).

(** The paths named literally by include directives, the paths named by
    exclude directives, the directories named by prune directives. *)
Definition included_literals (ds : list Manifest.directive) : list string :=
  flat_map (fun d => match d with
                     | Manifest.Include ps => filter literal ps
                     | _ => []
                     end) ds.

Definition excluded_paths (ds : list Manifest.directive) : list string :=
  flat_map (fun d => match d with
                     | Manifest.Exclude ps => ps
                     | _ => []
                     end) ds.

Definition pruned_dirs (ds : list Manifest.directive) : list string :=
  flat_map (fun d => match d with
                     | Manifest.Prune dir => [dir]
                     | _ => []
                     end) ds.

(** No adding directive of [ds] speaks about [f]. *)
Definition not_added (ds : list Manifest.directive) (f : string) : bool :=
  forallb (fun d => negb (Manifest.adds d && Manifest.hits d f)) ds.

(** ** Dictionaries *)

(** One entry per key. *)
Definition unique_keys (d : dict) : Prop := NoDup (map fst d).

(** [(data, "km/s")] *)
Definition km_pair (v : value) : bool :=
  match v with
  | VTuple [_; VStr u] => String.eqb u "km/s"
  | _ => false
  end.

(** ** A FITS file that answers the same at every moment *)

(** The library answers the name and the data of each HDU of [hdus]
    whatever happened before. *)
Definition stable_file (lib : library) (hdus : list value)
  (name : value -> string) (data : value -> value) : Prop :=
  forall h hdu, In hdu hdus ->
    lib h (mkcall (GetAttr "name") [hdu] []) = Ok (VStr (name hdu))
    /\ lib h (mkcall (GetAttr "data") [hdu] []) = Ok (data hdu).

(** What the loop over the HDUs builds from [d]. *)
Definition fits_dict (name : value -> string) (data : value -> value)
  (hdus : list value) (d : dict) : dict :=
  fold_left (fun d hdu => dict_set d (K (lower (name hdu))) (VTuple [data hdu; VStr "km/s"]))
            hdus d.

(** ** Runs *)



(** [m] returns [v], or raises [e], whatever the libraries answer. *)
Definition returns {A} (m : M A) (v : A) : Prop := forall lib h, fst (m lib h) = Ok v.

Definition raises {A} (m : M A) (e : exn) : Prop := forall lib h, fst (m lib h) = Raise e.


(** [my_fns.sort()] on the file names [ss], then the cell that loads
    [my_fns[0]]. *)
Definition load_first (ss : list string) : M value :=
  my_fns <- list_sort (VList (map VStr ss)) ;;
  Trajectories.cell_indices my_fns.


(** ** The units of the HDF5 cell *)

(** [(data, u)] with [u] one of the units the cell lists. *)
Definition listed_unit (v : value) : bool :=
  match v with
  | VTuple [_; u] => existsb (fun u' => match u, u' with
                                        | VStr a, VStr b => String.eqb a b
                                        | _, _ => false
                                        end) GenericArray.units
  | _ => false
  end.

(** What the comprehension has built after some rounds. *)
Definition gathered (n : nat) (d : dict) : Prop :=
  (length d <= n)%nat /\ unique_keys d /\ Checks.all_values listed_unit d = true.

(** A dataset of an HDF5 file: its name, the object that stands for it and
    what reading it whole gives. *)
Record dataset : Type := mkdataset
  { dataset_name : string
  ; dataset_id : Z
  ; dataset_array : value }.

(** The item [(k, v)] of the file for a dataset. *)
Definition item_of (e : dataset) : value :=
  VTuple [VStr (dataset_name e); VObj (dataset_id e)].

(** The library answers steadily for the file [f]: its items are those of
    [entries], in this order, and each dataset reads as its array. *)
Definition steady_hdf5 (lib : library) (f : value) (entries : list dataset) : Prop :=
  exists its,
    (forall h, lib h (mkcall (Method "items") [f] []) = Ok (VObj its))
    /\ (forall h, lib h (mkcall Iter [VObj its] []) = Ok (VList (map item_of entries)))
    /\ (forall h e, In e entries ->
          lib h (mkcall GetItem [VObj (dataset_id e); VTuple []] []) = Ok (dataset_array e)).

(** One round of the comprehension, and all of them: the datasets paired
    with the units, as far as both reach. *)
Definition zip_round (d : dict) (eu : dataset * value) : dict :=
  dict_set d (K (dataset_name (fst eu))) (VTuple [dataset_array (fst eu); snd eu]).

Definition zipped (entries : list dataset) : dict :=
  fold_left zip_round (combine entries GenericArray.units) [].

(** A file of three datasets, for a test run. *)
Definition three_datasets : list dataset :=
  [ mkdataset "Bx" 1 (VArray [16; 16; 16]%Z)
  ; mkdataset "Density" 2 (VArray [16; 16; 16]%Z)
  ; mkdataset "Temperature" 3 (VArray [16; 16; 16]%Z) ].

Definition three_datasets_file : library :=
  mklibrary
    (fun _ c =>
       match target c, args c with
       | Method _, _ => Ok (VObj 0)
       | Iter, _ => Ok (VList (map item_of three_datasets))
       | GetItem, _ => Ok (VArray [16; 16; 16]%Z)
       | _, _ => Ok VNone
       end)
    Sample.pow.

(** ** The grid dictionaries *)

(** [m] raises [e] before any library call. *)
Definition fails {A} (m : M A) (e : exn) : Prop := forall lib h, m lib h = (Raise e, []).





Definition position_keys : list key :=
  [K "particle_position_x"; K "particle_position_y"; K "particle_position_z"].

(** The grid [g] with three position arrays of length [n]. *)
Definition with_positions (g : dict) (n : Z) : dict :=
  fold_left (fun d k => dict_set d k (VTuple [VArray [n]; VStr "code_length"])) position_keys g.

(** ** Grid dictionaries as objects

    A list in Python holds references: the same dictionary may stand at two
    places of [grid_data], and an assignment through one reaches the other.
    Here the dictionaries live in a heap and the list holds addresses. *)

Definition heap : Type := list dict.

(** [gd[i][k] = v], with [gd] a list of addresses. *)
Definition grid_setitem_at (hp : heap) (gd : list nat) (i : Z) (k : string) (v : value)
  : M heap :=
  match seq_index gd i with
  | Some r =>
      match nth_error hp r with
      | Some g => g' <- setitem g (VStr k) v ;; ret (GenericArray.replace_nth hp r g')
      | None => raise (Unsupported "an address outside the heap")
      end
  | None => raise IndexError
  end.

(** grid_data[0]["particle_position_x"] = (np.array([]), "code_length")   (also y, z)
    grid_data[1]["particle_position_x"] =
        (prng.uniform(low=0.25, high=0.75, size=1000), "code_length")     (also y, z)
    The right-hand side is evaluated before the subscript. *)
Definition cell_grid_particles_at (hp : heap) (gd : list nat) : M heap :=
  let empty := VTuple [np_array (VList []); VStr "code_length"] in
  hp <- grid_setitem_at hp gd 0 "particle_position_x" empty ;;
  hp <- grid_setitem_at hp gd 0 "particle_position_y" empty ;;
  hp <- grid_setitem_at hp gd 0 "particle_position_z" empty ;;
  px <- prng_uniform 0.25 0.75 (VInt 1000) ;;
  hp <- grid_setitem_at hp gd 1 "particle_position_x" (VTuple [px; VStr "code_length"]) ;;
  py <- prng_uniform 0.25 0.75 (VInt 1000) ;;
  hp <- grid_setitem_at hp gd 1 "particle_position_y" (VTuple [py; VStr "code_length"]) ;;
  pz <- prng_uniform 0.25 0.75 (VInt 1000) ;;
  grid_setitem_at hp gd 1 "particle_position_z" (VTuple [pz; VStr "code_length"]).

(** The dictionary at an address, and the dictionaries a list of addresses
    stands for. *)
Definition at_address (hp : heap) (r : nat) : dict :=
  match nth_error hp r with
  | Some g => g
  | None => []
  end.

Definition deref (hp : heap) (gd : list nat) : list dict := map (at_address hp) gd.

(** The heap with [f] applied to the dictionary at [r]. *)
Definition update (hp : heap) (r : nat) (f : dict -> dict) : heap :=
  match nth_error hp r with
  | Some g => GenericArray.replace_nth hp r (f g)
  | None => hp
  end.

(** The heap after the particle cell: the dictionary at the first address
    gets empty position arrays, then the one at the second address gets
    arrays of length 1000. *)
Definition particles_filled (hp : heap) (r0 r1 : nat) : heap :=
  update (update hp r0 (fun g => with_positions g 0)) r1 (fun g => with_positions g 1000).

(** ** File names in order *)

Definition before (a b : string) : Prop := String.leb a b = true.

(** [m] is a least name of [l]. *)
Definition least (m : string) (l : list string) : Prop :=
  In m l /\ forall x, In x l -> before m x.

(** ** Verdicts of the manifest on one path *)

(** The path ships whenever it is in the tree, whatever was there before. *)
Definition ships_if_present (f : string) : bool :=
  Manifest.verdict Manifest.manifest f true true
  && Manifest.verdict Manifest.manifest f true false.

(** The path ships in no case. *)
Definition never_ships (f : string) : bool :=
  negb (Manifest.verdict Manifest.manifest f true true
        || Manifest.verdict Manifest.manifest f true false
        || Manifest.verdict Manifest.manifest f false true
        || Manifest.verdict Manifest.manifest f false false).

(** ** More on runs *)

(** The check that accepts every call. *)
Definition any_call (c : call) : bool := true.

(** A dictionary of the FITS cells: unique keys, every value a km/s pair. *)
Definition tidy (d : dict) : Prop := unique_keys d /\ Checks.all_values km_pair d = true.

(** The four HDUs of the sample file, with their names and data. *)
Definition sample_hdus : list value := [VObj 9; VObj 10; VObj 11; VObj 12].

Definition sample_name (hdu : value) : string :=
  match hdu with
  | VObj 9 => "PRIMARY"
  | VObj 10 => "X-VELOCITY"
  | VObj 11 => "Y-VELOCITY"
  | _ => "Z-VELOCITY"
  end.

Definition sample_data (hdu : value) : value :=
  match hdu with
  | VObj 9 => VNone
  | _ => VArray [20; 20; 20]%Z
  end.

End Further.

(* ===================================================================== *)
(** * Facts about the manifest *)
(* ===================================================================== *)

Module ManifestFacts.
Import Manifest.

Lemma inb_In (f : string) (l : list string) : In f l <-> inb f l = true.
Proof.
  unfold inb. rewrite existsb_exists. split.
  - intros H. exists f. split; [exact H | apply String.eqb_refl].
  - intros [g [Hg Heq]]. apply String.eqb_eq in Heq. now subst g.
Qed.

(** Membership after one directive. *)
Lemma apply_directive_In (tree files : list string) (d : directive) (f : string) :
  In f (apply_directive tree files d) <->
  (if adds d then In f files \/ (In f tree /\ hits d f = true)
   else In f files /\ hits d f = false).
Proof.
  unfold apply_directive. destruct (adds d).
  - rewrite in_app_iff, filter_In. reflexivity.
  - rewrite filter_In, negb_true_iff. reflexivity.
Qed.

Lemma verdict_step_sound (tree files : list string) (d : directive) (f : string)
  (it cur : bool) :
  (In f tree <-> it = true) ->
  (In f files <-> cur = true) ->
  (In f (apply_directive tree files d) <-> verdict_step f it cur d = true).
Proof.
  intros Ht Hc. rewrite apply_directive_In. unfold verdict_step.
  destruct (hits d f), (adds d); rewrite ?orb_true_iff; intuition congruence.
Qed.

(** The list of shipped files and the verdict on one path agree. *)
Lemma ship_verdict (ds : list directive) :
  forall (tree files : list string) (f : string) (it cur : bool),
    (In f tree <-> it = true) ->
    (In f files <-> cur = true) ->
    (In f (ship tree ds files) <-> verdict ds f it cur = true).
Proof.
  induction ds as [| d ds IH]; intros tree files f it cur Ht Hc.
  - exact Hc.
  - unfold ship, verdict. cbn [fold_left].
    apply (IH tree (apply_directive tree files d) f it (verdict_step f it cur d) Ht).
    now apply verdict_step_sound.
Qed.

Lemma line_ok_spec (l : string) :
  line_ok l = true ->
  is_blank l = true
  \/ exists d, parse_template_line l = Some (inl d) /\ four_forms d = true.
Proof.
  unfold line_ok. rewrite orb_true_iff. intros [H | H]; [now left | right].
  destruct (parse_template_line l) as [[d | e] |]; try discriminate.
  now exists d.
Qed.

End ManifestFacts.

(* ===================================================================== *)
(** * Rules for the judgements *)
(* ===================================================================== *)

Module Rules.
Import Py Builtins Checks.
Local Open Scope py_scope.

Section Silent.

Lemma silent_ret {A} (a : A) : silent (ret a).
Proof. intros lib h. reflexivity. Qed.

Lemma silent_raise {A} (e : exn) : silent (@raise A e).
Proof. intros lib h. reflexivity. Qed.

Lemma silent_platform (x y : float) : silent (pow_of_platform x y).
Proof. intros lib h. reflexivity. Qed.

Lemma silent_bind {A B} (m : M A) (k : A -> M B) :
  silent m -> (forall a, silent (k a)) -> silent (bind m k).
Proof.
  intros Hm Hk lib h. unfold bind. specialize (Hm lib h).
  destruct (m lib h) as [[a | e] es]; cbn in *; [| exact Hm]. subst es.
  specialize (Hk a lib (h ++ [])). now destruct (k a lib (h ++ [])).
Qed.

Ltac silence :=
  repeat first
    [ apply silent_ret | apply silent_raise | apply silent_platform
    | apply silent_bind; [| intros ?]
    | match goal with
      | |- silent (if ?c then _ else _) => destruct c
      | |- silent (match ?x with _ => _ end) => destruct x
      end ].

Lemma silent_float_pow (x y : float) : silent (float_pow x y).
Proof. unfold float_pow. silence. Qed.

Lemma silent_number_binop (op : operator) (a b : number) : silent (number_binop op a b).
Proof.
  unfold number_binop, int_binop, float_binop, to_float.
  destruct a, b, op; silence; apply silent_float_pow.
Qed.

Lemma silent_array_binop (op : operator) (sh : list Z) (n : number) :
  silent (array_binop op sh n).
Proof. unfold array_binop. silence. Qed.

Lemma silent_arrays_binop (op : operator) (a b : list Z) : silent (arrays_binop op a b).
Proof. unfold arrays_binop. silence. Qed.

Lemma silent_array_with (op : operator) (v : value) : silent (array_with op v).
Proof. unfold array_with. silence. Qed.

Lemma silent_repetition (v : value) (n : Z) : silent (repetition v n).
Proof. unfold repetition. silence. Qed.

Lemma silent_python_binop (op : operator) (a b : value) : silent (python_binop op a b).
Proof.
  unfold python_binop.
  destruct op, a, b; silence; apply silent_repetition.
Qed.

(** An operator is a call of a library, or it asks nothing. *)
Lemma binop_cases (op : operator) (a b : value) :
  binop op a b = delegate op a b \/ silent (binop op a b).
Proof.
  unfold binop. destruct (is_library_object a || is_library_object b); [now left | right].
  destruct a, b;
    first [ apply silent_arrays_binop
          | cbn [as_number];
            first [ apply silent_number_binop | apply silent_python_binop
                  | apply silent_array_binop | apply silent_array_with ] ].
Qed.

Lemma silent_with_shape (size : value) : silent (with_shape size).
Proof. unfold with_shape. silence. Qed.

End Silent.

Section Always.

Variable ok : call -> bool.

Lemma always_ret {A} (post : A -> Prop) (a : A) : post a -> always ok post (ret a).
Proof.
  intros H lib h. split; [constructor |]. cbn. intros b [= <-]. exact H.
Qed.

Lemma always_raise {A} (post : A -> Prop) (e : exn) : always ok post (raise e).
Proof.
  intros lib h. split; [constructor |]. cbn. discriminate.
Qed.

Lemma always_bind {A B} (P : A -> Prop) (Q : B -> Prop) (m : M A) (k : A -> M B) :
  always ok P m ->
  (forall a, P a -> always ok Q (k a)) ->
  always ok Q (bind m k).
Proof.
  intros Hm Hk lib h. unfold bind.
  destruct (Hm lib h) as [Hes Hpost].
  destruct (m lib h) as [[a | e] es]; cbn in *.
  - destruct (Hk a (Hpost a eq_refl) lib (h ++ es)) as [Hes' Hpost'].
    destruct (k a lib (h ++ es)) as [r es']. cbn in *. split.
    + apply Forall_app. now split.
    + exact Hpost'.
  - split; [exact Hes | discriminate].
Qed.

Lemma always_weaken {A} (P Q : A -> Prop) (m : M A) :
  (forall a, P a -> Q a) -> always ok P m -> always ok Q m.
Proof.
  intros HPQ Hm lib h. destruct (Hm lib h) as [Hes Hpost]. split; auto.
Qed.

Lemma always_ask (c : call) : ok c = true -> always ok (fun _ => True) (ask c).
Proof.
  intros H lib h. split; [| trivial]. cbn. constructor; [exact H | constructor].
Qed.

Lemma always_pure {A} (m : M A) (v : A) : pure m v -> always ok (eq v) m.
Proof.
  intros H lib h. rewrite (H lib h). split; [constructor |]. cbn. now intros a [= <-].
Qed.

Lemma always_func (n : string) (a : list value) (kw : list (string * value)) :
  ok (mkcall (Func n) a kw) = true -> always ok (fun _ => True) (func n a kw).
Proof. apply always_ask. Qed.

Hypothesis Hquiet : quiet ok.

Lemma quiet_ask (c : call) :
  (forall n, target c <> Func n) -> always ok (fun _ => True) (ask c).
Proof. intros H. apply always_ask, Hquiet, H. Qed.

Lemma always_method (self : value) (n : string) (a : list value)
  (kw : list (string * value)) : always ok (fun _ => True) (method self n a kw).
Proof. apply quiet_ask. cbn. discriminate. Qed.

Lemma always_setattr (obj : value) (n : string) (v : value) :
  always ok (fun _ => True) (setattr obj n v).
Proof. apply quiet_ask. cbn. discriminate. Qed.

Lemma always_getattr (obj : value) (n : string) :
  always ok (fun _ => True) (getattr obj n).
Proof.
  unfold getattr.
  destruct obj; try (apply quiet_ask; cbn; discriminate).
  destruct (String.eqb n "shape"); [now apply always_ret | apply quiet_ask; cbn; discriminate].
Qed.

Lemma always_subscript (v idx : value) : always ok (fun _ => True) (subscript v idx).
Proof.
  unfold subscript.
  destruct v; try apply always_raise; try (apply quiet_ask; cbn; discriminate).
  - destruct idx; try apply always_raise.
    destruct (seq_index (chars s) n); [now apply always_ret | apply always_raise].
  - destruct idx; try apply always_raise.
    destruct (seq_index items n); [now apply always_ret | apply always_raise].
  - destruct idx; try apply always_raise.
    destruct (seq_index items n); [now apply always_ret | apply always_raise].
  - destruct (to_key idx); [| apply always_raise].
    destruct (dict_get entries k); [now apply always_ret | apply always_raise].
Qed.

Lemma always_iterate (v : value) : always ok (fun _ => True) (iterate v).
Proof.
  unfold iterate.
  destruct v; try apply always_raise; try now apply always_ret.
  - destruct shape; [apply always_raise | now apply always_ret].
  - eapply always_bind; [apply quiet_ask; cbn; discriminate |].
    intros r _. destruct r; try apply always_raise. now apply always_ret.
  - eapply always_bind; [apply quiet_ask; cbn; discriminate |].
    intros r _. destruct r; try apply always_raise. now apply always_ret.
Qed.

Lemma always_unpack2 (v : value) : always ok (fun _ => True) (unpack2 v).
Proof.
  unfold unpack2. eapply always_bind; [apply always_iterate |].
  intros l _. destruct l as [| a [| b [| c l]]]; try apply always_raise.
  now apply always_ret.
Qed.

Lemma always_unpack3 (v : value) : always ok (fun _ => True) (unpack3 v).
Proof.
  unfold unpack3. eapply always_bind; [apply always_iterate |].
  intros l _. destruct l as [| a [| b [| c [| d l]]]]; try apply always_raise.
  now apply always_ret.
Qed.

Lemma always_delegate (op : operator) (a b : value) :
  always ok (fun _ => True) (delegate op a b).
Proof. apply quiet_ask. cbn. discriminate. Qed.

Lemma always_silent {A} (m : M A) : silent m -> always ok (fun _ => True) m.
Proof. intros H lib h. rewrite (H lib h). split; [constructor | trivial]. Qed.

Lemma always_binop (op : operator) (a b : value) :
  always ok (fun _ => True) (binop op a b).
Proof.
  destruct (binop_cases op a b) as [-> | H];
    [apply always_delegate | now apply always_silent].
Qed.

Lemma always_str_lower (v : value) : always ok (fun _ => True) (str_lower v).
Proof.
  unfold str_lower. destruct v; try apply always_method. now apply always_ret.
Qed.

Lemma always_list_sort (v : value) : always ok (fun _ => True) (list_sort v).
Proof.
  unfold list_sort.
  destruct v;
    try (eapply always_bind; [apply always_method | intros; now apply always_ret]).
  destruct (strings_of items); [now apply always_ret | apply always_raise].
Qed.

Lemma always_with_shape (size : value) : always ok (fun _ => True) (with_shape size).
Proof. apply always_silent, silent_with_shape. Qed.

(** A loop keeps what its body keeps. *)
Lemma always_for_each {S} (inv : S -> Prop) (body : value -> S -> M S) :
  (forall x s, inv s -> always ok inv (body x s)) ->
  forall xs s, inv s -> always ok inv (for_each xs body s).
Proof.
  intros Hbody xs. induction xs as [| x xs IH]; intros s Hs; cbn [for_each].
  - now apply always_ret.
  - eapply always_bind; [now apply Hbody | exact IH].
Qed.

End Always.

Section Emits.

Variable p : call -> bool.

Lemma emits_ask (c : call) : p c = true -> emits p (ask c).
Proof.
  intros H lib h a es. unfold ask. intros [= _ <-]. cbn. now rewrite H.
Qed.

(** The call is made by the first part of a sequence. *)
Lemma emits_bind_l {A B} (m : M A) (k : A -> M B) : emits p m -> emits p (bind m k).
Proof.
  intros Hm lib h b es. unfold bind.
  destruct (m lib h) as [[a | e] es1] eqn:E1; [| discriminate].
  destruct (k a lib (h ++ es1)) as [r es2]. intros H. injection H as _ <-.
  rewrite existsb_app. apply orb_true_iff. left. exact (Hm lib h a es1 E1).
Qed.

(** The call is made by what follows. *)
Lemma emits_bind_r {A B} (m : M A) (k : A -> M B) :
  (forall a, emits p (k a)) -> emits p (bind m k).
Proof.
  intros Hk lib h b es. unfold bind.
  destruct (m lib h) as [[a | e] es1] eqn:E1; [| discriminate].
  destruct (k a lib (h ++ es1)) as [r es2] eqn:E2. intros H. injection H as -> <-.
  rewrite existsb_app. apply orb_true_iff. right. exact (Hk a lib (h ++ es1) b es2 E2).
Qed.

Lemma emits_invoked {A} (m : M A) (lib : library) :
  emits p m -> completes m lib -> existsb (fun ev => p (fst ev)) (events m lib) = true.
Proof.
  intros Hm [a Ha]. unfold events.
  destruct (m lib []) as [r es] eqn:E. cbn in *. subst r.
  exact (Hm lib [] a es E).
Qed.

End Emits.

Section Runs.

(** A sequence that returns: its first part returned, then the rest did. *)
Lemma bind_returns {A B} (m : M A) (k : A -> M B) (lib : library) (h : history)
  (b : B) (es : history) :
  bind m k lib h = (Ok b, es) ->
  exists a es1 es2,
    m lib h = (Ok a, es1) /\ k a lib (h ++ es1) = (Ok b, es2) /\ es = es1 ++ es2.
Proof.
  unfold bind. destruct (m lib h) as [[a | e] es1]; [| discriminate].
  destruct (k a lib (h ++ es1)) as [r es2] eqn:E. intros H. injection H as -> <-.
  now exists a, es1, es2.
Qed.

Lemma ask_returns (c : call) (lib : library) (h : history) (a : value) (es : history) :
  ask c lib h = (Ok a, es) -> es = [(c, Ok a)].
Proof. unfold ask. intros H. injection H as <- <-. reflexivity. Qed.

End Runs.

Section Bounded.









End Bounded.

End Rules.

(* ===================================================================== *)
(** * The packaging manifest and the pre-commit configuration *)
(* ===================================================================== *)

Import Manifest ManifestFacts.

(** C7.  Whatever the file tree and the files listed beforehand, if the tree
    holds doc/cheatsheet.tex and doc/cheatsheet.pdf then the manifest, read in
    file order, ships doc/cheatsheet.tex and does not ship doc/cheatsheet.pdf;
    the PDF is listed after the first fifteen directives (the last of them is
    the recursive-include of doc with the pattern for PDF files) and it is the
    later exclude directive that removes it. *)
Theorem cheatsheet_shipping (tree init : list string) :
  In "doc/cheatsheet.tex" tree ->
  In "doc/cheatsheet.pdf" tree ->
  In "doc/cheatsheet.tex" (ship tree manifest init)
  /\ ~ In "doc/cheatsheet.pdf" (ship tree manifest init)
  /\ In "doc/cheatsheet.pdf" (ship tree (firstn 15 manifest) init).
Proof.
  intros Htex Hpdf.
  assert (Ht : forall f, In f tree -> (In f tree <-> true = true)) by (intros; tauto).
  split; [| split].
  - refine (proj2 (ship_verdict manifest tree init "doc/cheatsheet.tex" true
                     (inb "doc/cheatsheet.tex" init) (Ht _ Htex) (inb_In _ _)) _).
    destruct (inb "doc/cheatsheet.tex" init); vm_compute; reflexivity.
  - intros H.
    pose proof (proj1 (ship_verdict manifest tree init "doc/cheatsheet.pdf" true
                         (inb "doc/cheatsheet.pdf" init) (Ht _ Hpdf) (inb_In _ _)) H) as V.
    revert V. destruct (inb "doc/cheatsheet.pdf" init); vm_compute; discriminate.
  - refine (proj2 (ship_verdict (firstn 15 manifest) tree init "doc/cheatsheet.pdf" true
                     (inb "doc/cheatsheet.pdf" init) (Ht _ Hpdf) (inb_In _ _)) _).
    destruct (inb "doc/cheatsheet.pdf" init); vm_compute; reflexivity.
Qed.

Lemma cheatsheet_shipping_witness :
  let tree := ["setup.py"; "doc/cheatsheet.tex"; "doc/cheatsheet.pdf"; "doc/source/index.rst"] in
  let init := ["setup.py"; "doc/cheatsheet.pdf"] in
  In "doc/cheatsheet.tex" tree
  /\ In "doc/cheatsheet.pdf" tree
  /\ In "doc/cheatsheet.tex" (ship tree manifest init)
  /\ ~ In "doc/cheatsheet.pdf" (ship tree manifest init)
  /\ In "doc/cheatsheet.pdf" (ship tree (firstn 15 manifest) init).
Proof.
  intros tree init.
  assert (Htex : In "doc/cheatsheet.tex" tree) by (simpl; tauto).
  assert (Hpdf : In "doc/cheatsheet.pdf" tree) by (simpl; tauto).
  split; [exact Htex | split; [exact Hpdf |]].
  exact (cheatsheet_shipping tree init Htex Hpdf).
Defined.

(** C8.  Every line of MANIFEST.in that is not blank is an include, exclude,
    prune or recursive-include directive with at least one path or pattern
    argument; all four forms occur; the template is read without error into
    thirty directives, and reading them in order is a total boolean verdict
    on a candidate path that says exactly which files are shipped. *)
Theorem manifest_directive_forms :
  Forall (fun l => is_blank l = true
                   \/ exists d, parse_template_line l = Some (inl d) /\ four_forms d = true)
         manifest_lines
  /\ read_template manifest_lines = inl manifest
  /\ length manifest = 30%nat
  /\ (forall n, In n (map form_name manifest)
                <-> In n ["include"; "exclude"; "prune"; "recursive-include"])
  /\ (forall tree init f,
        In f (ship tree manifest init)
        <-> verdict manifest f (inb f tree) (inb f init) = true).
Proof.
  split; [| split; [| split; [| split]]].
  - apply Forall_forall. intros l Hl. apply line_ok_spec.
    assert (H : forallb line_ok manifest_lines = true) by (vm_compute; reflexivity).
    rewrite forallb_forall in H. now apply H.
  - vm_compute. reflexivity.
  - vm_compute. reflexivity.
  - intros n. split.
    + intros H.
      assert (Hall : forallb (fun m => inb m ["include"; "exclude"; "prune"; "recursive-include"])
                       (map form_name manifest) = true) by (vm_compute; reflexivity).
      rewrite forallb_forall in Hall. apply inb_In. now apply Hall.
    + intros H.
      assert (Hall : forallb (fun m => inb m (map form_name manifest))
                       ["include"; "exclude"; "prune"; "recursive-include"] = true)
        by (vm_compute; reflexivity).
      rewrite forallb_forall in Hall. apply inb_In. now apply Hall.
  - intros tree init f. apply ship_verdict; apply inb_In.
Qed.

(** C2.  Besides the manifest and the notebooks the content holds the
    pre-commit configuration: the manifest names it in an exclude directive,
    each of its seven repositories declares at least one hook, among them the
    formatter black-jupyter and the linter ruff, and its exclude pattern puts
    paths such as yt/extern and setupext.py out of the hooks' reach while
    leaving yt/funcs.py in. *)
Theorem pre_commit_configuration_present :
  (exists ps, In (Exclude ps) manifest /\ In PreCommit.config_file_name ps)
  /\ length (PreCommit.repos PreCommit.pre_commit_config) = 7%nat
  /\ Forall (fun r => PreCommit.hooks r <> []) (PreCommit.repos PreCommit.pre_commit_config)
  /\ In "black-jupyter" (PreCommit.hook_ids PreCommit.pre_commit_config)
  /\ In "ruff" (PreCommit.hook_ids PreCommit.pre_commit_config)
  /\ PreCommit.exclude PreCommit.pre_commit_config <> []
  /\ PreCommit.excluded PreCommit.pre_commit_config "yt/extern/tqdm/_tqdm.py" = true
  /\ PreCommit.excluded PreCommit.pre_commit_config "setupext.py" = true
  /\ PreCommit.excluded PreCommit.pre_commit_config "yt/funcs.py" = false.
Proof.
  split.
  - exists [".pre-commit-config.yaml"; "clean.sh"; "nose_answer.cfg"; "nose_unit.cfg";
            "nose_ignores.txt"].
    split; [| left; reflexivity].
    vm_compute. do 29 right. left. reflexivity.
  - split; [reflexivity |]. split.
    + repeat constructor; discriminate.
    + repeat split; try reflexivity; try discriminate; vm_compute; tauto.
Qed.

(* ===================================================================== *)
(** * The data of the notebooks *)
(* ===================================================================== *)

Import Py Builtins Checks Rules.
Local Open Scope py_scope.

(** The data-building parts of the notebooks do not touch the libraries. *)
Ltac run_pure := intros ? ?; reflexivity.

Lemma data_particles_pure : pure GenericArray.data_particles Built.data_particles.
Proof. run_pure. Qed.

Lemma amr_grids_pure : pure GenericArray.amr_grids Built.amr_grids.
Proof. run_pure. Qed.

Lemma data_species_pure : pure GenericArray.data_species Built.data_species.
Proof. run_pure. Qed.

Lemma data_multi_types_pure : pure GenericArray.data_multi_types Built.data_multi_types.
Proof. run_pure. Qed.

Lemma cell_arrays_pure : pure GenericParticle.cell_arrays Built.particle_arrays.
Proof. run_pure. Qed.

Lemma data2_pure : pure GenericParticle.data2 Built.data2.
Proof. run_pure. Qed.

Create HintDb pure_facts.
#[global] Hint Resolve data_particles_pure amr_grids_pure data_species_pure
  data_multi_types_pure cell_arrays_pure data2_pure : pure_facts.

(* ===================================================================== *)
(** * The calls of the notebooks *)
(* ===================================================================== *)

(** ** Dictionaries under update *)

Lemma all_values_set (P : value -> bool) (d : dict) (k : key) (v : value) :
  all_values P d = true -> P v = true -> all_values P (dict_set d k v) = true.
Proof.
  unfold all_values. intros Hd Hv. induction d as [| [k' v'] d IH]; cbn in *.
  - now rewrite Hv.
  - apply andb_true_iff in Hd as [Hv' Hd].
    destruct (key_eqb k k'); cbn; rewrite ?Hv, ?Hv', ?Hd; auto.
Qed.

Lemma all_values_remove (P : value -> bool) (d : dict) (k : key) :
  all_values P d = true -> all_values P (dict_remove d k) = true.
Proof.
  unfold all_values. intros Hd. induction d as [| [k' v'] d IH]; cbn in *; [reflexivity |].
  apply andb_true_iff in Hd as [Hv' Hd].
  destruct (key_eqb k k'); cbn; rewrite ?Hv'; auto.
Qed.

Lemma all_values_get (P : value -> bool) (d : dict) (k : key) (v : value) :
  all_values P d = true -> dict_get d k = Some v -> P v = true.
Proof.
  unfold all_values. intros Hd. induction d as [| [k' v'] d IH]; cbn in *; [discriminate |].
  apply andb_true_iff in Hd as [Hv' Hd].
  destruct (key_eqb k k'); [now intros [= <-] | auto].
Qed.

Section Updates.

Variable ok : call -> bool.
Variable P : value -> bool.

Lemma always_setitem (d : dict) (k v : value) :
  all_values P d = true -> P v = true ->
  always ok (fun d' => all_values P d' = true) (setitem d k v).
Proof.
  intros Hd Hv. unfold setitem. destruct (to_key k); [| apply always_raise].
  apply always_ret. now apply all_values_set.
Qed.

Lemma always_rename (d : dict) (new old : string) :
  all_values P d = true ->
  always ok (fun d' => all_values P d' = true) (GenericArray.rename d new old).
Proof.
  intros Hd. unfold GenericArray.rename, dict_pop.
  destruct (dict_get d (K old)) as [v |] eqn:E.
  - apply always_bind with (P := eq (v, dict_remove d (K old)));
      [now apply always_ret |].
    intros [v' d'] [= <- <-]. apply always_ret. apply all_values_set.
    + now apply all_values_remove.
    + exact (all_values_get P d (K old) v Hd E).
  - apply always_bind with (P := fun _ => False); [apply always_raise |].
    intros [v' d'] H. exact (False_ind _ H).
Qed.

Lemma always_for_pairs {S} (inv : S -> Prop) (body : value * value -> S -> M S)
  (xs : list (value * value)) :
  (forall x s, In x xs -> inv s -> always ok inv (body x s)) ->
  forall s, inv s -> always ok inv (GenericArray.for_pairs xs body s).
Proof.
  induction xs as [| x xs IH]; intros Hbody s Hs; cbn [GenericArray.for_pairs].
  - now apply always_ret.
  - eapply always_bind; [apply Hbody; [now left | exact Hs] |].
    apply IH. intros y t Hy. apply Hbody. now right.
Qed.

End Updates.

Lemma units_are_strings (u : value) : In u GenericArray.units -> exists s, u = VStr s.
Proof.
  unfold GenericArray.units. cbn.
  intros H. repeat (destruct H as [<- | H]; [eexists; reflexivity |]). contradiction.
Qed.

(** ** Walking through straight-line notebook code *)

Ltac head_of t := lazymatch t with ?f _ => head_of f | _ => t end.

Ltac walk Hq :=
  lazymatch goal with
  | |- always _ _ (bind _ _) =>
      first
        [ eapply always_bind; [ apply always_pure; solve [auto with pure_facts] | intros ? ?; subst; walk Hq ]
        | apply always_bind with (P := fun _ => True); [ walk Hq | intros ? _; walk Hq ] ]
  | |- always _ _ (ret _) => apply always_ret; exact I
  | |- always _ _ (raise _) => apply always_raise
  | |- always _ _ (func _ _ _) => apply always_func; reflexivity
  | |- always _ _ (method _ _ _ _) => apply (always_method _ Hq)
  | |- always _ _ (setattr _ _ _) => apply (always_setattr _ Hq)
  | |- always _ _ (getattr _ _) => apply (always_getattr _ Hq)
  | |- always _ _ (subscript _ _) => apply (always_subscript _ Hq)
  | |- always _ _ (iterate _) => apply (always_iterate _ Hq)
  | |- always _ _ (unpack2 _) => apply (always_unpack2 _ Hq)
  | |- always _ _ (unpack3 _) => apply (always_unpack3 _ Hq)
  | |- always _ _ (binop _ _ _) => apply (always_binop _ Hq)
  | |- always _ _ (str_lower _) => apply (always_str_lower _ Hq)
  | |- always _ _ (list_sort _) => apply (always_list_sort _ Hq)
  | |- always _ _ (with_shape _) => apply always_with_shape
  | |- always _ _ (for_each _ _ _) =>
      apply (always_for_each _ (fun _ => True)); [ intros ? ? _; walk Hq | exact I ]
  | |- always _ _ (let _ := _ in _) => cbv zeta; walk Hq
  | |- always _ _ (match ?x with _ => _ end) =>
      tryif is_var x then destruct x
      else (let y := eval hnf in x in change x with y; cbv beta iota);
      walk Hq
  | |- always _ _ ?m => let f := head_of m in unfold f; walk Hq
  end.

(** ** The array notebook *)

Lemma quiet_array_check : quiet array_check.
Proof.
  intros c H. unfold array_check, field_representation, amr_grids_shaped, is_func.
  destruct (target c) as [n | | | | | |]; try reflexivity.
  exfalso. now apply (H n).
Qed.

Lemma array_check_uniform (data : dict) (rest : list value) (kw : list (string * value)) :
  all_values unit_pair data = true ->
  array_check (mkcall (Func "yt.load_uniform_grid") (VDict data :: rest) kw) = true.
Proof.
  intros H. unfold array_check, field_representation, amr_grids_shaped, is_func,
    load_uniform_grid_fields. cbn. now rewrite H.
Qed.

Lemma hdf5_data_fields (f : value) :
  always array_check (fun db => all_values unit_pair (fst db) = true)
    (GenericArray.cell_hdf5_data f).
Proof.
  pose proof quiet_array_check as Hq. unfold GenericArray.cell_hdf5_data.
  apply always_bind with (P := fun _ => True); [walk Hq | intros its _].
  apply always_bind with (P := fun _ => True); [walk Hq | intros items _].
  eapply always_bind.
  - apply always_for_pairs with (inv := fun d => all_values unit_pair d = true);
      [| reflexivity].
    intros [item u] d Hin Hd. apply in_combine_r in Hin.
    destruct (units_are_strings u Hin) as [su ->].
    unfold GenericArray.hdf5_entry.
    apply always_bind with (P := fun _ => True); [walk Hq | intros [k v] _].
    apply always_bind with (P := fun _ => True); [walk Hq | intros arr _].
    now apply always_setitem.
  - intros data Hd. now apply always_ret.
Qed.

Lemma load_hdf5_fields (data : dict) (bbox : value) :
  all_values unit_pair data = true ->
  always array_check (fun _ => True) (GenericArray.cell_load_hdf5 data bbox).
Proof.
  intros Hd. pose proof quiet_array_check as Hq. unfold GenericArray.cell_load_hdf5.
  do 4 (apply always_bind with (P := fun _ => True); [walk Hq | intros ? _]).
  apply always_func. now apply array_check_uniform.
Qed.

Lemma fits_data_fields (f : value) :
  always array_check (fun d => all_values unit_pair d = true) (GenericArray.cell_fits_data f).
Proof.
  pose proof quiet_array_check as Hq. unfold GenericArray.cell_fits_data.
  apply always_bind with (P := fun _ => True); [walk Hq | intros hdus _].
  eapply always_bind.
  - apply always_for_each with (inv := fun d => all_values unit_pair d = true);
      [| reflexivity].
    intros hdu d Hd. unfold GenericArray.fits_entry.
    do 3 (apply always_bind with (P := fun _ => True); [walk Hq | intros ? _]).
    now apply always_setitem.
  - intros data Hd.
    apply always_bind with (P := fun _ => True); [walk Hq | intros ? _].
    now apply always_ret.
Qed.

Lemma fits_rename_fields (data : dict) :
  all_values unit_pair data = true ->
  always array_check (fun d => all_values unit_pair d = true)
    (GenericArray.cell_fits_rename data).
Proof.
  intros Hd. unfold GenericArray.cell_fits_rename.
  apply always_bind with (P := fun d => all_values unit_pair d = true);
    [now apply always_rename | intros d1 H1].
  apply always_bind with (P := fun d => all_values unit_pair d = true);
    [now apply always_rename | intros d2 H2].
  now apply always_rename.
Qed.

Lemma load_fits_fields (data : dict) :
  all_values unit_pair data = true ->
  always array_check (fun _ => True) (GenericArray.cell_load_fits data).
Proof.
  intros Hd. pose proof quiet_array_check as Hq. unfold GenericArray.cell_load_fits.
  do 3 (apply always_bind with (P := fun _ => True); [walk Hq | intros ? _]).
  apply always_bind with (P := fun _ => True);
    [apply always_func; now apply array_check_uniform | intros ds _].
  walk Hq.
Qed.

Lemma array_notebook_always : always array_check (fun _ => True) GenericArray.notebook.
Proof.
  pose proof quiet_array_check as Hq. unfold GenericArray.notebook.
  do 5 (apply always_bind with (P := fun _ => True); [walk Hq | intros ? _]).
  apply always_bind with (P := fun _ => True); [walk Hq | intros [data_dir f] _].
  apply always_bind with (P := fun _ => True); [walk Hq | intros ? _].
  eapply always_bind; [apply hdf5_data_fields | intros [data bbox] Hd].
  apply always_bind with (P := fun _ => True); [now apply load_hdf5_fields | intros ds _].
  apply always_bind with (P := fun _ => True); [walk Hq | intros ? _].
  apply always_bind with (P := fun _ => True); [walk Hq | intros [mi ma] _].
  apply always_bind with (P := fun _ => True); [walk Hq | intros [[L c] W] _].
  do 3 (apply always_bind with (P := fun _ => True); [walk Hq | intros ? _]).
  eapply always_bind; [apply fits_data_fields | intros data' Hd'].
  eapply always_bind; [now apply fits_rename_fields | intros data'' Hd''].
  apply always_bind with (P := fun _ => True); [now apply load_fits_fields | intros ? _].
  walk Hq.
Qed.

Lemma array_notebook_calls (lib : library) :
  Forall (fun ev => array_check (fst ev) = true) (events GenericArray.notebook lib).
Proof. exact (proj1 (array_notebook_always lib [])). Qed.

Lemma array_notebook_grids (lib : library) :
  Forall (fun ev => amr_grids_shaped (fst ev) = true) (events GenericArray.notebook lib).
Proof.
  eapply Forall_impl; [| apply array_notebook_calls].
  intros ev H. unfold array_check in H. now apply andb_true_iff in H.
Qed.

(** ** The particle notebook *)

Lemma quiet_field_representation : quiet field_representation.
Proof.
  intros c H. unfold field_representation, is_func.
  destruct (target c) as [n | | | | | |]; try reflexivity.
  exfalso. now apply (H n).
Qed.

Lemma particle_notebook_always :
  always field_representation (fun _ => True) GenericParticle.notebook.
Proof.
  pose proof quiet_field_representation as Hq. unfold GenericParticle.notebook.
  walk Hq.
Qed.

Lemma array_notebook_fields (lib : library) :
  Forall (fun ev => field_representation (fst ev) = true) (events GenericArray.notebook lib).
Proof.
  eapply Forall_impl; [| apply array_notebook_calls].
  intros ev H. unfold array_check in H. now apply andb_true_iff in H.
Qed.

(** C1, as amended.  In every run of the two loading notebooks, each entry of
    a dictionary passed to load_uniform_grid, and each entry other than
    left_edge, right_edge, level and dimensions of a grid dictionary passed to
    load_amr_grids, is a pair whose second component is a unit string; each
    entry of a dictionary passed to load_particles is a bare array.  Where the
    notebook builds the field itself the first component of the pair is an
    array. *)
Theorem load_fields_representation :
  (forall lib,
     Forall (fun ev => field_representation (fst ev) = true)
            (events GenericArray.notebook lib))
  /\ (forall lib,
        Forall (fun ev => field_representation (fst ev) = true)
               (events GenericParticle.notebook lib))
  /\ (forall shape, all_values array_unit_pair (GenericArray.data_density (VArray shape)) = true)
  /\ all_values array_unit_pair Built.data_particles = true
  /\ forallb (grid_fields array_unit_pair) Built.amr_grids = true
  /\ all_values array_unit_pair (snd Built.data_species) = true
  /\ all_values array_unit_pair Built.data_multi_types = true
  /\ all_values is_array Built.particle_data = true
  /\ all_values is_array Built.data2 = true.
Proof.
  split; [exact array_notebook_fields |].
  split; [intros lib; exact (proj1 (particle_notebook_always lib [])) |].
  repeat split; reflexivity.
Qed.

(** C1, as stated, fails: in a run of the particle notebook the dictionary
    passed to load_particles binds every field name to a bare array, so not
    every field of every load call is a pair of an array and a unit string.
    (In the array notebook the loop over the FITS file takes every HDU: with
    a primary HDU that has no data, the entry for it pairs None with the
    unit.) *)
Lemma load_particles_fields_are_bare :
  completesb GenericParticle.notebook Sample.library = true
  /\ forallb (fun ev => every_field_is_a_pair (fst ev))
             (events GenericParticle.notebook Sample.library) = false
  /\ (exists ev,
        In ev (events GenericParticle.notebook Sample.library)
        /\ fst ev = mkcall (Func "yt.load_particles") [VDict Built.particle_data]
                      (kwargs (fst ev))
        /\ forallb (fun kv => negb (unit_pair (snd kv))) Built.particle_data = true)
  /\ ~ (forall lib,
          Forall (fun ev => every_field_is_a_pair (fst ev) = true)
                 (events GenericParticle.notebook lib))
  /\ (exists ev d rest,
        In ev (events GenericArray.notebook Sample.library)
        /\ target (fst ev) = Func "yt.load_uniform_grid"
        /\ args (fst ev) = VDict d :: rest
        /\ dict_get d (K "primary") = Some (VTuple [VNone; VStr "km/s"])).
Proof.
  assert (E : forallb (fun ev => every_field_is_a_pair (fst ev))
                (events GenericParticle.notebook Sample.library) = false)
    by (vm_compute; reflexivity).
  split; [vm_compute; reflexivity | split; [exact E | split; [| split]]].
  - eexists. split.
    + unfold events. vm_compute. do 8 right. left. reflexivity.
    + split; reflexivity.
  - intros H. specialize (H Sample.library). rewrite Forall_forall in H.
    assert (T : forallb (fun ev => every_field_is_a_pair (fst ev))
                  (events GenericParticle.notebook Sample.library) = true)
      by (apply forallb_forall; exact H).
    rewrite E in T. discriminate.
  - do 3 eexists. split.
    + eapply (fun f x l H => proj1 (proj1 (@filter_In event f x l) H)).
      instantiate (1 := fun ev => negb (every_field_is_a_pair (fst ev))).
      compute. left. reflexivity.
    + repeat split; reflexivity.
Qed.

(** ** Entry points *)

Ltac find_call :=
  lazymatch goal with
  | |- emits _ (bind _ _) =>
      first [ apply emits_bind_l; find_call | apply emits_bind_r; intros; find_call ]
  | |- emits _ (func _ _ _) => apply emits_ask; reflexivity
  | |- emits _ (method _ _ _ _) => apply emits_ask; reflexivity
  | |- emits _ (ret _) => fail
  | |- emits _ (raise _) => fail
  | |- emits _ (getattr _ _) => fail
  | |- emits _ (setattr _ _ _) => fail
  | |- emits _ (subscript _ _) => fail
  | |- emits _ (iterate _) => fail
  | |- emits _ (unpack2 _) => fail
  | |- emits _ (unpack3 _) => fail
  | |- emits _ (binop _ _ _) => fail
  | |- emits _ (str_lower _) => fail
  | |- emits _ (list_sort _) => fail
  | |- emits _ (with_shape _) => fail
  | |- emits _ (for_each _ _ _) => fail
  | |- emits _ (let _ := _ in _) => cbv zeta; find_call
  | |- emits _ (match ?x with _ => _ end) => destruct x; find_call
  | |- emits _ ?m => let f := head_of m in unfold f; find_call
  end.

Lemma array_notebook_entries :
  emits (entry "load_uniform_grid") GenericArray.notebook
  /\ emits (entry "load_amr_grids") GenericArray.notebook
  /\ emits (entry "SlicePlot") GenericArray.notebook
  /\ emits (entry "ProjectionPlot") GenericArray.notebook.
Proof. repeat split; unfold GenericArray.notebook; find_call. Qed.

Lemma particle_notebook_entries :
  emits (entry "load_particles") GenericParticle.notebook
  /\ emits (entry "SlicePlot") GenericParticle.notebook.
Proof. repeat split; unfold GenericParticle.notebook; find_call. Qed.

Lemma trajectories_notebook_entries :
  emits (entry "particle_trajectories") Trajectories.notebook
  /\ emits (entry "SlicePlot") Trajectories.notebook.
Proof. repeat split; unfold Trajectories.notebook; find_call. Qed.

Lemma fits_notebook_entries :
  emits (entry "ds9_region") FitsXray.notebook
  /\ emits (entry "SlicePlot") FitsXray.notebook
  /\ emits (entry "ProjectionPlot") FitsXray.notebook.
Proof. repeat split; unfold FitsXray.notebook; find_call. Qed.

(** C4.  Whatever the libraries answer, a notebook that runs to its end has
    called the entry points it illustrates: the array notebook
    load_uniform_grid, load_amr_grids, SlicePlot and ProjectionPlot; the
    particle notebook load_particles; the trajectories notebook
    particle_trajectories; the FITS notebook ds9_region, SlicePlot and
    ProjectionPlot. *)
Theorem entry_points_invoked (lib : library) :
  (completes GenericArray.notebook lib ->
     invoked "load_uniform_grid" GenericArray.notebook lib
     /\ invoked "load_amr_grids" GenericArray.notebook lib
     /\ invoked "SlicePlot" GenericArray.notebook lib
     /\ invoked "ProjectionPlot" GenericArray.notebook lib)
  /\ (completes GenericParticle.notebook lib ->
        invoked "load_particles" GenericParticle.notebook lib
        /\ invoked "SlicePlot" GenericParticle.notebook lib)
  /\ (completes Trajectories.notebook lib ->
        invoked "particle_trajectories" Trajectories.notebook lib
        /\ invoked "SlicePlot" Trajectories.notebook lib)
  /\ (completes FitsXray.notebook lib ->
        invoked "ds9_region" FitsXray.notebook lib
        /\ invoked "SlicePlot" FitsXray.notebook lib
        /\ invoked "ProjectionPlot" FitsXray.notebook lib).
Proof.
  destruct array_notebook_entries as (A1 & A2 & A3 & A4).
  destruct particle_notebook_entries as (P1 & P2).
  destruct trajectories_notebook_entries as (T1 & T2).
  destruct fits_notebook_entries as (F1 & F2 & F3).
  unfold invoked.
  repeat split; now apply emits_invoked.
Qed.

Lemma entry_points_invoked_witness :
  (completes GenericArray.notebook Sample.library
   /\ completes GenericParticle.notebook Sample.library
   /\ completes Trajectories.notebook Sample.library
   /\ completes FitsXray.notebook Sample.library)
  /\ invoked "load_uniform_grid" GenericArray.notebook Sample.library
  /\ invoked "load_amr_grids" GenericArray.notebook Sample.library
  /\ invoked "SlicePlot" GenericArray.notebook Sample.library
  /\ invoked "ProjectionPlot" GenericArray.notebook Sample.library
  /\ invoked "load_particles" GenericParticle.notebook Sample.library
  /\ invoked "particle_trajectories" Trajectories.notebook Sample.library
  /\ invoked "ds9_region" FitsXray.notebook Sample.library.
Proof.
  assert (CA : completes GenericArray.notebook Sample.library)
    by (exists tt; vm_compute; reflexivity).
  assert (CP : completes GenericParticle.notebook Sample.library)
    by (exists tt; vm_compute; reflexivity).
  assert (CT : completes Trajectories.notebook Sample.library)
    by (exists tt; vm_compute; reflexivity).
  assert (CF : completes FitsXray.notebook Sample.library)
    by (exists tt; vm_compute; reflexivity).
  destruct (entry_points_invoked Sample.library) as (HA & HP & HT & HF).
  destruct (HA CA) as (A1 & A2 & A3 & A4).
  destruct (HP CP) as (P1 & _).
  destruct (HT CT) as (T1 & _).
  destruct (HF CF) as (F1 & _).
  repeat split; assumption.
Defined.

(** ** The derived fields of the FITS notebook *)

(** *** Floats *)

Lemma SFcompare_same (s : bool) (m : positive) (e : Z) :
  SFcompare (S754_finite s m e) (S754_finite s m e) = Some Datatypes.Eq.
Proof.
  unfold SFcompare. destruct s; rewrite Z.compare_refl, Pos.compare_cont_refl; reflexivity.
Qed.

Lemma abs_of_positive (x : float) (m : positive) (e : Z) :
  Prim2SF x = S754_finite false m e -> abs x = x.
Proof.
  intros H.
  assert (E : Prim2SF (abs x) = Prim2SF x) by (rewrite abs_spec, H; reflexivity).
  rewrite <- (SF2Prim_Prim2SF (abs x)), E. apply SF2Prim_Prim2SF.
Qed.

Lemma zero_float (x : float) :
  (x =? 0)%float = true -> is_nan x = false /\ is_infinity x = false.
Proof.
  unfold is_nan, is_infinity. rewrite !eqb_spec, abs_spec.
  change (Prim2SF 0) with (S754_zero false).
  change (Prim2SF infinity) with (S754_infinity false).
  destruct (Prim2SF x) as [s | s | | s m e]; cbn; try discriminate; auto.
  all: destruct s; discriminate.
Qed.

Lemma positive_float (x : float) :
  positive_finite x = true ->
  is_nan x = false /\ is_infinity x = false /\ (x =? 0)%float = false
  /\ (x <? 0)%float = false /\ abs x = x.
Proof.
  unfold positive_finite, is_nan, is_infinity. intros H. apply andb_true_iff in H as [H0 Hi].
  assert (exists m e, Prim2SF x = S754_finite false m e) as (m & e & E).
  { rewrite ltb_spec in H0, Hi.
    change (Prim2SF 0) with (S754_zero false) in H0.
    change (Prim2SF infinity) with (S754_infinity false) in Hi.
    destruct (Prim2SF x) as [s | s | | s m e]; try discriminate.
    - destruct s; discriminate.
    - destruct s; [discriminate | now exists m, e]. }
  rewrite (abs_of_positive x m e E).
  rewrite !eqb_spec, ltb_spec, E.
  change (Prim2SF 0) with (S754_zero false).
  change (Prim2SF infinity) with (S754_infinity false).
  unfold SFeqb, SFltb. rewrite SFcompare_same. cbn. auto.
Qed.

Lemma negative_float (x : float) :
  negative_finite x = true ->
  is_nan x = false /\ is_infinity x = false /\ (x =? 0)%float = false
  /\ (x <? 0)%float = true.
Proof.
  unfold negative_finite, is_nan, is_infinity. intros H. apply andb_true_iff in H as [H0 Hi].
  assert (exists m e, Prim2SF x = S754_finite true m e) as (m & e & E).
  { rewrite ltb_spec in H0, Hi.
    change (Prim2SF 0) with (S754_zero false) in H0.
    change (Prim2SF neg_infinity) with (S754_infinity true) in Hi.
    destruct (Prim2SF x) as [s | s | | s m e]; try discriminate.
    - destruct s; discriminate.
    - destruct s; [now exists m, e | discriminate]. }
  rewrite !eqb_spec, ltb_spec, abs_spec, E.
  change (Prim2SF 0) with (S754_zero false).
  change (Prim2SF infinity) with (S754_infinity false).
  unfold SFeqb, SFltb. rewrite SFcompare_same. cbn. auto.
Qed.

(** A zero times a finite float is a zero, on either side. *)
Lemma zero_times (x y : float) :
  (x =? 0)%float = true -> is_finite y = true ->
  (x * y =? 0)%float = true /\ (y * x =? 0)%float = true /\ is_finite (x * y) = true.
Proof.
  unfold is_finite, is_nan, is_infinity.
  rewrite !eqb_spec, !abs_spec, !mul_spec.
  change (Prim2SF 0) with (S754_zero false).
  change (Prim2SF infinity) with (S754_infinity false).
  destruct (Prim2SF x) as [sx | sx | | sx mx ex]; cbn; try discriminate;
    destruct (Prim2SF y) as [sy | sy | | sy my ey]; cbn; try discriminate; auto.
  all: try (destruct sx; discriminate).
  all: try (destruct sy; discriminate).
  all: intros _ _; repeat split; try reflexivity.
  all: try (rewrite SFcompare_same; reflexivity).
Qed.

Lemma distinct_floats (x y : float) :
  (x =? x)%float = true -> (x =? y)%float = false -> VFloat x <> VFloat y.
Proof. intros Hx H E. injection E as E. subst y. congruence. Qed.

(** *** Runs of the three functions *)


Lemma ask_bind_run {B} (c : call) (v : value) (k : value -> M B) (lib : library)
  (h : history) :
  lib h c = Ok v ->
  bind (ask c) k lib h
  = (fst (k v lib (h ++ [(c, Ok v)])), (c, Ok v) :: snd (k v lib (h ++ [(c, Ok v)]))).
Proof.
  intros H. unfold bind, ask. cbn. rewrite H. now destruct (k v lib (h ++ [(c, Ok v)])).
Qed.

Lemma silent_run {A} (m : M A) (lib : library) (h : history) :
  silent m -> m lib h = (fst (m lib h), []).
Proof. intros H. specialize (H lib h). destruct (m lib h). cbn in *. now subst. Qed.


Lemma binop_object_right (op : operator) (a : value) (o : Z) :
  binop op a (VObj o) = delegate op a (VObj o).
Proof. unfold binop. cbn [is_library_object]. now rewrite orb_true_r. Qed.

Lemma exponent_value : binop Div (VFloat (-1.0)) (VFloat 3.0) = ret (VFloat exponent).
Proof. reflexivity. Qed.

Lemma power_of_floats (x y : float) : binop Pow (VFloat x) (VFloat y) = float_pow x y.
Proof. reflexivity. Qed.

Lemma product_of_floats (x y : float) : binop Mul (VFloat x) (VFloat y) = ret (VFloat (x * y)).
Proof. reflexivity. Qed.

(** Python's case analysis at the exponent -1/3. *)
Lemma float_pow_zero (x : float) :
  (x =? 0)%float = true -> float_pow x exponent = raise ZeroDivisionError.
Proof.
  intros H. destruct (zero_float x H) as [Hn Hi].
  unfold float_pow. rewrite Hn, Hi, H. reflexivity.
Qed.

Lemma float_pow_positive (x : float) :
  positive_finite x = true ->
  float_pow x exponent
  = if (x =? 1)%float then ret (VFloat 1)
    else (r <- pow_of_platform x exponent ;;
          if is_infinity r then raise OverflowError else ret (VFloat r))%py.
Proof.
  intros H. destruct (positive_float x H) as (Hn & Hi & Hz & Hneg & Ha).
  unfold float_pow. rewrite Hn, Hi, Hz, Hneg, Ha. reflexivity.
Qed.

Lemma float_pow_negative (x : float) :
  negative_finite x = true ->
  exists what, float_pow x exponent = raise (Unsupported what).
Proof.
  intros H. destruct (negative_float x H) as (Hn & Hi & Hz & Hneg).
  eexists. unfold float_pow. rewrite Hn, Hi, Hz, Hneg. reflexivity.
Qed.

Lemma float_pow_nonzero (x y : float) (lib : library) (h : history) :
  (x =? 0)%float = false -> fst (float_pow x y lib h) <> Raise ZeroDivisionError.
Proof.
  intros H. unfold float_pow, bind, pow_of_platform. rewrite H.
  repeat match goal with
         | |- context [if ?c then _ else _] => destruct c
         end; cbn; discriminate.
Qed.

Lemma ret_bind_run {A B} (a : A) (k : A -> M B) (lib : library) (h : history) :
  bind (ret a) k lib h = k a lib (h ++ []).
Proof. unfold bind, ret. now destruct (k a lib (h ++ [])). Qed.

Lemma float_pow_returns_float (x y : float) (lib : library) (h : history)
  (v : value) (es : history) :
  float_pow x y lib h = (Ok v, es) -> exists z, v = VFloat z.
Proof.
  unfold float_pow, bind, pow_of_platform.
  repeat match goal with
         | |- context [if ?c then _ else _] => destruct c
         end; cbn; intros [= <- _]; eexists; reflexivity.
Qed.

Lemma power_then_product_silent (t x y : float) :
  silent (p <- float_pow x y ;; binop Mul (VFloat t) p)%py.
Proof.
  intros lib h. unfold bind.
  pose proof (Rules.silent_float_pow x y lib h) as Hs.
  destruct (float_pow x y lib h) as [[v | e] es] eqn:E; cbn in Hs; subst es; [| reflexivity].
  destruct (float_pow_returns_float x y lib h v [] E) as [z ->].
  reflexivity.
Qed.

(** [_pe] on float look-ups: the two look-ups, then the power and the
    product, which ask nothing. *)
Lemma pe_on_floats (lib : library) (h : history) (field : value) (d : Z)
  (temperature counts : float) :
  float_fields lib (VObj d) temperature counts ->
  exists h',
    FitsXray._pe field (VObj d) lib h
    = (fst ((p <- float_pow counts exponent ;; binop Mul (VFloat temperature) p)%py lib h'),
       looked_up (VObj d) temperature counts).
Proof.
  intros Hf. unfold FitsXray._pe, subscript.
  rewrite (ask_bind_run _ _ _ lib h (proj1 (Hf h))).
  rewrite (ask_bind_run _ _ _ lib _ (proj2 (Hf _))).
  rewrite exponent_value, ret_bind_run, power_of_floats. cbn [fst snd].
  eexists. rewrite (power_then_product_silent temperature counts exponent lib _).
  reflexivity.
Qed.








(** C9.  The pseudo-entropy _pe on a data object whose look-ups answer
    Python floats.  When counts is zero it raises ZeroDivisionError, after its
    two look-ups: the error branch is reached; when counts is not zero it
    never raises ZeroDivisionError.  For positive finite counts it returns a
    float, projected_temperature times counts to the power -1/3 as the
    platform computes it (1 for counts 1), unless that power overflows; for
    negative finite counts its result is no float.  And counts is zero when
    _counts multiplies finite floats of which one is zero. *)
Theorem pseudo_entropy_needs_positive_counts
  (lib : library) (h : history) (field : value) (d : Z) (temperature counts : float) :
  float_fields lib (VObj d) temperature counts ->
  let run := FitsXray._pe field (VObj d) lib h in
  ((counts =? 0)%float = true ->
     run = (Raise ZeroDivisionError, looked_up (VObj d) temperature counts))
  /\ ((counts =? 0)%float = false -> fst run <> Raise ZeroDivisionError)
  /\ (positive_finite counts = true ->
      snd run = looked_up (VObj d) temperature counts
      /\ fst run
         = if (counts =? 1)%float then Ok (VFloat (temperature * 1))
           else if is_infinity (platform_pow lib counts exponent) then Raise OverflowError
           else Ok (VFloat (temperature * platform_pow lib counts exponent)))
  /\ (negative_finite counts = true -> forall x, fst run <> Ok (VFloat x))
  /\ (forall flux pixel exposure_time root pow f o h',
        is_finite flux = true -> is_finite pixel = true ->
        is_finite exposure_time = true -> is_finite (flux * pixel) = true ->
        (flux =? 0)%float = true \/ (pixel =? 0)%float = true
        \/ (exposure_time =? 0)%float = true ->
        exists c,
          fst (FitsXray._counts f (VObj o)
                 (scalar_fields flux pixel exposure_time counts temperature root pow) h')
          = Ok (VFloat c)
          /\ (c =? 0)%float = true).
Proof.
  intros Hf run. unfold run.
  destruct (pe_on_floats lib h field d temperature counts Hf) as [h' ->].
  cbn [fst snd].
  split; [| split; [| split; [| split]]].
  - intros Hz. rewrite (float_pow_zero counts Hz). reflexivity.
  - intros Hz. unfold bind.
    pose proof (float_pow_nonzero counts exponent lib h' Hz) as Hn.
    pose proof (Rules.silent_float_pow counts exponent lib h') as Hs.
    destruct (float_pow counts exponent lib h') as [[v | e] es] eqn:E;
      cbn [fst snd] in Hn, Hs; subst es.
    + destruct (float_pow_returns_float _ _ _ _ _ _ E) as [z ->].
      rewrite product_of_floats. discriminate.
    + exact Hn.
  - intros Hpos. split; [reflexivity |].
    rewrite (float_pow_positive counts Hpos).
    destruct (counts =? 1)%float; [reflexivity |].
    unfold bind, pow_of_platform. cbn [fst snd].
    destruct (is_infinity (platform_pow lib counts exponent)); reflexivity.
  - intros Hneg x. destruct (float_pow_negative counts Hneg) as [what ->]. discriminate.
  - intros flux pixel exposure_time root pow f o h'' Hfl Hpx Hex Hfp Hzero.
    exists (flux * pixel * exposure_time)%float. split; [reflexivity |].
    destruct Hzero as [Hz | [Hz | Hz]].
    + destruct (zero_times flux pixel Hz Hpx) as (Z1 & _ & _).
      exact (proj1 (zero_times (flux * pixel) exposure_time Z1 Hex)).
    + destruct (zero_times pixel flux Hz Hfl) as (_ & Z1 & _).
      exact (proj1 (zero_times (flux * pixel) exposure_time Z1 Hex)).
    + exact (proj1 (proj2 (zero_times exposure_time (flux * pixel) Hz Hfp))).
Qed.

Lemma pseudo_entropy_needs_positive_counts_witness :
  float_fields (scalar_fields 0 3 5 0 7 0 Sample.pow) (VObj 0) 7 0
  /\ FitsXray._counts VNone (VObj 0) (scalar_fields 0 3 5 0 7 0 Sample.pow) []
     = (Ok (VFloat 0),
        [ (mkcall (Method "get_field_parameter") [VObj 0; VStr "exposure_time"] [],
           Ok (VFloat 5))
        ; (mkcall GetItem [VObj 0; FitsXray.fits "flux"] [], Ok (VFloat 0))
        ; (mkcall GetItem [VObj 0; FitsXray.fits "pixel"] [], Ok (VFloat 3)) ])
  /\ FitsXray._pe VNone (VObj 0) (scalar_fields 0 3 5 0 7 0 Sample.pow) []
     = (Raise ZeroDivisionError, looked_up (VObj 0) 7 0).
Proof.
  assert (Hf : float_fields (scalar_fields 0 3 5 0 7 0 Sample.pow) (VObj 0) 7 0)
    by (intros h; split; reflexivity).
  split; [exact Hf | split; [reflexivity |]].
  exact (proj1 (pseudo_entropy_needs_positive_counts
                  (scalar_fields 0 3 5 0 7 0 Sample.pow) [] VNone 0 7 0 Hf) eq_refl).
Defined.

(* ===================================================================== *)
(** * Grids and particles *)
(* ===================================================================== *)

(** C6.  The two grids of the AMR example, in exact rational arithmetic: the
    level-0 grid spans [0,1] on each axis with 32 cells of width 1/32; the
    level-1 grid spans [0.25,0.75] with 32 cells of width 1/64, half the
    parent's width; the level-1 region lies inside the level-0 region. *)
Theorem amr_resolutions :
  exists g0 g1 l0 r0 w0 l1 r1 w1,
    GenericArray.grid_data = [g0; g1]
    /\ level g0 = Some 0%Z /\ level g1 = Some 1%Z
    /\ edge g0 "left_edge" = Some l0 /\ edge g0 "right_edge" = Some r0
    /\ edge g1 "left_edge" = Some l1 /\ edge g1 "right_edge" = Some r1
    /\ Forall (fun x => x == 0) l0 /\ Forall (fun x => x == 1) r0
    /\ Forall (fun x => x == 1 # 4) l1 /\ Forall (fun x => x == 3 # 4) r1
    /\ dimensions g0 = Some [32; 32; 32]%Z /\ dimensions g1 = Some [32; 32; 32]%Z
    /\ cell_widths g0 = Some w0 /\ cell_widths g1 = Some w1
    /\ length w0 = 3%nat /\ length w1 = 3%nat
    /\ Forall (fun x => x == 1 # 32) w0
    /\ Forall (fun x => x == 1 # 64) w1
    /\ Forall2 (fun fine coarse => fine == (1 # 2) * coarse) w1 w0
    /\ contained g1 g0.
Proof.
  do 8 eexists.
  repeat match goal with |- _ /\ _ => split end;
    try reflexivity;
    try (repeat constructor; reflexivity).
  cbv. split; repeat constructor; discriminate.
Qed.

(** C5.  Each grid dictionary of the AMR example, as written and as it stands
    when load_amr_grids is called, binds left_edge and right_edge to 3-vectors
    of coordinates, level to a non-negative integer and dimensions to a
    3-vector of cell counts. *)
Theorem grid_dictionaries_shape :
  Forall (fun g => grid_shape g = true) GenericArray.grid_data
  /\ length GenericArray.grid_data = 2%nat
  /\ pure GenericArray.amr_grids Built.amr_grids
  /\ length Built.amr_grids = 2%nat
  /\ Forall (fun g => grid_shape g = true) Built.amr_grids
  /\ forall lib,
       Forall (fun ev => amr_grids_shaped (fst ev) = true)
              (events GenericArray.notebook lib).
Proof.
  split; [repeat constructor | split; [reflexivity |]].
  split; [exact amr_grids_pure | split; [reflexivity | split; [repeat constructor |]]].
  intros lib. exact (array_notebook_grids lib).
Qed.

(** C10.  In each example that supplies particle positions, the x, y and z
    position arrays of each particle type have one length: the default type
    of the uniform-grid example (10000), both grids of the AMR example (0 for
    the grid without particles, 1000 for the other), red (10000) and blue
    (20000), the default type of the particle example (5000000), dm (2000000)
    and star (1000000).  In the particle notebook this holds for any particle
    count: the three arrays unpacked from a draw of shape [3, n] have length
    n. *)
Theorem particle_positions_equal_length :
  (pure GenericArray.data_particles Built.data_particles
   /\ position_types Built.data_particles = [None; None; None]
   /\ forallb (equal_lengths Built.data_particles) (position_types Built.data_particles) = true
   /\ position_len Built.data_particles None "x" = Some 10000%Z)
  /\ (pure GenericArray.amr_grids Built.amr_grids
      /\ map position_types Built.amr_grids = [[None; None; None]; [None; None; None]]
      /\ forallb (fun g => forallb (equal_lengths g) (position_types g)) Built.amr_grids = true
      /\ map (fun g => position_len g None "x") Built.amr_grids = [Some 0%Z; Some 1000%Z])
  /\ (pure GenericArray.data_multi_types Built.data_multi_types
      /\ position_types Built.data_multi_types
         = [Some "red"; Some "red"; Some "red"; Some "blue"; Some "blue"; Some "blue"]
      /\ forallb (equal_lengths Built.data_multi_types)
                 (position_types Built.data_multi_types) = true
      /\ position_len Built.data_multi_types (Some "red") "x" = Some 10000%Z
      /\ position_len Built.data_multi_types (Some "blue") "x" = Some 20000%Z)
  /\ (pure GenericParticle.cell_arrays Built.particle_arrays
      /\ (let '(ppx, ppy, ppz, ppm) := Built.particle_arrays in
          GenericParticle.data ppx ppy ppz ppm) = Built.particle_data
      /\ position_types Built.particle_data = [None; None; None]
      /\ forallb (equal_lengths Built.particle_data) (position_types Built.particle_data) = true
      /\ position_len Built.particle_data None "x" = Some 5000000%Z)
  /\ (pure GenericParticle.data2 Built.data2
      /\ position_types Built.data2
         = [Some "dm"; Some "dm"; Some "dm"; Some "star"; Some "star"; Some "star"]
      /\ forallb (equal_lengths Built.data2) (position_types Built.data2) = true
      /\ position_len Built.data2 (Some "dm") "x" = Some 2000000%Z
      /\ position_len Built.data2 (Some "star") "x" = Some 1000000%Z)
  /\ (forall scale n,
        (0 <= n)%Z ->
        pure (GenericParticle.positions scale n) (VArray [n], VArray [n], VArray [n])).
Proof.
  repeat match goal with |- _ /\ _ => split end;
    auto with pure_facts; try reflexivity.
  intros scale n Hn lib h. apply Z.leb_le in Hn.
  unfold GenericParticle.positions, np_random_normal, with_shape, bind.
  cbn [shape_arg ints_of option_map forallb]. change (0 <=? 3)%Z with true.
  rewrite Hn. reflexivity.
Qed.

(* ===================================================================== *)
(** * More on the manifest *)
(* ===================================================================== *)

Import Further.

Lemma split_on_app (sep : ascii -> bool) (a b acc : string) (c : ascii) :
  sep c = true ->
  split_on sep (a ++ String c b) acc = split_on sep a acc ++ split_on sep b EmptyString.
Proof.
  intros Hc. revert acc. induction a as [| x a IH]; intros acc; cbn.
  - now rewrite Hc.
  - destruct (sep x); [now rewrite IH | apply IH].
Qed.

Lemma split_on_cons (sep : ascii -> bool) (s acc : string) :
  exists x l, split_on sep s acc = x :: l.
Proof.
  revert acc. induction s as [| c s IH]; intros acc; cbn.
  - now exists acc, [].
  - destruct (sep c); [now eexists; eexists | apply IH].
Qed.

(** The components of [dir/rest]. *)
Lemma comps_under (dir rest : string) :
  comps (dir ++ "/" ++ rest) = comps dir ++ comps rest.
Proof. unfold comps. now apply split_on_app. Qed.

Lemma verdict_app (ds1 ds2 : list directive) (f : string) (it cur : bool) :
  verdict (ds1 ++ ds2) f it cur = verdict ds2 f it (verdict ds1 f it cur).
Proof. unfold verdict. apply fold_left_app. Qed.

(** Once a path is out, only an adding directive that speaks about it brings
    it back. *)
Lemma verdict_stays_out (ds : list directive) (f : string) (it : bool) :
  not_added ds f = true -> verdict ds f it false = false.
Proof.
  unfold not_added, verdict. induction ds as [| d ds IH]; cbn; [reflexivity |].
  intros H. apply andb_true_iff in H as [Hd Hds].
  unfold verdict_step at 2.
  destruct (hits d f), (adds d); try discriminate; now apply IH.
Qed.

Lemma removed_for_good (ds1 ds2 : list directive) (d : directive) (f : string)
  (tree init : list string) :
  adds d = false -> hits d f = true -> not_added ds2 f = true ->
  ~ In f (ship tree (ds1 ++ d :: ds2) init).
Proof.
  intros Ha Hh Hn Hin.
  apply (ship_verdict _ tree init f (inb f tree) (inb f init) (inb_In _ _) (inb_In _ _))
    in Hin.
  rewrite verdict_app in Hin. cbn [verdict fold_left] in Hin.
  unfold verdict_step at 2 in Hin. rewrite Hh, Ha in Hin.
  fold (verdict ds2 f (inb f tree) false) in Hin.
  rewrite verdict_stays_out in Hin by exact Hn. discriminate.
Qed.

Ltac under_pruned k :=
  intros tree init rest;
  apply (removed_for_good (firstn k manifest) (skipn (S k) manifest)
           (nth k manifest (Prune EmptyString)));
  [ reflexivity
  | cbn [nth manifest hits]; unfold match_tree; rewrite comps_under;
    destruct (split_on_cons is_sep rest EmptyString) as (x & l & E);
    change (comps rest) with (split_on is_sep rest EmptyString); rewrite E; reflexivity
  | vm_compute; reflexivity ].

(** X1.  Nothing below a pruned directory is shipped: whatever the file tree
    and the files listed beforehand, no path under docker, tests,
    answer-store, doc/source/reference/api/generated, doc/build, .tours or
    yt/frontends/_skeleton is in the list the manifest produces, although the
    recursive-include directives of doc and yt speak about some of them. *)
Theorem pruned_directories_stay_out :
  pruned_dirs manifest
  = [ "docker"; "tests"; "answer-store"; "doc/source/reference/api/generated"
    ; "doc/build"; ".tours"; "yt/frontends/_skeleton" ]
  /\ Forall (fun dir => forall tree init rest,
                 ~ In (dir ++ "/" ++ rest)%string (ship tree manifest init))
            (pruned_dirs manifest)
  /\ hits (nth 14 manifest (Prune EmptyString)) "doc/build/html/cheatsheet.pdf" = true
  /\ hits (nth 12 manifest (Prune EmptyString)) "yt/frontends/_skeleton/io.py" = true.
Proof.
  split; [reflexivity | split; [| split; reflexivity]].
  change (pruned_dirs manifest)
    with [ "docker"; "tests"; "answer-store"; "doc/source/reference/api/generated"
         ; "doc/build"; ".tours"; "yt/frontends/_skeleton" ].
  repeat constructor.
  - under_pruned 9%nat.
  - under_pruned 10%nat.
  - under_pruned 11%nat.
  - under_pruned 18%nat.
  - under_pruned 19%nat.
  - under_pruned 20%nat.
  - under_pruned 26%nat.
Qed.

Lemma ships_if_present_sound (f : string) (tree init : list string) :
  ships_if_present f = true -> In f tree -> In f (ship tree manifest init).
Proof.
  unfold ships_if_present. intros H Hf. apply andb_true_iff in H as [H1 H2].
  refine (proj2 (ship_verdict manifest tree init f true (inb f init) _ (inb_In _ _)) _);
    [split; [reflexivity | intros _; exact Hf] |].
  destruct (inb f init); assumption.
Qed.

Lemma never_ships_sound (f : string) (tree init : list string) :
  never_ships f = true -> ~ In f (ship tree manifest init).
Proof.
  unfold never_ships. rewrite negb_true_iff, !orb_false_iff.
  intros (((H1 & H2) & H3) & H4) Hin.
  pose proof (proj1 (ship_verdict manifest tree init f (inb f tree) (inb f init)
                       (inb_In _ _) (inb_In _ _)) Hin) as V.
  revert V. destruct (inb f tree), (inb f init); intros V;
    [rewrite H1 in V | rewrite H2 in V | rewrite H3 in V | rewrite H4 in V];
    discriminate.
Qed.

(** X2.  No include or exclude of the manifest is undone by a later
    directive: each of the 21 paths an include directive names literally is
    shipped when the tree holds it, and each of the 14 paths an exclude
    directive names is not shipped, whatever the tree and the files listed
    beforehand. *)
Theorem includes_and_excludes_hold :
  length (included_literals manifest) = 21%nat
  /\ length (excluded_paths manifest) = 14%nat
  /\ Forall (fun f => forall tree init, In f tree -> In f (ship tree manifest init))
            (included_literals manifest)
  /\ Forall (fun f => forall tree init, ~ In f (ship tree manifest init))
            (excluded_paths manifest).
Proof.
  split; [vm_compute; reflexivity | split; [vm_compute; reflexivity | split]].
  - apply Forall_forall. intros f Hf tree init. apply ships_if_present_sound.
    assert (H : forallb ships_if_present (included_literals manifest) = true)
      by (vm_compute; reflexivity).
    rewrite forallb_forall in H. apply H. exact Hf.
  - apply Forall_forall. intros f Hf tree init. apply never_ships_sound.
    assert (H : forallb never_ships (excluded_paths manifest) = true)
      by (vm_compute; reflexivity).
    rewrite forallb_forall in H. apply H. exact Hf.
Qed.





(* ===================================================================== *)
(** * More on the pre-commit configuration *)
(* ===================================================================== *)

Lemma alt_matches_longer (alt path suffix : string) :
  PreCommit.alt_matches alt path = true ->
  PreCommit.alt_matches alt (path ++ suffix) = true.
Proof.
  revert path. induction alt as [| c alt IH]; intros path; cbn; [reflexivity |].
  destruct path as [| d path]; cbn; [discriminate |].
  intros H. apply andb_true_iff in H as [H1 H2]. rewrite H1. now apply IH.
Qed.

(** X4.  The exclude pattern of the pre-commit configuration is anchored at
    the start only: a path that is excluded stays excluded under any
    extension, so that scripts_old/x.py and yt/units_test.py are excluded
    along with scripts and yt/units; and the dot of setupext.py, not being
    escaped, lets any character but a line feed stand in its place. *)
Theorem exclude_pattern_is_a_prefix_test (path suffix : string) :
  PreCommit.excluded PreCommit.pre_commit_config path = true ->
  PreCommit.excluded PreCommit.pre_commit_config (path ++ suffix) = true
  /\ PreCommit.excluded PreCommit.pre_commit_config "scripts_old/x.py" = true
  /\ PreCommit.excluded PreCommit.pre_commit_config "yt/units_test.py" = true
  /\ (forall c, c <> ascii_of_nat 10 ->
        PreCommit.excluded PreCommit.pre_commit_config
          ("setupext" ++ String c "py") = true).
Proof.
  intros H. split; [| split; [reflexivity | split; [reflexivity |]]].
  - unfold PreCommit.excluded in *. apply existsb_exists in H as (alt & Hin & Hm).
    apply existsb_exists. exists alt. split; [exact Hin |].
    now apply alt_matches_longer.
  - intros c Hc. unfold PreCommit.excluded. cbn.
    assert (E : Ascii.eqb c (ascii_of_nat 10) = false) by now apply Ascii.eqb_neq.
    cbn in E. rewrite E. cbn.
    repeat (rewrite ?orb_true_r, ?orb_false_r, ?andb_true_r, ?andb_false_r; cbn).
    reflexivity.
Qed.

Lemma exclude_pattern_is_a_prefix_test_witness :
  PreCommit.excluded PreCommit.pre_commit_config "benchmark" = true
  /\ PreCommit.excluded PreCommit.pre_commit_config ("benchmark" ++ "s/plots.py") = true.
Proof.
  assert (H : PreCommit.excluded PreCommit.pre_commit_config "benchmark" = true)
    by reflexivity.
  split; [exact H |].
  exact (proj1 (exclude_pattern_is_a_prefix_test "benchmark" "s/plots.py" H)).
Defined.

(* ===================================================================== *)
(** * More on the dictionaries of the notebooks *)
(* ===================================================================== *)

Lemma key_eqb_eq (a b : key) : key_eqb a b = true <-> a = b.
Proof.
  destruct a as [x | t x], b as [y | u y]; cbn; split; try discriminate.
  - intros H. apply String.eqb_eq in H. now subst.
  - intros [= ->]. apply String.eqb_refl.
  - intros H. apply andb_true_iff in H as [H1 H2].
    apply String.eqb_eq in H1, H2. now subst.
  - intros [= -> ->]. now rewrite !String.eqb_refl.
Qed.

Lemma key_eqb_neq (a b : key) : key_eqb a b = false <-> a <> b.
Proof.
  split.
  - intros H E. apply key_eqb_eq in E. congruence.
  - intros H. destruct (key_eqb a b) eqn:E; [| reflexivity].
    apply key_eqb_eq in E. contradiction.
Qed.

Lemma dict_get_set_same (d : dict) (k : key) (v : value) :
  dict_get (dict_set d k v) k = Some v.
Proof.
  induction d as [| [k' v'] d IH]; cbn.
  - now rewrite (proj2 (key_eqb_eq k k) eq_refl).
  - destruct (key_eqb k k') eqn:E; cbn; rewrite E; [reflexivity | exact IH].
Qed.

Lemma dict_get_set_other (d : dict) (k k' : key) (v : value) :
  k' <> k -> dict_get (dict_set d k v) k' = dict_get d k'.
Proof.
  intros Hne. induction d as [| [k0 v0] d IH]; cbn.
  - now rewrite (proj2 (key_eqb_neq k' k) Hne).
  - destruct (key_eqb k k0) eqn:E; cbn.
    + apply key_eqb_eq in E. subst k0.
      now rewrite (proj2 (key_eqb_neq k' k) Hne).
    + now rewrite IH.
Qed.

Lemma dict_get_none (d : dict) (k : key) :
  dict_get d k = None <-> ~ In k (map fst d).
Proof.
  induction d as [| [k0 v0] d IH]; cbn; [tauto |].
  destruct (key_eqb k k0) eqn:E.
  - apply key_eqb_eq in E. subst. split; [discriminate | tauto].
  - apply key_eqb_neq in E. rewrite IH. split.
    + intros H [H0 | H0]; [now apply E | now apply H].
    + tauto.
Qed.

Lemma keys_remove (d : dict) (k k' : key) :
  In k' (map fst (dict_remove d k)) -> In k' (map fst d).
Proof.
  induction d as [| [k0 v0] d IH]; cbn; [tauto |].
  destruct (key_eqb k k0); cbn; tauto.
Qed.

Lemma keys_set (d : dict) (k k' : key) (v : value) :
  In k' (map fst (dict_set d k v)) <-> k' = k \/ In k' (map fst d).
Proof.
  induction d as [| [k0 v0] d IH]; cbn; [intuition congruence |].
  destruct (key_eqb k k0) eqn:E; cbn.
  - apply key_eqb_eq in E. subst. intuition congruence.
  - rewrite IH. intuition congruence.
Qed.

Lemma unique_keys_set (d : dict) (k : key) (v : value) :
  unique_keys d -> unique_keys (dict_set d k v).
Proof.
  unfold unique_keys. induction d as [| [k0 v0] d IH]; cbn; intros H.
  - repeat constructor. tauto.
  - inversion H as [| x l Hx Hl]; subst. destruct (key_eqb k k0) eqn:E; cbn.
    + now constructor.
    + constructor; [| now apply IH].
      rewrite keys_set. apply key_eqb_neq in E. intuition congruence.
Qed.

Lemma unique_keys_remove (d : dict) (k : key) :
  unique_keys d -> unique_keys (dict_remove d k).
Proof.
  unfold unique_keys. induction d as [| [k0 v0] d IH]; cbn; intros H; [constructor |].
  inversion H as [| x l Hx Hl]; subst. destruct (key_eqb k k0); cbn; [exact Hl |].
  constructor; [| now apply IH]. intros Hin. apply Hx. eapply keys_remove, Hin.
Qed.

Lemma dict_get_remove_same (d : dict) (k : key) :
  unique_keys d -> dict_get (dict_remove d k) k = None.
Proof.
  unfold unique_keys. induction d as [| [k0 v0] d IH]; cbn; intros H; [reflexivity |].
  inversion H as [| x l Hx Hl]; subst. destruct (key_eqb k k0) eqn:E; cbn.
  - apply key_eqb_eq in E. subst. now apply dict_get_none.
  - rewrite E. now apply IH.
Qed.

Lemma dict_get_remove_other (d : dict) (k k' : key) :
  k' <> k -> dict_get (dict_remove d k) k' = dict_get d k'.
Proof.
  intros Hne. induction d as [| [k0 v0] d IH]; cbn; [reflexivity |].
  destruct (key_eqb k k0) eqn:E; cbn.
  - apply key_eqb_eq in E. subst. now rewrite (proj2 (key_eqb_neq k' k0) Hne).
  - now rewrite IH.
Qed.

Lemma rename_missing (data : dict) (new old : string) :
  dict_get data (K old) = None ->
  forall lib h, GenericArray.rename data new old lib h = (Raise (KeyError (K old)), []).
Proof.
  intros Hnone lib h. unfold GenericArray.rename, dict_pop, bind. now rewrite Hnone.
Qed.

Lemma rename_present (data : dict) (new old : string) (v : value) :
  dict_get data (K old) = Some v ->
  pure (GenericArray.rename data new old) (dict_set (dict_remove data (K old)) (K new) v).
Proof.
  intros Hv lib h. unfold GenericArray.rename, dict_pop, bind. now rewrite Hv.
Qed.

Lemma moved_entry (data : dict) (new old : string) (v : value) :
  unique_keys data -> new <> old ->
  let data' := dict_set (dict_remove data (K old)) (K new) v in
  dict_get data' (K new) = Some v
  /\ dict_get data' (K old) = None
  /\ (forall k, k <> K new -> k <> K old -> dict_get data' k = dict_get data k)
  /\ unique_keys data'.
Proof.
  intros Hu Hne data'. assert (Hk : K old <> K new) by congruence.
  split; [| split; [| split]].
  - apply dict_get_set_same.
  - unfold data'. rewrite dict_get_set_other by exact Hk. now apply dict_get_remove_same.
  - intros k H1 H2. unfold data'. rewrite dict_get_set_other by exact H1.
    now apply dict_get_remove_other.
  - now apply unique_keys_set, unique_keys_remove.
Qed.

(** X5.  The cell data[new] = data.pop(old) on a dictionary: when old is
    missing it raises KeyError(old) and calls nothing; when old is bound to v
    (and new is another name) it yields a dictionary where new is bound to v,
    old is unbound, every other key is bound as before, and keys stay
    unique. *)
Theorem rename_moves_the_entry (data : dict) (new old : string) :
  unique_keys data ->
  new <> old ->
  (dict_get data (K old) = None ->
     forall lib h, GenericArray.rename data new old lib h = (Raise (KeyError (K old)), []))
  /\ (forall v, dict_get data (K old) = Some v ->
        exists data',
          pure (GenericArray.rename data new old) data'
          /\ dict_get data' (K new) = Some v
          /\ dict_get data' (K old) = None
          /\ (forall k, k <> K new -> k <> K old -> dict_get data' k = dict_get data k)
          /\ unique_keys data').
Proof.
  intros Hu Hne. split; [apply rename_missing |].
  intros v Hv. exists (dict_set (dict_remove data (K old)) (K new) v).
  split; [now apply rename_present | now apply moved_entry].
Qed.

Lemma rename_moves_the_entry_witness :
  let data := [ (K "x-velocity", VTuple [VArray [4]%Z; VStr "km/s"])
              ; (K "primary", VTuple [VNone; VStr "km/s"]) ] in
  unique_keys data
  /\ "velocity_x" <> "x-velocity"
  /\ exists data',
       pure (GenericArray.rename data "velocity_x" "x-velocity") data'
       /\ dict_get data' (K "velocity_x") = Some (VTuple [VArray [4]%Z; VStr "km/s"])
       /\ dict_get data' (K "x-velocity") = None.
Proof.
  intros data.
  assert (Hu : unique_keys data).
  { unfold unique_keys, data. cbn. repeat constructor; cbn; intuition discriminate. }
  assert (Hne : "velocity_x" <> "x-velocity") by discriminate.
  split; [exact Hu | split; [exact Hne |]].
  destruct (proj2 (rename_moves_the_entry data "velocity_x" "x-velocity" Hu Hne)
              (VTuple [VArray [4]%Z; VStr "km/s"]) eq_refl)
    as (data' & Hp & Hn & Ho & _).
  exists data'. repeat split; assumption.
Defined.

(* ===================================================================== *)
(** * More on the array notebook: the file-backed cells *)
(* ===================================================================== *)

Lemma quiet_any_call : quiet any_call.
Proof. intros c _. reflexivity. Qed.

Lemma always_returns {A} (ok : call -> bool) (post : A -> Prop) (m : M A)
  (lib : library) (h : history) (a : A) (es : history) :
  always ok post m -> m lib h = (Ok a, es) -> post a.
Proof. intros Hm E. apply (proj2 (Hm lib h)). now rewrite E. Qed.

Lemma getattr_name (obj : value) :
  getattr obj "name" = ask (mkcall (GetAttr "name") [obj] []).
Proof. now destruct obj. Qed.

Lemma getattr_data (obj : value) :
  getattr obj "data" = ask (mkcall (GetAttr "data") [obj] []).
Proof. now destruct obj. Qed.

Section StableFile.

Variable lib : library.
Variable hdus : list value.
Variable name : value -> string.
Variable data : value -> value.
Hypothesis Hstable : stable_file lib hdus name data.

Lemma fits_entry_stable (hdu : value) (d : dict) (h : history) :
  In hdu hdus ->
  fst (GenericArray.fits_entry hdu d lib h)
  = Ok (dict_set d (K (lower (name hdu))) (VTuple [data hdu; VStr "km/s"])).
Proof.
  intros Hin. unfold GenericArray.fits_entry. rewrite getattr_name, getattr_data.
  unfold bind, ask.
  rewrite (proj1 (Hstable h hdu Hin)). cbn.
  rewrite (proj2 (Hstable _ hdu Hin)). reflexivity.
Qed.

End StableFile.

Lemma fits_dict_cons (name : value -> string) (data : value -> value)
  (x : value) (xs : list value) (d : dict) :
  fits_dict name data (x :: xs) d
  = fits_dict name data xs
      (dict_set d (K (lower (name x))) (VTuple [data x; VStr "km/s"])).
Proof. reflexivity. Qed.

Lemma for_each_fits (lib : library) (name : value -> string) (data : value -> value)
  (hdus : list value) :
  stable_file lib hdus name data ->
  forall h d, fst (for_each hdus GenericArray.fits_entry d lib h)
              = Ok (fits_dict name data hdus d).
Proof.
  induction hdus as [| hdu hdus IH]; intros Hs h d; [reflexivity |].
  rewrite fits_dict_cons. cbn [for_each]. unfold bind.
  pose proof (fits_entry_stable lib (hdu :: hdus) name data Hs hdu d h (or_introl eq_refl))
    as E.
  destruct (GenericArray.fits_entry hdu d lib h) as [r es]. cbn in E. subst r.
  assert (Hs' : stable_file lib hdus name data)
    by (intros h' x Hx; apply Hs; now right).
  specialize (IH Hs' (h ++ es)
                (dict_set d (K (lower (name hdu))) (VTuple [data hdu; VStr "km/s"]))).
  destruct (for_each hdus GenericArray.fits_entry _ lib (h ++ es)) as [r' es'].
  exact IH.
Qed.

Lemma fits_dict_app (name : value -> string) (data : value -> value)
  (xs ys : list value) (d : dict) :
  fits_dict name data (xs ++ ys) d = fits_dict name data ys (fits_dict name data xs d).
Proof. unfold fits_dict. apply fold_left_app. Qed.

Lemma fits_dict_keeps (name : value -> string) (data : value -> value)
  (xs : list value) (k : key) :
  (forall x, In x xs -> K (lower (name x)) <> k) ->
  forall d, dict_get (fits_dict name data xs d) k = dict_get d k.
Proof.
  induction xs as [| x xs IH]; intros H d; [reflexivity |].
  rewrite fits_dict_cons.
  rewrite IH by (intros y Hy; apply H; now right).
  apply dict_get_set_other. intros E. apply (H x (or_introl eq_refl)). now symmetry.
Qed.

Lemma fits_dict_unique (name : value -> string) (data : value -> value)
  (xs : list value) :
  forall d, unique_keys d -> unique_keys (fits_dict name data xs d).
Proof.
  induction xs as [| x xs IH]; intros d Hd; [exact Hd |].
  rewrite fits_dict_cons. apply IH. now apply unique_keys_set.
Qed.

(** X6.  The loop over the HDUs of a FITS file whose names and data the
    library answers steadily: it returns the dictionary obtained by binding,
    HDU after HDU, the lower-cased name to the pair of the HDU's data and
    km/s.  So an HDU after which no HDU of the same name (up to letter case)
    follows is the one whose data its name is bound to: of two HDUs whose
    names differ in case only, the later wins.  Keys stay unique. *)
Theorem fits_loop_binds_lowered_names (lib : library) (name : value -> string)
  (data : value -> value) (hdus : list value) :
  stable_file lib hdus name data ->
  (forall h d, fst (for_each hdus GenericArray.fits_entry d lib h)
               = Ok (fits_dict name data hdus d))
  /\ (forall before hdu after d,
        hdus = before ++ hdu :: after ->
        (forall x, In x after -> lower (name x) <> lower (name hdu)) ->
        dict_get (fits_dict name data hdus d) (K (lower (name hdu)))
        = Some (VTuple [data hdu; VStr "km/s"]))
  /\ (forall d, unique_keys d -> unique_keys (fits_dict name data hdus d)).
Proof.
  intros Hs. split; [now apply for_each_fits | split].
  - intros before hdu after d -> Hafter.
    rewrite fits_dict_app, fits_dict_cons.
    rewrite fits_dict_keeps.
    + apply dict_get_set_same.
    + intros x Hx E. injection E as E. now apply (Hafter x Hx).
  - apply fits_dict_unique.
Qed.

Lemma fits_loop_binds_lowered_names_witness :
  stable_file Sample.library sample_hdus sample_name sample_data
  /\ fst (for_each sample_hdus GenericArray.fits_entry [] Sample.library [])
     = Ok [ (K "primary", VTuple [VNone; VStr "km/s"])
          ; (K "x-velocity", VTuple [VArray [20; 20; 20]%Z; VStr "km/s"])
          ; (K "y-velocity", VTuple [VArray [20; 20; 20]%Z; VStr "km/s"])
          ; (K "z-velocity", VTuple [VArray [20; 20; 20]%Z; VStr "km/s"]) ].
Proof.
  assert (Hs : stable_file Sample.library sample_hdus sample_name sample_data).
  { intros h hdu Hin. unfold sample_hdus in Hin. cbn in Hin.
    destruct Hin as [<- | [<- | [<- | [<- | []]]]]; split; reflexivity. }
  split; [exact Hs |].
  exact (proj1 (fits_loop_binds_lowered_names Sample.library sample_name sample_data
                  sample_hdus Hs) [] []).
Defined.

Lemma always_setitem_tidy (ok : call -> bool) (d : dict) (k v : value) :
  tidy d -> km_pair v = true -> always ok tidy (setitem d k v).
Proof.
  intros [Hu Ha] Hv. unfold setitem. destruct (to_key k); [| apply always_raise].
  apply always_ret. split; [now apply unique_keys_set | now apply all_values_set].
Qed.

Lemma fits_data_tidy (f : value) : always any_call tidy (GenericArray.cell_fits_data f).
Proof.
  pose proof quiet_any_call as Hq. unfold GenericArray.cell_fits_data.
  apply always_bind with (P := fun _ => True); [walk Hq | intros hdus _].
  apply always_bind with (P := tidy).
  - apply always_for_each; [| split; [constructor | reflexivity]].
    intros hdu d Hd. unfold GenericArray.fits_entry.
    do 3 (apply always_bind with (P := fun _ => True); [walk Hq | intros ? _]).
    now apply always_setitem_tidy.
  - intros data Hd.
    apply always_bind with (P := fun _ => True); [walk Hq | intros ? _].
    now apply always_ret.
Qed.

Lemma rename_returns (data : dict) (new old : string) (lib : library) (h : history)
  (d' : dict) (es : history) :
  GenericArray.rename data new old lib h = (Ok d', es) ->
  exists v, dict_get data (K old) = Some v
            /\ d' = dict_set (dict_remove data (K old)) (K new) v.
Proof.
  destruct (dict_get data (K old)) as [v |] eqn:E.
  - rewrite (rename_present data new old v E lib h). intros [= <- _]. now exists v.
  - rewrite (rename_missing data new old E lib h). discriminate.
Qed.

Lemma km_pair_form (v : value) :
  km_pair v = true -> exists x, v = VTuple [x; VStr "km/s"].
Proof.
  destruct v as [| | | | | | |items| | | |]; try discriminate.
  destruct items as [| x [| [| | | |u| | | | | | |] [| ? ?]]]; try discriminate.
  cbn. intros H. apply String.eqb_eq in H. subst. now exists x.
Qed.

(** X7.  The two FITS cells together, whatever the file holds: when the loop
    over the HDUs and the three renamings run through, the dictionary handed
    on binds velocity_x, velocity_y and velocity_z each to a pair of data and
    km/s, binds none of x-velocity, y-velocity, z-velocity any more, has
    unique keys and only such pairs as values; and a dictionary without
    x-velocity makes the renaming cell raise KeyError(x-velocity) before any
    library call. *)
Theorem fits_cells_hand_on_velocities (f : value) (lib : library) (h : history) :
  (forall d es,
     bind (GenericArray.cell_fits_data f) GenericArray.cell_fits_rename lib h = (Ok d, es) ->
     (exists x y z,
         dict_get d (K "velocity_x") = Some (VTuple [x; VStr "km/s"])
         /\ dict_get d (K "velocity_y") = Some (VTuple [y; VStr "km/s"])
         /\ dict_get d (K "velocity_z") = Some (VTuple [z; VStr "km/s"]))
     /\ dict_get d (K "x-velocity") = None
     /\ dict_get d (K "y-velocity") = None
     /\ dict_get d (K "z-velocity") = None
     /\ unique_keys d
     /\ all_values km_pair d = true)
  /\ (forall data,
        dict_get data (K "x-velocity") = None ->
        GenericArray.cell_fits_rename data lib h = (Raise (KeyError (K "x-velocity")), [])).
Proof.
  split.
  - intros d es Hrun.
    apply bind_returns in Hrun as (data & es1 & es2 & Hdata & Hren & ->).
    destruct (always_returns _ _ _ _ _ _ _ (fits_data_tidy f) Hdata) as [Hu Ha].
    unfold GenericArray.cell_fits_rename in Hren.
    apply bind_returns in Hren as (d1 & e1 & r1 & H1 & Hren & ->).
    apply bind_returns in Hren as (d2 & e2 & r2 & H2 & H3 & ->).
    apply rename_returns in H1 as (v1 & G1 & ->).
    destruct (moved_entry data "velocity_x" "x-velocity" v1 Hu) as (A1 & B1 & C1 & U1);
      [discriminate |].
    apply rename_returns in H2 as (v2 & G2 & ->).
    destruct (moved_entry _ "velocity_y" "y-velocity" v2 U1) as (A2 & B2 & C2 & U2);
      [discriminate |].
    apply rename_returns in H3 as (v3 & G3 & ->).
    destruct (moved_entry _ "velocity_z" "z-velocity" v3 U2) as (A3 & B3 & C3 & U3);
      [discriminate |].
    cbv zeta in *.
    pose proof (all_values_get km_pair data _ v1 Ha G1) as K1.
    pose proof (all_values_set km_pair _ (K "velocity_x") v1
                  (all_values_remove km_pair data (K "x-velocity") Ha) K1) as T1.
    pose proof (all_values_get km_pair _ _ v2 T1 G2) as K2.
    pose proof (all_values_set km_pair _ (K "velocity_y") v2
                  (all_values_remove km_pair _ (K "y-velocity") T1) K2) as T2.
    pose proof (all_values_get km_pair _ _ v3 T2 G3) as K3.
    pose proof (all_values_set km_pair _ (K "velocity_z") v3
                  (all_values_remove km_pair _ (K "z-velocity") T2) K3) as T3.
    clear G2 G3.
    destruct (km_pair_form v1 K1) as [x ->].
    destruct (km_pair_form v2 K2) as [y ->].
    destruct (km_pair_form v3 K3) as [z ->].
    split; [exists x, y, z; split; [| split] | split; [| split; [| split; [| split]]]].
    + rewrite C3, C2 by discriminate. exact A1.
    + rewrite C3 by discriminate. exact A2.
    + exact A3.
    + rewrite C3, C2 by discriminate. exact B1.
    + rewrite C3 by discriminate. exact B2.
    + exact B3.
    + exact U3.
    + exact T3.
  - intros data Hnone. unfold GenericArray.cell_fits_rename, bind.
    now rewrite (rename_missing data "velocity_x" "x-velocity" Hnone lib h).
Qed.

Lemma fits_cells_hand_on_velocities_witness :
  exists d es,
    bind (GenericArray.cell_fits_data (VObj 50)) GenericArray.cell_fits_rename
      Sample.library [] = (Ok d, es)
    /\ dict_get d (K "x-velocity") = None
    /\ unique_keys d.
Proof.
  do 2 eexists. split; [vm_compute; reflexivity |].
  refine ((fun H => conj (proj1 (proj2 H)) (proj1 (proj2 (proj2 (proj2 (proj2 H))))))
            (proj1 (fits_cells_hand_on_velocities (VObj 50) Sample.library []) _ _ _)).
  vm_compute. reflexivity.
Defined.

(* ===================================================================== *)
(** * More on the array notebook: the HDF5 comprehension *)

Lemma dict_set_length (d : dict) (k : key) (v : value) :
  (length (dict_set d k v) <= S (length d))%nat.
Proof.
  induction d as [| [k' v'] d IH]; cbn; [lia |].
  destruct (key_eqb k k'); cbn; lia.
Qed.

Lemma hdf5_entry_gathers (item u : value) (n : nat) (d : dict) :
  In u GenericArray.units -> gathered n d ->
  always any_call (gathered (S n)) (GenericArray.hdf5_entry (item, u) d).
Proof.
  intros Hu (Hn & Hk & Hv). pose proof quiet_any_call as Hq.
  unfold GenericArray.hdf5_entry.
  apply always_bind with (P := fun _ => True); [walk Hq | intros [k v] _].
  apply always_bind with (P := fun _ => True); [walk Hq | intros arr _].
  unfold setitem. destruct (to_key k) as [k' |]; [| apply always_raise].
  apply always_ret. split; [| split].
  - pose proof (dict_set_length d k' (VTuple [arr; u])). lia.
  - now apply unique_keys_set.
  - apply all_values_set; [exact Hv |].
    unfold GenericArray.units in Hu. cbn in Hu.
    repeat (destruct Hu as [<- | Hu]; [reflexivity |]). contradiction.
Qed.

Lemma for_pairs_gathers (xs : list (value * value)) :
  Forall (fun x => In (snd x) GenericArray.units) xs ->
  forall n d, gathered n d ->
  always any_call (gathered (n + length xs)) (GenericArray.for_pairs xs GenericArray.hdf5_entry d).
Proof.
  induction 1 as [| [item u] xs Hu _ IH]; intros n d Hd; cbn [GenericArray.for_pairs length].
  - apply always_ret. now rewrite Nat.add_0_r.
  - eapply always_bind; [exact (hdf5_entry_gathers item u n d Hu Hd) |].
    intros d' Hd'. replace (n + S (length xs))%nat with (S n + length xs)%nat by lia.
    now apply IH.
Qed.

Lemma combine_units (items : list value) :
  Forall (fun x => In (snd x) GenericArray.units) (combine items GenericArray.units)
  /\ (length (combine items GenericArray.units) <= 12)%nat
  /\ (length (combine items GenericArray.units) <= length items)%nat.
Proof.
  split; [| rewrite length_combine; cbn; lia].
  apply Forall_forall. intros [i u] Hin. exact (in_combine_r _ _ _ _ Hin).
Qed.


Lemma ask_run (c : call) (v : value) (lib : library) (h : history) :
  lib h c = Ok v -> ask c lib h = (Ok v, [(c, Ok v)]).
Proof. intros H. unfold ask. cbn. now rewrite H. Qed.

Lemma bind_fst {A B} (m : M A) (k : A -> M B) (lib : library) (h : history)
  (a : A) (es : history) :
  m lib h = (Ok a, es) -> fst (bind m k lib h) = fst (k a lib (h ++ es)).
Proof. intros H. unfold bind. rewrite H. now destruct (k a lib (h ++ es)). Qed.

Lemma hdf5_entry_steady (lib : library) (e : dataset) (u : value) (d : dict) (h : history) :
  (forall h', lib h' (mkcall GetItem [VObj (dataset_id e); VTuple []] [])
              = Ok (dataset_array e)) ->
  GenericArray.hdf5_entry (item_of e, u) d lib h
  = (Ok (zip_round d (e, u)),
     [(mkcall GetItem [VObj (dataset_id e); VTuple []] [], Ok (dataset_array e))]).
Proof.
  intros H.
  unfold GenericArray.hdf5_entry, item_of, unpack2, iterate, subscript, setitem, bind, ret, ask.
  cbn [app to_key]. rewrite H. reflexivity.
Qed.

Lemma for_pairs_steady (lib : library) (pairs : list (dataset * value)) :
  (forall h e, In e (map fst pairs) ->
     lib h (mkcall GetItem [VObj (dataset_id e); VTuple []] []) = Ok (dataset_array e)) ->
  forall d h,
    fst (GenericArray.for_pairs (map (fun eu => (item_of (fst eu), snd eu)) pairs)
           GenericArray.hdf5_entry d lib h)
    = Ok (fold_left zip_round pairs d).
Proof.
  induction pairs as [| [e u] pairs IH]; intros H d h;
    cbn [map GenericArray.for_pairs fold_left fst snd]; [reflexivity |].
  rewrite (bind_fst _ _ lib h _ _
             (hdf5_entry_steady lib e u d h (fun h' => H h' e (or_introl eq_refl)))).
  apply IH. intros h' e' He'. apply H. now right.
Qed.

Lemma combine_items (entries : list dataset) (us : list value) :
  combine (map item_of entries) us
  = map (fun eu => (item_of (fst eu), snd eu)) (combine entries us).
Proof.
  revert us. induction entries as [| e entries IH]; intros us; [reflexivity |].
  destruct us as [| u us]; [reflexivity |].
  cbn [map combine fst snd]. now rewrite IH.
Qed.

Lemma combine_beyond {A B} (l extra : list A) (us : list B) :
  (length us <= length l)%nat -> combine (l ++ extra) us = combine l us.
Proof.
  revert us. induction l as [| a l IH]; intros us H.
  - destruct us; [now destruct extra | cbn in H; lia].
  - destruct us as [| u us]; [reflexivity |].
    cbn [app combine]. f_equal. apply IH. cbn in H. lia.
Qed.

Lemma combine_nth {A B} (l : list A) (us : list B) (i : nat) (a : A) (u : B) :
  nth_error l i = Some a -> nth_error us i = Some u -> In (a, u) (combine l us).
Proof.
  revert us i. induction l as [| x l IH]; intros us i Ha Hu.
  - now destruct i.
  - destruct us as [| y us]; [now destruct i |].
    destruct i as [| i]; cbn in Ha, Hu.
    + injection Ha as ->. injection Hu as ->. now left.
    + right. now apply IH with i.
Qed.

Lemma zip_keeps (pairs : list (dataset * value)) (d : dict) (k : string) :
  (forall p, In p pairs -> dataset_name (fst p) <> k) ->
  dict_get (fold_left zip_round pairs d) (K k) = dict_get d (K k).
Proof.
  revert d. induction pairs as [| p pairs IH]; intros d H; cbn [fold_left]; [reflexivity |].
  rewrite IH by (intros q Hq; apply H; now right).
  unfold zip_round. apply dict_get_set_other.
  intros E. injection E as E. apply (H p); [now left | now symmetry].
Qed.

Lemma zip_binds (pairs : list (dataset * value)) (d : dict) (e : dataset) (u : value) :
  NoDup (map (fun p => dataset_name (fst p)) pairs) ->
  In (e, u) pairs ->
  dict_get (fold_left zip_round pairs d) (K (dataset_name e))
  = Some (VTuple [dataset_array e; u]).
Proof.
  revert d. induction pairs as [| p pairs IH]; intros d Hn Hin; [contradiction |].
  cbn [map] in Hn. inversion Hn as [| x l Hx Hn']; subst. cbn [fold_left].
  destruct Hin as [-> | Hin].
  - rewrite zip_keeps.
    + unfold zip_round. cbn [fst snd]. apply dict_get_set_same.
    + intros q Hq E. apply Hx. cbn [fst]. rewrite <- E.
      now apply (in_map (fun p => dataset_name (fst p))).
  - now apply IH.
Qed.

Lemma combine_names (entries : list dataset) (us : list value) :
  NoDup (map dataset_name entries) ->
  NoDup (map (fun p => dataset_name (fst p)) (combine entries us)).
Proof.
  revert us. induction entries as [| e entries IH]; intros us Hn; [constructor |].
  destruct us as [| u us]; [constructor |].
  cbn [map] in Hn. inversion Hn as [| x l Hx Hn']; subst.
  cbn [combine map fst]. constructor; [| now apply IH].
  intros Hin. apply Hx.
  apply in_map_iff in Hin as ([e' u'] & E & Hin). cbn [fst] in E. rewrite <- E.
  apply in_map. exact (in_combine_l _ _ _ _ Hin).
Qed.

(** X8.  The HDF5 comprehension on a file that answers steadily: the
    dictionary it returns binds the name of the i-th dataset to the pair of
    that dataset's array and the i-th listed unit, round after round, as far as
    datasets and units both reach; so a thirteenth dataset and any further one
    is left out, and with distinct names the i-th dataset has the i-th unit.
    The box is a 3 by 2 array.  Whatever the file holds and the library
    answers, the dictionary has at most twelve entries with unique keys, each
    a pair whose second part is one of the listed units. *)
Theorem hdf5_comprehension_zips_items_and_units
  (lib : library) (f : value) (entries : list dataset) (h : history) :
  steady_hdf5 lib f entries ->
  fst (GenericArray.cell_hdf5_data f lib h) = Ok (zipped entries, VArray [3; 2]%Z)
  /\ (forall extra, (12 <= length entries)%nat -> zipped (entries ++ extra) = zipped entries)
  /\ (forall i e u,
        NoDup (map dataset_name entries) ->
        nth_error entries i = Some e ->
        nth_error GenericArray.units i = Some u ->
        dict_get (zipped entries) (K (dataset_name e)) = Some (VTuple [dataset_array e; u]))
  /\ always any_call
       (fun r => (length (fst r) <= 12)%nat
                 /\ unique_keys (fst r)
                 /\ Checks.all_values listed_unit (fst r) = true
                 /\ snd r = VArray [3; 2]%Z)
       (GenericArray.cell_hdf5_data f).
Proof.
  intros (its & Hitems & Hiter & Hread). split; [| split; [| split]].
  - unfold GenericArray.cell_hdf5_data, method.
    rewrite (bind_fst _ _ lib h _ _ (ask_run _ _ lib h (Hitems h))).
    assert (Hit : forall h', iterate (VObj its) lib h'
                             = (Ok (map item_of entries),
                                [(mkcall Iter [VObj its] [], Ok (VList (map item_of entries)))])).
    { intros h'. unfold iterate, bind. now rewrite (ask_run _ _ lib h' (Hiter h')). }
    rewrite (bind_fst _ _ lib _ _ _ (Hit _)).
    rewrite combine_items.
    assert (Hread' : forall h0 e,
               In e (map fst (combine entries GenericArray.units)) ->
               lib h0 (mkcall GetItem [VObj (dataset_id e); VTuple []] [])
               = Ok (dataset_array e)).
    { intros h0 e He. apply Hread. apply in_map_iff in He as ([e' u] & <- & Hp).
      exact (in_combine_l _ _ _ _ Hp). }
    match goal with
    | |- fst (bind (GenericArray.for_pairs ?xs ?b ?d) _ lib ?h') = _ =>
        pose proof (for_pairs_steady lib _ Hread' [] h') as Hrun;
        destruct (GenericArray.for_pairs xs b d lib h') as [r es] eqn:E
    end.
    cbn [fst] in Hrun. subst r. rewrite (bind_fst _ _ lib _ _ _ E). reflexivity.
  - intros extra Hlen. unfold zipped. rewrite combine_beyond; [reflexivity |].
    change (length GenericArray.units) with 12%nat. exact Hlen.
  - intros i e u Hn He Hu. unfold zipped.
    apply zip_binds; [now apply combine_names | now apply combine_nth with i].
  - pose proof quiet_any_call as Hq. unfold GenericArray.cell_hdf5_data.
    apply always_bind with (P := fun _ => True); [walk Hq | intros its' _].
    apply always_bind with (P := fun _ => True); [walk Hq | intros items _].
    destruct (combine_units items) as (Hu & H12 & _).
    apply always_bind with (P := gathered (0 + length (combine items GenericArray.units))).
    + apply for_pairs_gathers; [exact Hu |].
      split; [cbn; lia | split; [constructor | reflexivity]].
    + intros data (Hn & Hk & Hv). apply always_ret. cbn [fst snd].
      split; [lia | split; [exact Hk | split; [exact Hv | reflexivity]]].
Qed.

Lemma hdf5_comprehension_zips_items_and_units_witness :
  steady_hdf5 three_datasets_file (VObj 7) three_datasets
  /\ fst (GenericArray.cell_hdf5_data (VObj 7) three_datasets_file [])
     = Ok ([ (K "Bx", VTuple [VArray [16; 16; 16]%Z; VStr "gauss"])
           ; (K "Density", VTuple [VArray [16; 16; 16]%Z; VStr "gauss"])
           ; (K "Temperature", VTuple [VArray [16; 16; 16]%Z; VStr "gauss"]) ],
           VArray [3; 2]%Z).
Proof.
  assert (Hs : steady_hdf5 three_datasets_file (VObj 7) three_datasets).
  { exists 0%Z. split; [reflexivity | split; [reflexivity |]].
    intros h e He. unfold three_datasets in He. cbn in He.
    destruct He as [<- | [<- | [<- | []]]]; reflexivity. }
  split; [exact Hs |].
  exact (proj1 (hdf5_comprehension_zips_items_and_units
                  three_datasets_file (VObj 7) three_datasets [] Hs)).
Defined.

(* ===================================================================== *)
(** * More on the array notebook: the grid dictionaries *)
(* ===================================================================== *)

Lemma pure_bind {A B} (m : M A) (k : A -> M B) (v : A) (w : B) :
  pure m v -> pure (k v) w -> pure (bind m k) w.
Proof. intros Hm Hk lib h. unfold bind. now rewrite Hm, Hk. Qed.


Lemma fails_bind {A B} (m : M A) (k : A -> M B) (e : exn) :
  fails m e -> fails (bind m k) e.
Proof. intros Hm lib h. unfold bind. now rewrite Hm. Qed.

Lemma pure_fails {A B} (m : M A) (k : A -> M B) (v : A) (e : exn) :
  pure m v -> fails (k v) e -> fails (bind m k) e.
Proof. intros Hm Hk lib h. unfold bind. now rewrite Hm, Hk. Qed.

Lemma pure_returns {A} (m : M A) (v : A) : pure m v -> returns m v.
Proof. intros H lib h. now rewrite H. Qed.

Lemma fails_raises {A} (m : M A) (e : exn) : fails m e -> raises m e.
Proof. intros H lib h. now rewrite H. Qed.

















(** ** The particle cell, with the grid dictionaries as objects *)

Lemma seq_index_nil {A} (i : Z) : seq_index (@nil A) i = None.
Proof.
  unfold seq_index. cbn [length Z.of_nat].
  destruct (i <? 0)%Z eqn:E.
  - rewrite Z.add_0_r. apply Z.ltb_lt in E.
    destruct (0 <=? i)%Z eqn:E'; [apply Z.leb_le in E'; lia | reflexivity].
  - destruct (i <? 0)%Z; [discriminate |]. now rewrite andb_false_r.
Qed.

Lemma seq_index_0 {A} (a : A) (l : list A) : seq_index (a :: l) 0 = Some a.
Proof.
  unfold seq_index. cbn [length].
  replace (0 <? Z.of_nat (S (length l)))%Z with true by (symmetry; apply Z.ltb_lt; lia).
  reflexivity.
Qed.

Lemma seq_index_1 {A} (a b : A) (l : list A) : seq_index (a :: b :: l) 1 = Some b.
Proof.
  unfold seq_index. cbn [length]. change (1 <? 0)%Z with false. cbv iota.
  replace (1 <? Z.of_nat (S (S (length l))))%Z with true by (symmetry; apply Z.ltb_lt; lia).
  reflexivity.
Qed.

Lemma replace_nth_length {A} (l : list A) (n : nat) (x : A) :
  length (GenericArray.replace_nth l n x) = length l.
Proof.
  revert n. induction l as [| y l IH]; intros [| n]; cbn; try reflexivity. now rewrite IH.
Qed.

Lemma replace_nth_same {A} (l : list A) (n : nat) (x y : A) :
  nth_error l n = Some y -> nth_error (GenericArray.replace_nth l n x) n = Some x.
Proof.
  revert n. induction l as [| z l IH]; intros [| n]; cbn; try discriminate; auto.
Qed.

Lemma replace_nth_other {A} (l : list A) (n m : nat) (x : A) :
  n <> m -> nth_error (GenericArray.replace_nth l n x) m = nth_error l m.
Proof.
  revert n m. induction l as [| z l IH]; intros [| n] [| m] H; cbn; try reflexivity.
  - contradiction.
  - apply IH. intros ->. now apply H.
Qed.

Lemma update_length (hp : heap) (r : nat) (f : dict -> dict) :
  length (update hp r f) = length hp.
Proof.
  unfold update. destruct (nth_error hp r); [apply replace_nth_length | reflexivity].
Qed.

Lemma update_same (hp : heap) (r : nat) (f : dict -> dict) :
  nth_error (update hp r f) r = option_map f (nth_error hp r).
Proof.
  unfold update. destruct (nth_error hp r) as [g |] eqn:E; cbn.
  - now apply replace_nth_same with g.
  - exact E.
Qed.

Lemma update_other (hp : heap) (r r' : nat) (f : dict -> dict) :
  r <> r' -> nth_error (update hp r f) r' = nth_error hp r'.
Proof.
  intros H. unfold update. destruct (nth_error hp r); [now apply replace_nth_other | reflexivity].
Qed.

Lemma replace_nth_twice {A} (l : list A) (n : nat) (x y : A) :
  GenericArray.replace_nth (GenericArray.replace_nth l n x) n y
  = GenericArray.replace_nth l n y.
Proof.
  revert n. induction l as [| z l IH]; intros [| n]; cbn; try reflexivity. now rewrite IH.
Qed.

Lemma update_twice (hp : heap) (r : nat) (f f' : dict -> dict) :
  update (update hp r f) r f' = update hp r (fun g => f' (f g)).
Proof.
  unfold update at 1. rewrite update_same.
  destruct (nth_error hp r) as [g |] eqn:E; cbn [option_map].
  - unfold update. rewrite E. apply replace_nth_twice.
  - unfold update. now rewrite E.
Qed.

Lemma grid_setitem_at_0 (hp : heap) (r0 : nat) (rest : list nat) (k : string) (v : value) :
  (r0 < length hp)%nat ->
  pure (grid_setitem_at hp (r0 :: rest) 0 k v) (update hp r0 (fun g => dict_set g (K k) v)).
Proof.
  intros H lib h. unfold grid_setitem_at, update. rewrite seq_index_0.
  destruct (nth_error hp r0) eqn:E; [reflexivity |].
  apply nth_error_None in E. lia.
Qed.

Lemma grid_setitem_at_1 (hp : heap) (r0 r1 : nat) (rest : list nat) (k : string)
  (v : value) :
  (r1 < length hp)%nat ->
  pure (grid_setitem_at hp (r0 :: r1 :: rest) 1 k v)
       (update hp r1 (fun g => dict_set g (K k) v)).
Proof.
  intros H lib h. unfold grid_setitem_at, update. rewrite seq_index_1.
  destruct (nth_error hp r1) eqn:E; [reflexivity |].
  apply nth_error_None in E. lia.
Qed.

Lemma grid_setitem_at_nil (hp : heap) (i : Z) (k : string) (v : value) :
  fails (grid_setitem_at hp [] i k v) IndexError.
Proof. intros lib h. unfold grid_setitem_at. now rewrite seq_index_nil. Qed.

Lemma grid_setitem_at_short (hp : heap) (r0 : nat) (k : string) (v : value) :
  fails (grid_setitem_at hp [r0] 1 k v) IndexError.
Proof. intros lib h. reflexivity. Qed.

Lemma uniform_draw : pure (prng_uniform 0.25 0.75 (VInt 1000)) (VArray [1000]%Z).
Proof. intros lib h. reflexivity. Qed.

Lemma filled_by_steps (hp : heap) (r0 r1 : nat) (e0 e1 : value) :
  update (update (update (update (update (update hp
    r0 (fun g => dict_set g (K "particle_position_x") e0))
    r0 (fun g => dict_set g (K "particle_position_y") e0))
    r0 (fun g => dict_set g (K "particle_position_z") e0))
    r1 (fun g => dict_set g (K "particle_position_x") e1))
    r1 (fun g => dict_set g (K "particle_position_y") e1))
    r1 (fun g => dict_set g (K "particle_position_z") e1)
  = update (update hp r0
      (fun g => fold_left (fun d k => dict_set d k e0) position_keys g))
      r1 (fun g => fold_left (fun d k => dict_set d k e1) position_keys g).
Proof. now rewrite !update_twice. Qed.

(** The particle cell on a heap where the two addresses are in use. *)
Lemma particle_cell_at (hp : heap) (r0 r1 : nat) (rest : list nat) :
  (r0 < length hp)%nat -> (r1 < length hp)%nat ->
  pure (cell_grid_particles_at hp (r0 :: r1 :: rest)) (particles_filled hp r0 r1).
Proof.
  intros H0 H1. unfold cell_grid_particles_at, particles_filled, with_positions.
  cbv zeta. rewrite <- filled_by_steps.
  do 3 (eapply pure_bind;
        [apply grid_setitem_at_0; rewrite ?update_length; exact H0 |]).
  do 2 (eapply pure_bind; [exact uniform_draw |];
        eapply pure_bind;
        [apply grid_setitem_at_1; rewrite ?update_length; exact H1 |]).
  eapply pure_bind; [exact uniform_draw |].
  apply grid_setitem_at_1. rewrite ?update_length. exact H1.
Qed.

Lemma particle_cell_at_short (hp : heap) (r0 : nat) :
  (r0 < length hp)%nat ->
  raises (cell_grid_particles_at hp []) IndexError
  /\ raises (cell_grid_particles_at hp [r0]) IndexError.
Proof.
  intros Hr. split; apply fails_raises; unfold cell_grid_particles_at; cbv zeta.
  - apply fails_bind, grid_setitem_at_nil.
  - do 3 (eapply pure_fails;
          [apply grid_setitem_at_0; rewrite ?update_length; exact Hr |]).
    eapply pure_fails; [exact uniform_draw |].
    apply fails_bind, grid_setitem_at_short.
Qed.

Lemma with_positions_gets (g : dict) (n : Z) :
  Forall (fun k => dict_get (with_positions g n) k
                   = Some (VTuple [VArray [n]; VStr "code_length"])) position_keys
  /\ (forall k, ~ In k position_keys -> dict_get (with_positions g n) k = dict_get g k).
Proof.
  unfold with_positions, position_keys. cbn [fold_left]. split.
  - repeat constructor.
    + rewrite !dict_get_set_other by discriminate. apply dict_get_set_same.
    + rewrite dict_get_set_other by discriminate. apply dict_get_set_same.
    + apply dict_get_set_same.
  - intros k Hk. cbn [In] in Hk.
    rewrite !dict_get_set_other; [reflexivity | | |]; intros ->; apply Hk; auto.
Qed.

Lemma with_positions_lengths (g : dict) (n : Z) :
  Checks.equal_lengths (with_positions g n) None = true
  /\ Checks.position_len (with_positions g n) None "x" = Some n.
Proof.
  destruct (with_positions_gets g n) as [Hk _].
  inversion Hk as [| ? ? Hx Hk']; subst. inversion Hk' as [| ? ? Hy Hk'']; subst.
  inversion Hk'' as [| ? ? Hz _]; subst.
  unfold Checks.equal_lengths, Checks.position_len, Checks.position_key.
  cbn [append]. rewrite Hx, Hy, Hz. cbn. now rewrite Z.eqb_refl.
Qed.

(** The cell on a list of values, as the notebook embedding has it. *)
Lemma particle_cell_on_values (g0 g1 : dict) (rest : list dict) :
  pure (GenericArray.cell_grid_particles (g0 :: g1 :: rest))
       (with_positions g0 0 :: with_positions g1 1000 :: rest).
Proof.
  assert (S0 : forall g rest k v,
             pure (GenericArray.grid_setitem (g :: rest) 0 k v) (dict_set g (K k) v :: rest)).
  { intros g r k v lib h. unfold GenericArray.grid_setitem. now rewrite seq_index_0. }
  assert (S1 : forall g g' rest k v,
             pure (GenericArray.grid_setitem (g :: g' :: rest) 1 k v)
                  (g :: dict_set g' (K k) v :: rest)).
  { intros g g' r k v lib h. unfold GenericArray.grid_setitem. now rewrite seq_index_1. }
  unfold GenericArray.cell_grid_particles.
  do 3 (eapply pure_bind; [apply S0 |]).
  do 2 (eapply pure_bind; [exact uniform_draw |]; eapply pure_bind; [apply S1 |]).
  eapply pure_bind; [exact uniform_draw |]. apply S1.
Qed.

Lemma at_address_filled (hp : heap) (r0 r1 r : nat) :
  (r0 < length hp)%nat -> (r1 < length hp)%nat ->
  at_address (particles_filled hp r0 r1) r
  = if Nat.eqb r r1 then with_positions
                           (if Nat.eqb r0 r1 then with_positions (at_address hp r0) 0
                            else at_address hp r1) 1000
    else if Nat.eqb r r0 then with_positions (at_address hp r0) 0
    else at_address hp r.
Proof.
  intros H0 H1.
  destruct (nth_error hp r0) as [g0 |] eqn:E0; [| apply nth_error_None in E0; lia].
  destruct (nth_error hp r1) as [g1 |] eqn:E1; [| apply nth_error_None in E1; lia].
  unfold at_address, particles_filled.
  destruct (Nat.eqb_spec r r1) as [-> | N1].
  - rewrite update_same.
    destruct (Nat.eqb_spec r0 r1) as [-> | N01].
    + rewrite update_same, E1. reflexivity.
    + rewrite update_other by exact N01. rewrite E1. reflexivity.
  - rewrite update_other by (intros E; now apply N1).
    destruct (Nat.eqb_spec r r0) as [-> | N0].
    + rewrite update_same, E0. reflexivity.
    + now rewrite update_other by (intros E; now apply N0).
Qed.

(** X10.  The particle cell, with the grid dictionaries as objects that the
    list refers to, and with np.array([]) and prng.uniform(size=1000) taken
    to give arrays of length 0 and 1000.  On a list of no or one dictionary it
    raises IndexError.  On a list of two or more it returns; the dictionary
    the second place refers to then has three position arrays of length 1000,
    and the one the first place refers to has three of length 0 if it is
    another dictionary: if both places refer to one dictionary, that one ends
    with the arrays of length 1000.  Every other dictionary is left as it
    was.  When the places of the list refer to dictionaries that are all
    different, as in the notebook, this agrees with the cell run on the list
    of the dictionaries themselves. *)
Theorem particle_cell_writes_through_the_list
  (hp : heap) (r0 r1 : nat) (rest : list nat) :
  (r0 < length hp)%nat ->
  (r1 < length hp)%nat ->
  let hp' := particles_filled hp r0 r1 in
  returns (cell_grid_particles_at hp (r0 :: r1 :: rest)) hp'
  /\ raises (cell_grid_particles_at hp []) IndexError
  /\ raises (cell_grid_particles_at hp [r0]) IndexError
  /\ length hp' = length hp
  /\ Checks.position_len (at_address hp' r1) None "x" = Some 1000%Z
  /\ Checks.equal_lengths (at_address hp' r1) None = true
  /\ Checks.position_len (at_address hp' r0) None "x"
     = Some (if Nat.eqb r0 r1 then 1000 else 0)%Z
  /\ Checks.equal_lengths (at_address hp' r0) None = true
  /\ (forall r, r <> r0 -> r <> r1 -> at_address hp' r = at_address hp r)
  /\ (forall k r, ~ In k position_keys ->
        dict_get (at_address hp' r) k = dict_get (at_address hp r) k)
  /\ (NoDup (r0 :: r1 :: rest) ->
      returns (GenericArray.cell_grid_particles (deref hp (r0 :: r1 :: rest)))
              (deref hp' (r0 :: r1 :: rest))).
Proof.
  intros H0 H1 hp'. unfold hp'.
  destruct (particle_cell_at_short hp r0 H0) as [Hnil Hone].
  repeat match goal with |- _ /\ _ => split end; try assumption.
  - apply pure_returns. now apply particle_cell_at.
  - unfold particles_filled. now rewrite !update_length.
  - rewrite (at_address_filled hp r0 r1 _ H0 H1), Nat.eqb_refl. apply with_positions_lengths.
  - rewrite (at_address_filled hp r0 r1 _ H0 H1), Nat.eqb_refl. apply with_positions_lengths.
  - rewrite (at_address_filled hp r0 r1 _ H0 H1). rewrite Nat.eqb_refl.
    destruct (Nat.eqb r0 r1); apply with_positions_lengths.
  - rewrite (at_address_filled hp r0 r1 _ H0 H1). rewrite Nat.eqb_refl.
    destruct (Nat.eqb r0 r1); apply with_positions_lengths.
  - intros r N0 N1. rewrite (at_address_filled hp r0 r1 _ H0 H1).
    destruct (Nat.eqb_spec r r1); [contradiction |].
    destruct (Nat.eqb_spec r r0); [contradiction | reflexivity].
  - intros k r Hk. rewrite (at_address_filled hp r0 r1 _ H0 H1).
    destruct (Nat.eqb_spec r r1) as [-> | N1].
    + rewrite (proj2 (with_positions_gets _ 1000) k Hk).
      destruct (Nat.eqb_spec r0 r1) as [-> | N01]; [| reflexivity].
      exact (proj2 (with_positions_gets _ 0) k Hk).
    + destruct (Nat.eqb_spec r r0) as [-> | N0]; [| reflexivity].
      exact (proj2 (with_positions_gets _ 0) k Hk).
  - intros Hn. apply pure_returns. unfold deref. cbn [map].
    inversion Hn as [| ? ? Hr0 Hn']; subst. inversion Hn' as [| ? ? Hr1 _]; subst.
    assert (N01 : r0 <> r1) by (intros ->; apply Hr0; now left).
    rewrite !(at_address_filled hp r0 r1 _ H0 H1), !Nat.eqb_refl.
    destruct (Nat.eqb_spec r0 r1) as [E | _]; [contradiction |].
    replace (map (at_address (particles_filled hp r0 r1)) rest)
      with (map (at_address hp) rest); [apply particle_cell_on_values |].
    apply map_ext_in. intros r Hr. rewrite (at_address_filled hp r0 r1 _ H0 H1).
    destruct (Nat.eqb_spec r r1) as [-> | _]; [contradiction |].
    destruct (Nat.eqb_spec r r0) as [-> | _]; [| reflexivity].
    exfalso. apply Hr0. now right.
Qed.

Lemma particle_cell_writes_through_the_list_witness :
  let g := dict_of [(K "level", VInt 0)] in
  (0 < length [g])%nat
  /\ returns (cell_grid_particles_at [g] [0; 0]%nat) [with_positions (with_positions g 0) 1000]
  /\ Checks.position_len (at_address (particles_filled [g] 0 0) 0) None "x" = Some 1000%Z.
Proof.
  intros g. assert (H : (0 < length [g])%nat) by (cbn; lia).
  split; [exact H |].
  pose proof (particle_cell_writes_through_the_list [g] 0 0 [] H H) as T.
  split; [exact (proj1 T) |].
  exact (proj1 (proj2 (proj2 (proj2 (proj2 (proj2 (proj2 T))))))).
Defined.

(* ===================================================================== *)
(** * More on the FITS notebook: the derived fields *)
(* ===================================================================== *)










(* ===================================================================== *)
(** * More on the trajectories notebook: the dataset loaded first *)

Lemma before_trans (a b c : string) : before a b -> before b c -> before a c.
Proof.
  unfold before, String.leb. revert b c.
  induction a as [| c1 a IH]; intros [| c2 b] [| c3 c]; cbn; try easy.
  unfold Ascii.compare.
  destruct (N.compare_spec (N_of_ascii c1) (N_of_ascii c2)) as [E1 | L1 | G1];
    destruct (N.compare_spec (N_of_ascii c2) (N_of_ascii c3)) as [E2 | L2 | G2];
    try discriminate.
  - rewrite E1, E2, N.compare_refl. apply IH.
  - intros _ _. rewrite E1. now rewrite (proj2 (N.compare_lt_iff _ _) L2).
  - intros _ _. rewrite <- E2. now rewrite (proj2 (N.compare_lt_iff _ _) L1).
  - intros _ _. now rewrite (proj2 (N.compare_lt_iff _ _) (N.lt_trans _ _ _ L1 L2)).
Qed.

Lemma insert_sorted_perm (x : string) (l : list string) :
  Permutation (insert_sorted x l) (x :: l).
Proof.
  induction l as [| y l IH]; cbn; [reflexivity |].
  destruct (String.leb x y); [reflexivity |].
  rewrite IH. apply perm_swap.
Qed.

Lemma sort_strings_perm (l : list string) : Permutation (sort_strings l) l.
Proof.
  induction l as [| x l IH]; cbn; [reflexivity |].
  rewrite insert_sorted_perm. now constructor.
Qed.

Lemma insert_sorted_ordered (x : string) (l : list string) :
  StronglySorted before l -> StronglySorted before (insert_sorted x l).
Proof.
  induction 1 as [| y l Hl IH Hy]; cbn; [repeat constructor |].
  destruct (String.leb x y) eqn:E.
  - constructor; [now constructor |]. constructor; [exact E |].
    eapply Forall_impl; [| exact Hy]. intros z Hz. now apply before_trans with y.
  - constructor; [exact IH |].
    apply Forall_forall. intros z Hz.
    apply (Permutation_in _ (insert_sorted_perm x l)) in Hz. destruct Hz as [<- | Hz].
    + destruct (String.leb_total x y) as [H | H]; [congruence | exact H].
    + exact (proj1 (Forall_forall _ _) Hy z Hz).
Qed.

Lemma sort_strings_ordered (l : list string) : StronglySorted before (sort_strings l).
Proof.
  induction l as [| x l IH]; cbn; [constructor | now apply insert_sorted_ordered].
Qed.

Lemma ordered_unique (l1 l2 : list string) :
  StronglySorted before l1 -> StronglySorted before l2 -> Permutation l1 l2 -> l1 = l2.
Proof.
  intros H1. revert l2. induction H1 as [| a l1 H1 IH Ha]; intros l2 H2 Hp.
  - now apply Permutation_nil in Hp.
  - destruct H2 as [| b l2 H2 Hb]; [now apply Permutation_sym, Permutation_nil in Hp |].
    assert (a = b) as <-.
    { assert (In a (b :: l2)) as Hin1 by (apply (Permutation_in _ Hp); now left).
      assert (In b (a :: l1)) as Hin2
        by (apply (Permutation_in _ (Permutation_sym Hp)); now left).
      destruct Hin1 as [E | Hin1]; [now symmetry |].
      destruct Hin2 as [E | Hin2]; [exact E |].
      apply String.leb_antisym.
      - exact (proj1 (Forall_forall _ _) Ha b Hin2).
      - exact (proj1 (Forall_forall _ _) Hb a Hin1). }
    f_equal. apply IH; [exact H2 |]. now apply Permutation_cons_inv in Hp.
Qed.

Lemma sort_strings_of_perm (l1 l2 : list string) :
  Permutation l1 l2 -> sort_strings l1 = sort_strings l2.
Proof.
  intros Hp. apply ordered_unique; try apply sort_strings_ordered.
  now rewrite !sort_strings_perm.
Qed.

Lemma strings_of_map (l : list string) : strings_of (map VStr l) = Some l.
Proof. induction l as [| x l IH]; cbn; [reflexivity | now rewrite IH]. Qed.

Lemma list_sort_strings (l : list string) :
  list_sort (VList (map VStr l)) = ret (VList (map VStr (sort_strings l))).
Proof. unfold list_sort. now rewrite strings_of_map. Qed.

Lemma first_event_ask {B} (c : call) (k : value -> M B) (lib : library) (h : history) :
  hd_error (snd (bind (ask c) k lib h)) = Some (c, lib h c).
Proof.
  unfold bind, ask. cbn. destruct (lib h c) as [v | e]; [| reflexivity].
  now destruct (k v lib (h ++ [(c, Ok v)])).
Qed.

Lemma bind_ret_run {A B} (a : A) (k : A -> M B) (lib : library) (h : history) :
  bind (ret a) k lib h = k a lib (h ++ []).
Proof. unfold bind, ret. now destruct (k a lib (h ++ [])). Qed.

Lemma sort_strings_head (s : string) (ss : list string) :
  exists m rest, sort_strings (s :: ss) = m :: rest /\ least m (s :: ss).
Proof.
  pose proof (sort_strings_perm (s :: ss)) as Hp.
  pose proof (sort_strings_ordered (s :: ss)) as Ho.
  destruct (sort_strings (s :: ss)) as [| m rest].
  - now apply Permutation_nil in Hp.
  - exists m, rest. split; [reflexivity |]. split.
    + apply (Permutation_in _ Hp). now left.
    + intros x Hx. apply (Permutation_in _ (Permutation_sym Hp)) in Hx.
      inversion Ho as [| ? ? _ Hall]; subst. destruct Hx as [<- | Hx].
      * unfold before. destruct (String.leb_total m m); assumption.
      * exact (proj1 (Forall_forall _ _) Hall x Hx).
Qed.

(** X12.  Sorting the file names and loading my_fns[0]: with no file name
    the cell raises IndexError before any library call; with at least one,
    the first thing the cell does is yt.load of a least name of the list;
    and the whole run is the same for any other order of the same names. *)
Theorem first_dataset_has_the_least_name (s : string) (ss : list string)
  (lib : library) (h : history) :
  fails (load_first []) IndexError
  /\ (exists m r,
        least m (s :: ss)
        /\ hd_error (snd (load_first (s :: ss) lib h))
           = Some (mkcall (Func "yt.load") [VStr m] [], r))
  /\ (forall ss', Permutation (s :: ss) ss' -> load_first ss' = load_first (s :: ss)).
Proof.
  split; [| split].
  - intros lib' h'. reflexivity.
  - destruct (sort_strings_head s ss) as (m & rest & E & Hm).
    exists m. eexists. split; [exact Hm |].
    unfold load_first. rewrite list_sort_strings, E, bind_ret_run.
    unfold Trajectories.cell_indices, subscript. cbn [map]. rewrite seq_index_0.
    rewrite bind_ret_run. unfold func. now rewrite first_event_ask.
  - intros ss' Hp. unfold load_first.
    now rewrite !list_sort_strings, (sort_strings_of_perm _ _ Hp).
Qed.
